(** * BookkeepingApp: the journal-order pipeline of [web_app.py]

    A shallow embedding of [BookkeepingProcessor]: the segmenter
    ([split_data]), the column normaliser ([prepare_columns]), the summary
    builder ([create_excel_summary]), the balance validator
    ([get_balance_validation]) and the report of unbalanced transactions
    ([get_problematic_transactions]), then the file-name test of the
    uploads ([allowed_file]) and the three copies of the CSV filter
    ([upload_csv_filter], [filter_csv], [download_filtered_csv]), over a
    small model of the pandas objects they manipulate.

    - A cell of a table is missing, a number (binary64, as pandas' float64),
      a string or a timestamp.
    - A [DataFrame] is a list of column names and a list of labelled rows;
      the label is the pandas index, which row selection keeps.
    - Python exceptions are values of [result].
    - What pandas and Python compute outside of the repository (parsing a
      string as a number or a date, the order in which a float sum is
      accumulated, the maximum of a column that has missing values) is
      the interface [Pandas]. *)

From Stdlib Require Import ZArith List String Ascii Bool Lia Permutation.
From Stdlib Require Import PrimFloat SpecFloat FloatOps FloatAxioms Uint63.
From Stdlib Require Import DecimalString DecimalZ DecimalPos.
Import ListNotations.

Set Warnings "-inexact-float".
Local Open Scope string_scope.
Local Open Scope list_scope.

(** ** Exceptions *)

Inductive exn : Set := KeyError | TypeError | ValueError | OverflowError.

Inductive result (A : Type) : Type :=
| Ok (a : A)
| Raise (e : exn).
Arguments Ok {A} a.
Arguments Raise {A} e.

Definition bind {A B : Type} (m : result A) (k : A -> result B) : result B :=
  match m with
  | Ok a => k a
  | Raise e => Raise e
  end.

Notation "x <- m ;; k" := (bind m (fun x => k))
  (at level 61, m at next level, right associativity).
Notation "' p <- m ;; k" := (bind m (fun p => k))
  (at level 61, p pattern, m at next level, right associativity).

Fixpoint mapM {A B : Type} (f : A -> result B) (l : list A) : result (list B) :=
  match l with
  | [] => Ok []
  | a :: l' => b <- f a ;; bs <- mapM f l' ;; Ok (b :: bs)
  end.

(** ** Cells *)

Record date : Set := mkDate { year : nat; month : nat; day : nat }.

Inductive cell : Set :=
| NA
| Num (x : float)
| Str (s : string)
| Ts (d : date).

(** [Series.isna]: [None], [pd.NA] and the float NaN are all missing. *)
Definition isna (c : cell) : bool :=
  match c with
  | NA => true
  | Num x => is_nan x
  | _ => false
  end.

Definition notna (c : cell) : bool := negb (isna c).

(** Python's [==] on two cells, as dictionary keys and [in] use it. *)
Definition cell_eqb (a b : cell) : bool :=
  match a, b with
  | Num x, Num y => (x =? y)%float
  | Str s, Str t => String.eqb s t
  | Ts d, Ts e =>
      Nat.eqb (year d) (year e) && Nat.eqb (month d) (month e)
      && Nat.eqb (day d) (day e)
  | _, _ => false
  end.

Definition float_of_nat (n : nat) : float :=
  PrimFloat.of_uint63 (Uint63.of_Z (Z.of_nat n)).

(** ** Data frames *)

(** A row is its index label and its cells by column name; the frame keeps
    the column names, in order, even when it has no row. *)
Definition record : Set := list (string * cell).

Definition row : Set := (nat * record)%type.

Record DataFrame : Set := mkDF { columns : list string; rows : list row }.

Definition len (df : DataFrame) : nat := List.length (rows df).

Definition index (df : DataFrame) : list nat := map fst (rows df).

Fixpoint get (c : string) (r : record) : cell :=
  match r with
  | [] => NA
  | (k, v) :: r' => if String.eqb k c then v else get c r'
  end.

Fixpoint put (c : string) (v : cell) (r : record) : record :=
  match r with
  | [] => [(c, v)]
  | (k, w) :: r' =>
      if String.eqb k c then (k, v) :: r' else (k, w) :: put c v r'
  end.

Definition del (c : string) (r : record) : record :=
  filter (fun kv => negb (String.eqb (fst kv) c)) r.

(** [c in df.columns] *)
Definition has_col (df : DataFrame) (c : string) : bool :=
  existsb (String.eqb c) (columns df).

Definition cell_of (c : string) (r : row) : cell := get c (snd r).

(** [df[c]]: the column as a list of cells, [KeyError] when absent. *)
Definition get_col (df : DataFrame) (c : string) : result (list cell) :=
  if has_col df c then Ok (map (cell_of c) (rows df)) else Raise KeyError.

(** [df[mask]]: the rows whose mask entry is true, labels kept. *)
Fixpoint select {A : Type} (mask : list bool) (l : list A) : list A :=
  match mask, l with
  | m :: mask', a :: l' => if m then a :: select mask' l' else select mask' l'
  | _, _ => []
  end.

Definition loc (df : DataFrame) (mask : list bool) : DataFrame :=
  mkDF (columns df) (select mask (rows df)).

Fixpoint zip_with {A B C : Type} (f : A -> B -> C) (l : list A) (m : list B)
  : list C :=
  match l, m with
  | a :: l', b :: m' => f a b :: zip_with f l' m'
  | _, _ => []
  end.

(** [df[c] = vals]: overwrite the column when it exists, append it
    otherwise. *)
Definition set_col (df : DataFrame) (c : string) (vals : list cell)
  : DataFrame :=
  mkDF (if has_col df c then columns df else columns df ++ [c])
       (zip_with (fun (r : row) v => (fst r, put c v (snd r))) (rows df) vals).

(** [df.drop(columns=[c], inplace=True)] *)
Definition drop_col (df : DataFrame) (c : string) : DataFrame :=
  mkDF (filter (fun k => negb (String.eqb k c)) (columns df))
       (map (fun r : row => (fst r, del c (snd r))) (rows df)).

(** [df.rename(columns=mapping, inplace=True)] *)
Fixpoint lookup (k : string) (m : list (string * string)) : option string :=
  match m with
  | [] => None
  | (k', v) :: m' => if String.eqb k k' then Some v else lookup k m'
  end.

Definition rename_col (mapping : list (string * string)) (c : string)
  : string :=
  match lookup c mapping with Some v => v | None => c end.

Definition rename (df : DataFrame) (mapping : list (string * string))
  : DataFrame :=
  mkDF (map (rename_col mapping) (columns df))
       (map (fun r : row =>
               (fst r, map (fun kv => (rename_col mapping (fst kv), snd kv))
                           (snd r)))
            (rows df)).

(** [df.reindex(columns=cols)]: the columns [cols], in that order; a
    column the frame lacks is filled with missing values. *)
Definition reindex (df : DataFrame) (cols : list string) : DataFrame :=
  mkDF cols
       (map (fun r : row =>
               (fst r,
                map (fun c => (c, if has_col df c then cell_of c r else NA))
                    cols))
            (rows df)).

(** [df.insert(0, c, vals)] *)
Definition insert0 (df : DataFrame) (c : string) (vals : list cell)
  : DataFrame :=
  mkDF (c :: columns df)
       (zip_with (fun (r : row) v => (fst r, (c, v) :: snd r)) (rows df) vals).

(** [df.reset_index(drop=True)]: labels become [0 .. len-1]. *)
Definition reset_index (df : DataFrame) : DataFrame :=
  mkDF (columns df) (combine (seq 0 (len df)) (map snd (rows df))).

(** ** Numbers *)

Definition signed (s : bool) (z : Z) : Z := if s then (- z)%Z else z.

(** The integer a binary64 value denotes, when it denotes one. *)
Definition float_to_Z (x : float) : option Z :=
  match Prim2SF x with
  | S754_zero _ => Some 0%Z
  | S754_finite s m e =>
      if (0 <=? e)%Z then Some (signed s (Z.pos m * 2 ^ e)%Z)
      else if (Z.pos m mod 2 ^ (- e) =? 0)%Z
           then Some (signed s (Z.pos m / 2 ^ (- e))%Z)
           else None
  | S754_infinity _ | S754_nan => None
  end.

(** [.astype("Int64")] on one float: NaN becomes [<NA>], an integral value
    in the 64-bit range its integer, anything else is refused with
    [TypeError] (cannot safely cast non-equivalent float64 to int64). *)
Definition astype_Int64 (x : float) : result (option Z) :=
  if is_nan x then Ok None
  else match float_to_Z x with
       | Some z =>
           if ((- 2 ^ 63 <=? z) && (z <? 2 ^ 63))%Z then Ok (Some z)
           else Raise TypeError
       | None => Raise TypeError
       end.

Definition string_of_Z (z : Z) : string :=
  NilZero.string_of_int (Z.to_int z).

(** [.astype(str)] on a nullable integer. *)
Definition astype_str (v : option Z) : string :=
  match v with
  | Some z => string_of_Z z
  | None => "<NA>"
  end.

(** ** The segmenter *)

(** [.replace({"": pd.NA, "nan": pd.NA, "NaN": pd.NA})] on one cell *)
Definition replace_blank (c : cell) : cell :=
  match c with
  | Str s =>
      if String.eqb s "" || String.eqb s "nan" || String.eqb s "NaN"
      then NA else c
  | _ => c
  end.

(** [.ffill()]: a missing cell takes the last non-missing cell before it;
    missing cells before the first non-missing one stay as they are. *)
Fixpoint ffill_from (last : option cell) (l : list cell) : list cell :=
  match l with
  | [] => []
  | c :: l' =>
      if isna c
      then match last with Some v => v | None => c end :: ffill_from last l'
      else c :: ffill_from (Some c) l'
  end.

Definition ffill (l : list cell) : list cell := ffill_from None l.

(** [.cumsum()] of a boolean column *)
Fixpoint cumsum_from (acc : nat) (l : list bool) : list nat :=
  match l with
  | [] => []
  | b :: l' =>
      let acc' := if b then S acc else acc in
      acc' :: cumsum_from acc' l'
  end.

Definition cumsum (l : list bool) : list nat := cumsum_from 0 l.

(** [vals.groupby(keys).transform("any")]: every row receives the
    disjunction of [vals] over the rows that carry its key. *)
Definition transform_any (keys : list nat) (vals : list bool) : list bool :=
  map (fun k =>
         existsb (fun kv => Nat.eqb (fst kv) k && snd kv) (combine keys vals))
      keys.

(** ** Column names *)

Definition col_transaction : string := "טרנזקציה".
Definition col_transaction_date : string := "תאריך העסקה".
Definition col_product_name : string := "שם המוצר".
Definition col_debit : string := "חובה".
Definition col_credit : string := "זכות".
Definition col_debit_account : string := "חשבון בחובה".
Definition col_credit_account : string := "חשבון בזכות".
Definition col_serial : string := "מס.סידורי".
Definition col_order_date : string := "תאריך פקודה".

Definition columns_to_drop : list string :=
  ["Installment Ticket Id"; "InstallmentValueDate"; "Installments"].

Definition column_mapping : list (string * string) :=
  [("InstallmentTransactionId", col_transaction);
   ("InstallmentDate", col_transaction_date);
   ("InstallmentProducts", col_product_name);
   ("InstallmentPaymentPrice", col_debit);
   ("InstallmentProductPrice", col_credit);
   ("InstallmentPaymentExtRef", col_debit_account);
   ("InstallmentProductExtRef", col_credit_account)].

(** ** Dates and comparisons *)

Definition digits (n : nat) : string := NilZero.string_of_uint (Nat.to_uint n).

Fixpoint zeros (n : nat) : string :=
  match n with
  | O => ""
  | S n' => String "0" (zeros n')
  end.

Definition pad (w : nat) (s : string) : string :=
  String.append (zeros (w - String.length s)) s.

(** [strftime('%Y-%m-%d')] *)
Definition strftime_ymd (d : date) : string :=
  String.append (pad 4 (digits (year d)))
    (String.append "-"
       (String.append (pad 2 (digits (month d)))
          (String.append "-" (pad 2 (digits (day d)))))).

Definition date_ltb (d e : date) : bool :=
  (year d <? year e)%nat
  || (Nat.eqb (year d) (year e)
      && ((month d <? month e)%nat
          || (Nat.eqb (month d) (month e) && (day d <? day e)%nat))).

(** A cell read as a float: a missing value is the float NaN. *)
Definition float_view (c : cell) : option float :=
  match c with
  | NA => Some nan
  | Num x => Some x
  | _ => None
  end.

(** Python's [a > b]; comparing a string with a number, or either with a
    timestamp, raises [TypeError]. *)
Definition py_gt (a b : cell) : result bool :=
  match a, b with
  | Str s, Str t => Ok (String.ltb t s)
  | Ts d, Ts e => Ok (date_ltb e d)
  | _, _ =>
      match float_view a, float_view b with
      | Some x, Some y => Ok (y <? x)%float
      | _, _ => Raise TypeError
      end
  end.

(** Python's [max] of a non-empty sequence: the running maximum is
    replaced by an item that compares greater. *)
Fixpoint max_from (cur : cell) (l : list cell) : result cell :=
  match l with
  | [] => Ok cur
  | c :: l' => g <- py_gt c cur ;; max_from (if g then c else cur) l'
  end.

Definition python_max (l : list cell) : result cell :=
  match l with
  | [] => Raise ValueError
  | c :: l' => max_from c l'
  end.

(** The maximum of the values that are not missing. *)
Definition max_skipna (l : list cell) : result cell :=
  match filter notna l with
  | [] => Ok NA
  | c :: l' => max_from c l'
  end.

(** [col != s] on one cell *)
Definition ne_str (s : string) (c : cell) : bool :=
  match c with
  | Str t => negb (String.eqb t s)
  | _ => true
  end.

(** ** Number formatting *)

(** Python's [int(x)] on a float: truncation towards zero. *)
Definition float_trunc (x : float) : result Z :=
  match Prim2SF x with
  | S754_zero _ => Ok 0%Z
  | S754_finite s m e =>
      Ok (signed s (if (0 <=? e)%Z then Z.pos m * 2 ^ e
                    else Z.pos m / 2 ^ (- e))%Z)
  | S754_infinity _ => Raise OverflowError
  | S754_nan => Raise ValueError
  end.

(** The magnitude of a finite float rounded to an integer, ties to even. *)
Definition round_half_even (m : positive) (e : Z) : Z :=
  if (0 <=? e)%Z then (Z.pos m * 2 ^ e)%Z
  else
    let d := (2 ^ (- e))%Z in
    let q := (Z.pos m / d)%Z in
    let r := (Z.pos m mod d)%Z in
    if (2 * r <? d)%Z then q
    else if (d <? 2 * r)%Z then (q + 1)%Z
    else if Z.even q then q else (q + 1)%Z.

(** Digits, least significant first, with a comma after every third. *)
Fixpoint commas_rev (l : list ascii) : list ascii :=
  match l with
  | a :: b :: c :: ((_ :: _) as tl) =>
      a :: b :: c :: ","%char :: commas_rev tl
  | _ => l
  end.

Definition thousands (z : Z) : string :=
  string_of_list_ascii
    (rev (commas_rev (rev (list_ascii_of_string (string_of_Z z))))).

(** Python's [f"{x:,.0f}"] *)
Definition format_thousands (x : float) : string :=
  match Prim2SF x with
  | S754_nan => "nan"
  | S754_infinity s => if s then "-inf" else "inf"
  | S754_zero s => if s then "-0" else "0"
  | S754_finite s m e =>
      String.append (if s then "-" else "") (thousands (round_half_even m e))
  end.

(** ** Group keys *)

(** The order pandas gives mixed keys: numbers, then strings. *)
Definition cell_leb (a b : cell) : bool :=
  match a, b with
  | Num x, Num y => (x <=? y)%float
  | Num _, _ => true
  | Str s, Str t => String.leb s t
  | Str _, Ts _ => true
  | Ts d, Ts e => negb (date_ltb e d)
  | _, _ => false
  end.

Section Sorting.

Context {A : Type} (leb : A -> A -> bool) (eqb : A -> A -> bool).

Fixpoint insert_sorted (a : A) (l : list A) : list A :=
  match l with
  | [] => [a]
  | b :: l' => if leb a b then a :: l else b :: insert_sorted a l'
  end.

Definition sort (l : list A) : list A := fold_right insert_sorted [] l.

(** The distinct elements, each at its first occurrence. *)
Definition unique (l : list A) : list A :=
  fold_left (fun acc a => if existsb (eqb a) acc then acc else acc ++ [a])
            l [].

End Sorting.

(** The keys of [groupby(c)]: the distinct non-missing values, sorted. *)
Definition group_keys (ids : list cell) : list cell :=
  sort cell_leb (unique cell_eqb (filter notna ids)).

Definition pair_eqb (k k' : cell * cell) : bool :=
  cell_eqb (fst k) (fst k') && cell_eqb (snd k) (snd k').

Definition pair_leb (k k' : cell * cell) : bool :=
  if cell_eqb (fst k) (fst k') then cell_leb (snd k) (snd k')
  else cell_leb (fst k) (fst k').

(** The keys of [groupby([c1, c2])]: a row with a missing value in either
    column belongs to no group. *)
Definition group_keys2 (ks : list (cell * cell)) : list (cell * cell) :=
  sort pair_leb
       (unique pair_eqb (filter (fun k => notna (fst k) && notna (snd k)) ks)).

(** A numeric column read for arithmetic; a string or a timestamp in it
    makes the operation raise [TypeError]. *)
Definition as_float (c : cell) : result float :=
  match float_view c with
  | Some x => Ok x
  | None => Raise TypeError
  end.

(** ** The pandas and Python functions the code calls

    They are not code of the repository. Where their result depends on
    the version of the library or on the order of a float summation, the
    model takes them as they come. *)

Class Pandas : Type := {
  (** [pd.to_numeric] on a cell that is neither missing nor a number;
      [None] where it does not parse. *)
  parse_numeric : cell -> option float;
  (** [pd.to_datetime] on a cell that is neither missing nor a timestamp. *)
  parse_datetime : cell -> option date;
  (** [Series.sum()] of a float column, NaN entries skipped. *)
  series_sum : list float -> float;
  (** the [sum] of a [groupby(...).agg], over the rows of one group. *)
  group_sum : list float -> float;
  (** Python's [int(s)] on a string; [None] where it raises [ValueError]. *)
  python_int : string -> option Z;
  (** Python's [str(v)] on a value that is not a string. *)
  python_str : cell -> string;
  (** [Series.max()] of a column of Python objects. On a column of strings
      with none missing it is their maximum; what it does with a column
      that mixes strings and missing values depends on the version. *)
  series_max : list cell -> result cell;
  series_max_strings :
    forall s ss, series_max (map Str (s :: ss)) = max_from (Str s) (map Str ss)
}.

(** The three attributes [split_data] assigns. *)
Record Buckets : Set := mkBuckets {
  without_advertisement : DataFrame;
  advertisment : DataFrame;
  rest : DataFrame
}.

Section Pipeline.

Context {P : Pandas}.

(** [pd.to_numeric(..., errors="coerce")] on one cell: what is not a
    number becomes NaN. *)
Definition to_numeric (c : cell) : float :=
  match c with
  | Num x => x
  | NA => nan
  | _ => match parse_numeric c with Some x => x | None => nan end
  end.

(** The grouping key of [split_data], one string per row. *)
Definition block_key (df : DataFrame) : result (list string) :=
  raw <- get_col df "InstallmentPaymentExtRef" ;;
  let filled := ffill (map replace_blank raw) in
  ints <- mapM astype_Int64 (map to_numeric filled) ;;
  Ok (map astype_str ints).

Definition seg_has_4118 (code : list float) : list bool :=
  let seg_id := cumsum (map is_nan code) in
  transform_any seg_id (map (fun x => (x =? 4118)%float) code).

(** The locals [only_79991] and [code] once the product reference of the
    candidate rows has been overwritten with its numeric coercion. *)
Definition only_79991 (df : DataFrame) (key : list string)
  : result (DataFrame * list float) :=
  let only := loc df (map (fun k => String.eqb k "79991") key) in
  ext <- get_col only "InstallmentProductExtRef" ;;
  let code := map to_numeric ext in
  Ok (set_col only "InstallmentProductExtRef" (map Num code), code).

Definition split_data (df : DataFrame) : result Buckets :=
  key <- block_key df ;;
  let rest := loc df (map (fun k => negb (String.eqb k "79991")) key) in
  oc <- only_79991 df key ;;
  let marked := seg_has_4118 (snd oc) in
  Ok {| advertisment := loc (fst oc) marked;
        without_advertisement := loc (fst oc) (map negb marked);
        rest := rest |}.

(** ** The column normaliser *)

Definition drop_unwanted (df : DataFrame) : DataFrame :=
  fold_left (fun d col => if has_col d col then drop_col d col else d)
            columns_to_drop df.

(** The rows of [rest] whose product name is not "Other Payment",
    renumbered. *)
Definition drop_other_payment (df : DataFrame) : DataFrame :=
  if has_col df col_product_name
  then reset_index
         (loc df (map (fun r => ne_str "Other Payment" (cell_of col_product_name r))
                      (rows df)))
  else df.

(** [pd.to_datetime(..., errors='coerce')] on one cell *)
Definition to_datetime (c : cell) : option date :=
  match c with
  | Ts d => Some d
  | _ => if isna c then None else parse_datetime c
  end.

(** [.dt.strftime('%Y-%m-%d')]: a missing timestamp stays missing. *)
Definition format_date (c : cell) : cell :=
  match to_datetime c with
  | Some d => Str (strftime_ymd d)
  | None => NA
  end.

Definition format_dates (df : DataFrame) : DataFrame :=
  if has_col df col_transaction_date
  then set_col df col_transaction_date
         (map (fun r => format_date (cell_of col_transaction_date r)) (rows df))
  else df.

(** The last loop of [prepare_columns], for one bucket: the serial
    numbers, then the order date of a non-empty bucket. *)
Definition number_and_date (df : DataFrame) : result DataFrame :=
  let df := if has_col df col_serial then drop_col df col_serial else df in
  let df := insert0 df col_serial (map (fun n => Num (float_of_nat n))
                                       (seq 1 (len df))) in
  if has_col df col_transaction_date && (0 <? len df)%nat then
    dates <- get_col df col_transaction_date ;;
    max_date_str <- (if forallb isna dates then Ok (Str "")
                     else series_max dates) ;;
    Ok (set_col df col_order_date (repeat max_date_str (len df)))
  else Ok df.

(** The normaliser up to its last loop: columns dropped and renamed,
    "Other Payment" removed from [rest], dates formatted, and the three
    buckets given the columns of the first. *)
Definition align_columns (b : Buckets) : Buckets :=
  let wo := rename (drop_unwanted (without_advertisement b)) column_mapping in
  let ad := rename (drop_unwanted (advertisment b)) column_mapping in
  let rs := rename (drop_unwanted (rest b)) column_mapping in
  let rs := drop_other_payment rs in
  let wo := format_dates wo in
  let ad := format_dates ad in
  let rs := format_dates rs in
  let all_columns := columns wo in
  {| without_advertisement := wo;
     advertisment := reindex ad all_columns;
     rest := reindex rs all_columns |}.

Definition prepare_columns (b : Buckets) : result Buckets :=
  let m := align_columns b in
  wo <- number_and_date (without_advertisement m) ;;
  ad <- number_and_date (advertisment m) ;;
  rs <- number_and_date (rest m) ;;
  Ok {| without_advertisement := wo; advertisment := ad; rest := rs |}.

(** ** The balance validator *)

(** One row of the local table [transaction_balance]. *)
Record TransactionBalance : Set := mkTB {
  tb_transaction : cell;
  tb_debit : float;
  tb_credit : float;
  tb_difference : float
}.

(** [df.groupby(transaction).agg({debit: 'sum', credit: 'sum'})] with the
    column [difference] added. *)
Definition transaction_balance (df : DataFrame)
  : result (list TransactionBalance) :=
  ids <- get_col df col_transaction ;;
  debit_cells <- get_col df col_debit ;;
  credit_cells <- get_col df col_credit ;;
  debit <- mapM as_float debit_cells ;;
  credit <- mapM as_float credit_cells ;;
  Ok (map (fun k =>
             let members := map (cell_eqb k) ids in
             let d := group_sum (select members debit) in
             let c := group_sum (select members credit) in
             mkTB k d c (d - c)%float)
          (group_keys ids)).

(** [abs(difference) > 0.01] and [abs(difference) <= 0.01] *)
Definition is_unbalanced (t : TransactionBalance) : bool :=
  (0.01 <? PrimFloat.abs (tb_difference t))%float.

Definition is_balanced (t : TransactionBalance) : bool :=
  (PrimFloat.abs (tb_difference t) <=? 0.01)%float.

Definition unbalanced_transactions (tb : list TransactionBalance)
  : list TransactionBalance := filter is_unbalanced tb.

Definition balanced_transactions (tb : list TransactionBalance)
  : list TransactionBalance := filter is_balanced tb.

(** One entry of the dictionary [get_balance_validation] returns; the
    fallback branch leaves [v_unbalanced_transactions] out. *)
Record Validation : Set := mkValidation {
  v_total_debit : float;
  v_total_credit : float;
  v_difference : float;
  v_balanced : bool;
  v_unbalanced_transactions : option nat
}.

(** The body of the loop of [get_balance_validation], for a bucket that
    is not empty. *)
Definition validate_sheet (df : DataFrame) : result Validation :=
  if has_col df col_transaction && has_col df col_debit
     && has_col df col_credit
  then
    tb <- transaction_balance df ;;
    let unbalanced_count := List.length (unbalanced_transactions tb) in
    let total_debit_all_transactions := series_sum (map tb_debit tb) in
    let total_credit_all_transactions := series_sum (map tb_credit tb) in
    let sheet_difference :=
      (total_debit_all_transactions - total_credit_all_transactions)%float in
    Ok (mkValidation total_debit_all_transactions
          total_credit_all_transactions sheet_difference
          (PrimFloat.abs sheet_difference <=? 0.01)%float
          (Some unbalanced_count))
  else
    debit_cells <- get_col df col_debit ;;
    debit <- mapM as_float debit_cells ;;
    credit_cells <- get_col df col_credit ;;
    credit <- mapM as_float credit_cells ;;
    let total_debit := series_sum debit in
    let total_credit := series_sum credit in
    let difference := (total_debit - total_credit)%float in
    Ok (mkValidation total_debit total_credit difference
          (PrimFloat.abs difference <=? 0.01)%float None).

Definition hebrew_names : list (string * string) :=
  [("without_ad", "ללא פרסומים");
   ("advertisement", "פרסומים");
   ("rest", "נתונים נוספים")].

Definition get_balance_validation (b : Buckets)
  : result (list (string * Validation)) :=
  let sheets := [("without_ad", without_advertisement b);
                 ("advertisement", advertisment b);
                 ("rest", rest b)] in
  mapM (fun s : string * DataFrame =>
          v <- validate_sheet (snd s) ;;
          Ok (rename_col hebrew_names (fst s), v))
       (filter (fun s : string * DataFrame => (0 <? len (snd s))%nat) sheets).

(** ** The summary builder *)

Definition split_on (sep : ascii) (s : string) : list string :=
  let step (a : ascii) (acc : list string) :=
    if Ascii.eqb a sep then "" :: acc
    else match acc with
         | w :: acc' => String a w :: acc'
         | [] => [String a ""]
         end in
  fold_right step [""] (list_ascii_of_string s).

(** Python's truth value of a cell *)
Definition truthy (c : cell) : bool :=
  match c with
  | Str s => negb (String.eqb s "")
  | Num x => negb (x =? 0)%float
  | NA | Ts _ => true
  end.

(** The local [command_date]: the greatest date of the bucket, turned from
    [YYYY-MM-DD] to [DD/MM/YYYY]. *)
Definition command_date (df : DataFrame) : result cell :=
  all_dates <- (if (0 <? len df)%nat then get_col df col_transaction_date
                else Ok []) ;;
  match all_dates with
  | [] => Ok (Str "")
  | _ =>
      max_date_str <- python_max all_dates ;;
      if truthy max_date_str then
        match max_date_str with
        | Str s =>
            match split_on "-" s with
            | [y; m; d] =>
                Ok (Str (String.append d
                           (String.append "/"
                              (String.append m (String.append "/" y)))))
            | _ => Ok max_date_str
            end
        | _ => Ok max_date_str
        end
      else Ok (Str "")
  end.

(** A value interpolated in an f-string *)
Definition fstr (c : cell) : string :=
  match c with
  | Str s => s
  | _ => python_str c
  end.

(** [account in [70001, 70100]] *)
Definition is_excluded (account : cell) : bool :=
  cell_eqb account (Num 70001) || cell_eqb account (Num 70100).

(** The local [revenue_data]: the rows with a credit account and a
    positive credit, grouped by account and product, credit summed. *)
Definition revenue_data (df : DataFrame)
  : result (list (cell * cell * float)) :=
  accounts <- get_col df col_credit_account ;;
  credit_cells <- get_col df col_credit ;;
  positive <- mapM (fun c => py_gt c (Num 0)) credit_cells ;;
  let kept := loc df (zip_with andb (map notna accounts) positive) in
  accounts <- get_col kept col_credit_account ;;
  products <- get_col kept col_product_name ;;
  credit_cells <- get_col kept col_credit ;;
  credit <- mapM as_float credit_cells ;;
  let keys := combine accounts products in
  Ok (map (fun k =>
             (fst k, snd k,
              group_sum (select (map (pair_eqb k) keys) credit)))
          (group_keys2 keys)).

(** [revenue_summary[key] += amount], the key created at 0 when new *)
Fixpoint accumulate (summary : list (cell * cell * float))
  (key : cell * cell) (amount : float) : list (cell * cell * float) :=
  match summary with
  | [] => [(key, (0 + amount)%float)]
  | (k, v) :: summary' =>
      if pair_eqb key k then (k, (v + amount)%float) :: summary'
      else (k, v) :: accumulate summary' key amount
  end.

Definition revenue_summary (df : DataFrame)
  : result (list (cell * cell * float)) :=
  if (0 <? len df)%nat then
    data <- revenue_data df ;;
    Ok (fold_left (fun summary (r : cell * cell * float) =>
                     let '(account, product, amount) := r in
                     if is_excluded account then summary
                     else accumulate summary (account, product) amount)
                  data [])
  else Ok [].

(** [str(int(account)) if pd.notna(account) else ''] *)
Definition account_label (account : cell) : result cell :=
  if notna account then
    match account with
    | Num x => z <- float_trunc x ;; Ok (Str (string_of_Z z))
    | Str s => match python_int s with
               | Some z => Ok (Str (string_of_Z z))
               | None => Raise ValueError
               end
    | _ => Raise TypeError
    end
  else Ok (Str "").

Definition col_sum_debit : string := "סכום של חובה".
Definition col_sum_credit : string := "סכום של זכות".

Definition summary_columns : list string :=
  ["תאריך פקודה"; "חשבון חובה"; "חשבון זכות"; "שם מוצר";
   col_sum_debit; col_sum_credit].

Definition summary_row (date debit_account credit_account product
                        sum_debit sum_credit : cell) : record :=
  combine summary_columns
    [date; debit_account; credit_account; product; sum_debit; sum_credit].

Definition quote : string := String "034" "".

(** The label of the grand total, [sah-hakol], written with a quote mark. *)
Definition total_label : string :=
  String.append "סה" (String.append quote "כ").

(** The local [total_credit]: Python's [sum] starts from the integer 0. *)
Definition total_credit (df : DataFrame) : result float :=
  if (0 <? len df)%nat then
    credit_cells <- get_col df col_credit ;;
    credit <- mapM as_float credit_cells ;;
    Ok (0 + series_sum credit)%float
  else Ok 0%float.

Definition total_debit : float := 0%float.

Definition header_row : record :=
  summary_row (Str "") (Str "") (Str "") (Str "") (Str "") (Str "").

(** The row appended for one entry of [revenue_summary]. *)
Definition revenue_row (command_date : cell) (e : cell * cell * float)
  : result record :=
  let '(account, product, amount) := e in
  label <- account_label account ;;
  Ok (summary_row command_date (Str "") label product (Str "")
                  (Str (format_thousands amount))).

(** The row of the grand total. *)
Definition total_row (command_date : cell) (total_credit : float) : record :=
  summary_row
    (Str (String.append total_label (String.append " " (fstr command_date))))
    (Str "")
    (Str (String.append total_label "(זכות)"))
    (Str "סכום כולל")
    (Str (format_thousands total_debit))
    (Str (format_thousands total_credit)).

Definition create_excel_summary (df : DataFrame) : result DataFrame :=
  command_date <- command_date df ;;
  revenue_summary <- revenue_summary df ;;
  entries <- mapM (revenue_row command_date)
                  (filter (fun e : cell * cell * float => (0 <? snd e)%float)
                          revenue_summary) ;;
  total_credit <- total_credit df ;;
  let summary_rows :=
    header_row :: entries ++ [total_row command_date total_credit] in
  Ok (mkDF summary_columns
        (combine (seq 0 (List.length summary_rows)) summary_rows)).

End Pipeline.

(** ** An instance to run the model

    Plain decimal integers parse as numbers, nothing parses as a date,
    sums are accumulated from left to right, NaN skipped, and the maximum
    of a column skips its missing values. *)

Definition float_of_Z (z : Z) : float :=
  if (z <? 0)%Z then (- PrimFloat.of_uint63 (Uint63.of_Z (- z)))%float
  else PrimFloat.of_uint63 (Uint63.of_Z z).

Definition plain_sum (l : list float) : float :=
  fold_left (fun acc x => if is_nan x then acc else (acc + x)%float) l 0%float.

Definition plain_int (s : string) : option Z :=
  option_map Z.of_int (NilZero.int_of_string s).

Lemma max_skipna_strings s ss :
  max_skipna (map Str (s :: ss)) = max_from (Str s) (map Str ss).
Proof.
  unfold max_skipna. simpl. f_equal.
  induction ss as [| t ss IH]; simpl; congruence.
Qed.

Definition plain : Pandas := {|
  parse_numeric := fun c => match c with
                            | Str s => option_map float_of_Z (plain_int s)
                            | _ => None
                            end;
  parse_datetime := fun _ => None;
  series_sum := plain_sum;
  group_sum := plain_sum;
  python_int := plain_int;
  python_str := fun _ => "nan";
  series_max := max_skipna;
  series_max_strings := max_skipna_strings
|}.

(** The scenario of the specification: two rows of a marked segment, one
    row of an unmarked one, two rows under another key, one of which is an
    "Other Payment". *)
Definition input_row (label : nat) (id : float) (d : date) (product : string)
  (debit credit : cell) (payment_ref product_ref : cell) : row :=
  (label,
   [("InstallmentTransactionId", Num id);
    ("InstallmentDate", Ts d);
    ("InstallmentProducts", Str product);
    ("InstallmentPaymentPrice", debit);
    ("InstallmentProductPrice", credit);
    ("InstallmentPaymentExtRef", payment_ref);
    ("InstallmentProductExtRef", product_ref)]).

Definition input_columns : list string :=
  ["InstallmentTransactionId"; "InstallmentDate"; "InstallmentProducts";
   "InstallmentPaymentPrice"; "InstallmentProductPrice";
   "InstallmentPaymentExtRef"; "InstallmentProductExtRef"].

Definition scenario : DataFrame :=
  mkDF input_columns
    [input_row 0 1 (mkDate 2025 11 3) "Ticket" (Num 100) NA (Num 79991) NA;
     input_row 1 1 (mkDate 2025 11 3) "Ad" NA (Num 100) NA (Num 4118);
     input_row 2 2 (mkDate 2025 11 4) "Ticket" (Num 50) (Num 50) NA NA;
     input_row 3 3 (mkDate 2025 11 27) "Shirt" (Num 30) (Num 30) (Num 10001)
               (Num 40000);
     input_row 4 4 (mkDate 2025 11 5) "Other Payment" (Num 7) (Num 7) NA
               (Num 40000)].

(** ** The segmenter in the words of the specification *)

(** A reference is missing when it is absent, the empty string or the
    text "nan". *)
Definition missing_reference (c : cell) : bool :=
  isna c || cell_eqb c (Str "") || cell_eqb c (Str "nan")
  || cell_eqb c (Str "NaN").

(** The nearest reference that is not missing, at row [i] or before it. *)
Definition nearest_preceding (raw : list cell) (i : nat) : option cell :=
  find (fun c => negb (missing_reference c)) (rev (firstn (S i) raw)).

(** Rows [i] and [j] of the candidate rows lie in one segment: no row
    after the earlier of the two, up to the later one, has a missing
    code. A row with a missing code opens a segment. *)
Definition same_segment (code : list float) (i j : nat) : Prop :=
  forall k, (Nat.min i j < k <= Nat.max i j)%nat ->
            is_nan (nth k code nan) = false.

Section SegmenterSpec.

Context {P : Pandas}.

(** The integer-like string of a forward-filled reference; a row with no
    reference to inherit has the string of a missing integer. *)
Definition key_string (v : option cell) : result string :=
  match v with
  | Some c => z <- astype_Int64 (to_numeric c) ;; Ok (astype_str z)
  | None => Ok "<NA>"
  end.

End SegmenterSpec.

(** The buckets [b] with the rows [rs] as the rows of [rest]. *)
Definition with_rest_rows (b : Buckets) (rs : list row) : Buckets :=
  {| without_advertisement := without_advertisement b;
     advertisment := advertisment b;
     rest := mkDF (columns (rest b)) rs |}.

Definition scenario_buckets : Buckets :=
  Eval vm_compute in
    match split_data (P := plain) scenario with
    | Ok b => b
    | Raise _ => mkBuckets (mkDF [] []) (mkDF [] []) (mkDF [] [])
    end.

Definition scenario_raw : list cell := [Num 79991; NA; NA; Num 10001; NA].

(** A row whose reference is the text "nan", to put in front of the
    scenario. *)
Definition blank_row : row :=
  input_row 7 9 (mkDate 2025 11 2) "Ticket" (Num 5) (Num 5) (Str "nan") NA.

(** A column that the normaliser neither drops, renames, rewrites nor
    adds. *)
Definition passthrough (c : string) : bool :=
  negb (existsb (String.eqb c)
          (columns_to_drop ++ map fst column_mapping
           ++ map snd column_mapping ++ [col_serial; col_order_date])).

(** ** The order date in the words of the specification *)

(** A cell of a formatted date column: a date string or nothing. *)
Definition date_cell (c : cell) : bool :=
  match c with
  | NA | Str _ => true
  | _ => false
  end.

(** [m] is the greatest date string of the column [dates]. *)
Definition is_max_string (dates : list cell) (m : string) : Prop :=
  In (Str m) dates /\ forall s, In (Str s) dates -> String.leb s m = true.

(** The order date of a normalised bucket that has rows and the date
    column: one value in every row, the greatest date string of this
    bucket when no date is missing, the empty string when every date
    is. *)
Definition order_date_spec (df : DataFrame) : Prop :=
  (0 < len df)%nat -> has_col df col_transaction_date = true ->
  has_col df col_order_date = true
  /\ exists dates v,
       get_col df col_transaction_date = Ok dates
       /\ Forall (fun r => cell_of col_order_date r = v) (rows df)
       /\ (forallb isna dates = true -> v = Str "")
       /\ (forallb notna dates = true ->
           exists m, v = Str m /\ is_max_string dates m).

(** A table without candidate rows: the two rows of the scenario that
    fall under another key. *)
Definition no_candidates : DataFrame :=
  mkDF input_columns
    [input_row 0 3 (mkDate 2025 11 27) "Shirt" (Num 30) (Num 30) (Num 10001)
               (Num 40000);
     input_row 1 4 (mkDate 2025 11 5) "Other Payment" (Num 7) (Num 7) NA
               (Num 40000)].

(** Two transactions of one row each, the two cases of the tolerance, and
    a frame that has lost its credit column. *)
Definition two_transactions : DataFrame :=
  mkDF [col_transaction; col_debit; col_credit]
    [(0%nat, [(col_transaction, Num 1); (col_debit, Num 100);
              (col_credit, Num 99.995)]);
     (1%nat, [(col_transaction, Num 2); (col_debit, Num 100);
              (col_credit, Num 99.98)])].

Definition without_credit : DataFrame :=
  mkDF [col_transaction; col_debit]
    [(0%nat, [(col_transaction, Num 1); (col_debit, Num 100)])].

Definition without_transaction : DataFrame :=
  mkDF [col_debit; col_credit]
    [(0%nat, [(col_debit, Num 100); (col_credit, Num 99.995)]);
     (1%nat, [(col_debit, Num 100); (col_credit, Num 99.98)])].

(** A normalised bucket [rest] with one row of an excluded account and
    one row of another account. *)
Definition excluded_example : DataFrame :=
  mkDF [col_transaction_date; col_product_name; col_credit; col_credit_account]
    [(0%nat, [(col_transaction_date, Str "2025-11-27");
              (col_product_name, Str "X"); (col_credit, Num 50);
              (col_credit_account, Num 70001)]);
     (1%nat, [(col_transaction_date, Str "2025-11-05");
              (col_product_name, Str "Y"); (col_credit, Num 30);
              (col_credit_account, Num 40000)])].


(** An input without the product price: one candidate row. *)
Definition no_price_input : DataFrame :=
  mkDF ["InstallmentTransactionId"; "InstallmentDate";
        "InstallmentPaymentPrice"; "InstallmentPaymentExtRef";
        "InstallmentProductExtRef"]
    [(0%nat, [("InstallmentTransactionId", Num 1);
              ("InstallmentDate", Ts (mkDate 2025 11 3));
              ("InstallmentPaymentPrice", Num 100);
              ("InstallmentPaymentExtRef", Num 79991);
              ("InstallmentProductExtRef", NA)])].

(** ** The report of unbalanced transactions *)

Definition col_sheet : string := "גיליון".
Definition col_transaction_link : string := "קישור טרנזקציה".

Definition transaction_url : string :=
  "https://tickets.hapoel.co.il/Transaction2/Details?id=".

Definition display_columns : list string :=
  [col_serial; col_transaction; col_transaction_date; col_product_name;
   col_debit; col_credit; col_debit_account; col_credit_account;
   col_sheet; col_transaction_link].

(** [Series.isin(values)] on one cell *)
Definition isin (values : list cell) (c : cell) : bool :=
  existsb (fun v => cell_eqb v c) values.

(** The names [cols] that [acc] does not have yet, appended to it. *)
Definition add_columns (acc cols : list string) : list string :=
  acc ++ filter (fun c => negb (existsb (String.eqb c) acc)) cols.

(** The union of several lists of column names, each name at its first
    occurrence. *)
Definition union_columns (ls : list (list string)) : list string :=
  fold_left add_columns ls [].

(** [pd.concat(frames, ignore_index=True)]: the rows of the frames one
    after the other under fresh labels, over the union of their columns;
    a frame that lacks a column has missing values there. *)
Definition pd_concat (frames : list DataFrame) : DataFrame :=
  let cols := union_columns (map columns frames) in
  reset_index (mkDF cols (flat_map (fun df => rows (reindex df cols)) frames)).

(** [DataFrame.empty]: no row or no column *)
Definition empty (df : DataFrame) : bool :=
  Nat.eqb (len df) 0 || Nat.eqb (List.length (columns df)) 0.

Section Report.

Context {P : Pandas}.

(** The local [problematic_subset]: the rows of the bucket whose
    transaction is one of [unbalanced], tagged with the name of the sheet
    and a link to the transaction, over the display columns the bucket
    has. *)
Definition problematic_subset (hebrew_name : string) (df : DataFrame)
  (unbalanced : list cell) : DataFrame :=
  let problematic_df :=
    loc df (map (fun r => isin unbalanced (cell_of col_transaction r))
                (rows df)) in
  let problematic_df :=
    set_col problematic_df col_sheet
            (repeat (Str hebrew_name) (len problematic_df)) in
  let problematic_df :=
    set_col problematic_df col_transaction_link
            (map (fun r => Str (String.append transaction_url
                                  (fstr (cell_of col_transaction r))))
                 (rows problematic_df)) in
  let available_columns := filter (has_col problematic_df) display_columns in
  reindex problematic_df available_columns.

(** The body of the loop of [get_problematic_transactions], for a bucket
    that is not empty: what it appends to [problematic_transactions], if
    anything. *)
Definition problematic_sheet (s : string * DataFrame)
  : result (option DataFrame) :=
  let df := snd s in
  let hebrew_name := rename_col hebrew_names (fst s) in
  if has_col df col_transaction && has_col df col_debit
     && has_col df col_credit
  then
    tb <- transaction_balance df ;;
    let unbalanced := map tb_transaction (unbalanced_transactions tb) in
    match unbalanced with
    | [] => Ok None
    | _ :: _ => Ok (Some (problematic_subset hebrew_name df unbalanced))
    end
  else Ok None.

Definition get_problematic_transactions (b : Buckets) : result DataFrame :=
  let sheets := [("without_ad", without_advertisement b);
                 ("advertisement", advertisment b);
                 ("rest", rest b)] in
  found <- mapM problematic_sheet
             (filter (fun s : string * DataFrame => (0 <? len (snd s))%nat)
                     sheets) ;;
  let problematic_transactions :=
    flat_map (fun o : option DataFrame =>
                match o with Some d => [d] | None => [] end) found in
  match problematic_transactions with
  | [] => Ok (mkDF [] [])
  | _ :: _ =>
      let combined_problematic := pd_concat problematic_transactions in
      Ok (set_col combined_problematic col_serial
            (map (fun n => Num (float_of_nat n))
                 (seq 1 (len combined_problematic))))
  end.

End Report.

(** ** Uploads *)

(** [str.lower()] on the letters of ASCII; no other character becomes one
    of the letters the code looks for. *)
Definition lower_char (a : ascii) : ascii :=
  let n := nat_of_ascii a in
  if (65 <=? n)%nat && (n <=? 90)%nat then ascii_of_nat (n + 32) else a.

Fixpoint lower (s : string) : string :=
  match s with
  | EmptyString => EmptyString
  | String a s' => String (lower_char a) (lower s')
  end.

(** [sub in s] on two strings *)
Fixpoint contains (sub s : string) : bool :=
  String.prefix sub s
  || match s with
     | EmptyString => false
     | String _ s' => contains sub s'
     end.




(** ** The CSV filter *)

(** The four switches of the filter form. *)
Record Filters : Set := mkFilters {
  status_active : bool;
  type_sale : bool;
  price_not_zero : bool;
  payment_type_external : bool
}.

(** [request.args.get(name, 'true') == 'true'] *)
Definition flag (args : list (string * string)) (name : string) : bool :=
  match lookup name args with
  | Some v => String.eqb v "true"
  | None => true
  end.

Definition csv_display_columns : list string :=
  ["Product"; "Id"; "Fan / Company"; "User Id"; "Price"; "Base price"; "Date"].

(** [df.to_dict('records')]: one dictionary per row, keyed by column. *)
Definition to_records (df : DataFrame) : list record :=
  map (fun r : row => map (fun c => (c, cell_of c r)) (columns df)) (rows df).

(** [pd.DataFrame(records)]: the columns are the keys of the
    dictionaries; without a dictionary there is no column. *)
Definition from_records (records : list record) : DataFrame :=
  mkDF (union_columns (map (map fst) records))
       (combine (seq 0 (List.length records)) records).

Section CsvFilter.

Context {P : Pandas}.

(** [df[df[col] == value]] *)
Definition keep_equal (df : DataFrame) (col value : string) : DataFrame :=
  loc df (map (fun r => cell_eqb (cell_of col r) (Str value)) (rows df)).

(** [df[pd.to_numeric(df[col], errors='coerce') != 0]] *)
Definition keep_nonzero (df : DataFrame) (col : string) : DataFrame :=
  loc df (map (fun r => negb (to_numeric (cell_of col r) =? 0)%float)
              (rows df)).

Definition price_cols (df : DataFrame) : list string :=
  filter (fun col => contains "price" (lower col)) (columns df).

(** The local [display_df]: the display columns the table has, in the
    order of the display list, or the whole table when it has none. *)
Definition select_display (filtered_df : DataFrame) : DataFrame :=
  match filter (has_col filtered_df) csv_display_columns with
  | [] => filtered_df
  | available_display_cols => reindex filtered_df available_display_cols
  end.

(** The local [display_df] of [upload_csv_filter], from the table read
    from the file: every filter applied, the display columns selected and
    the dates formatted. *)
Definition upload_csv_filter (df : DataFrame) : DataFrame :=
  let filtered_df := df in
  let filtered_df :=
    if has_col filtered_df "Status"
    then keep_equal filtered_df "Status" "Active" else filtered_df in
  let filtered_df :=
    if has_col filtered_df "Type"
    then keep_equal filtered_df "Type" "Sale" else filtered_df in
  let filtered_df :=
    fold_left keep_nonzero (price_cols filtered_df) filtered_df in
  let filtered_df :=
    if has_col filtered_df "Payment type"
    then keep_equal filtered_df "Payment type" "PayType_External payment cards"
    else filtered_df in
  let display_df := select_display filtered_df in
  if has_col display_df "Date"
  then set_col display_df "Date"
         (map (fun r => format_date (cell_of "Date" r)) (rows display_df))
  else display_df.

(** The table [filter_csv] answers with, from the stored records and the
    switches of the request. *)
Definition filter_csv (csv_data : list record) (filters : Filters)
  : DataFrame :=
  let df := from_records csv_data in
  let filtered_df := df in
  let filtered_df :=
    if has_col filtered_df "Status" && status_active filters
    then keep_equal filtered_df "Status" "Active" else filtered_df in
  let filtered_df :=
    if has_col filtered_df "Type" && type_sale filters
    then keep_equal filtered_df "Type" "Sale" else filtered_df in
  let filtered_df :=
    if price_not_zero filters
    then fold_left keep_nonzero (price_cols filtered_df) filtered_df
    else filtered_df in
  let filtered_df :=
    if has_col filtered_df "Payment type" && payment_type_external filters
    then keep_equal filtered_df "Payment type" "PayType_External payment cards"
    else filtered_df in
  select_display filtered_df.

(** The table [download_filtered_csv] writes, from the stored records and
    the arguments of the query string. *)
Definition download_filtered_csv (csv_data : list record)
  (args : list (string * string)) : DataFrame :=
  let filters :=
    {| status_active := flag args "status_active";
       type_sale := flag args "type_sale";
       price_not_zero := flag args "price_not_zero";
       payment_type_external := flag args "payment_type_external" |} in
  let df := from_records csv_data in
  let filtered_df := df in
  let filtered_df :=
    if has_col filtered_df "Status" && status_active filters
    then keep_equal filtered_df "Status" "Active" else filtered_df in
  let filtered_df :=
    if has_col filtered_df "Type" && type_sale filters
    then keep_equal filtered_df "Type" "Sale" else filtered_df in
  let filtered_df :=
    if price_not_zero filters
    then fold_left keep_nonzero (price_cols filtered_df) filtered_df
    else filtered_df in
  let filtered_df :=
    if has_col filtered_df "Payment type" && payment_type_external filters
    then keep_equal filtered_df "Payment type" "PayType_External payment cards"
    else filtered_df in
  match filter (has_col filtered_df) csv_display_columns with
  | [] => filtered_df
  | available_display_cols => reindex filtered_df available_display_cols
  end.

End CsvFilter.

(** ** Notions used in the statements *)

Definition b2n (b : bool) : nat := if b then 1%nat else 0%nat.

(** [df'] has the rows of [df] under the same labels, and the same cells
    in column [c]. *)
Definition keeps_col (c : string) (df df' : DataFrame) : Prop :=
  index df' = index df
  /\ map (cell_of c) (rows df') = map (cell_of c) (rows df)
  /\ has_col df' c = has_col df c.

(** The dates of [df] are all missing or all present. *)
Definition dates_uniform (df : DataFrame) : bool :=
  let dates := map (cell_of col_transaction_date) (rows df) in
  forallb isna dates || forallb notna dates.

(** The date column of [df], if it has one, holds date strings and
    missing values only. *)
Definition formatted (df : DataFrame) : Prop :=
  has_col df col_transaction_date = true ->
  Forall (fun c => date_cell c = true)
         (map (cell_of col_transaction_date) (rows df)).

(** The sum the grand total shows: nothing for a bucket without rows,
    otherwise the credit of every row of the bucket, one after the
    other. *)
Definition sums_all_credit {P : Pandas} (df : DataFrame) (tc : float) : Prop :=
  (len df = 0%nat /\ tc = 0%float)
  \/ ((0 < len df)%nat
      /\ exists credit,
           Forall2 (fun r x => as_float (cell_of col_credit r) = Ok x)
                   (rows df) credit
           /\ tc = (0 + series_sum credit)%float).

(** The filters that are switched on, as one test on a row of [df]: a
    filter on a column the table lacks lets every row through, and a
    price that is not a number is not zero. *)
Definition passes {P : Pandas} (filters : Filters) (df : DataFrame) (r : row)
  : bool :=
  (negb (has_col df "Status" && status_active filters)
   || cell_eqb (cell_of "Status" r) (Str "Active"))
  && (negb (has_col df "Type" && type_sale filters)
      || cell_eqb (cell_of "Type" r) (Str "Sale"))
  && (negb (price_not_zero filters)
      || forallb (fun col => negb (to_numeric (cell_of col r) =? 0)%float)
                 (price_cols df))
  && (negb (has_col df "Payment type" && payment_type_external filters)
      || cell_eqb (cell_of "Payment type" r)
                  (Str "PayType_External payment cards")).

(** Every switch of [filters] that is on is on in [filters']. *)
Definition switches_leb (filters filters' : Filters) : bool :=
  implb (status_active filters) (status_active filters')
  && implb (type_sale filters) (type_sale filters')
  && implb (price_not_zero filters) (price_not_zero filters')
  && implb (payment_type_external filters) (payment_type_external filters').

Definition default_filters : Filters := mkFilters true true true true.

(** The switches [download_filtered_csv] reads from its query string. *)
Definition filters_of (args : list (string * string)) : Filters :=
  {| status_active := flag args "status_active";
     type_sale := flag args "type_sale";
     price_not_zero := flag args "price_not_zero";
     payment_type_external := flag args "payment_type_external" |}.

(** The row [r'] has the cells of the row [r] in the columns [cols]. *)
Definition same_cells (cols : list string) (r r' : row) : Prop :=
  forall c, In c cols -> cell_of c r' = cell_of c r.

(** A file of three sales: one that passes every filter, with a base
    price that is not a number, one with a price of zero and one that is
    not active. *)
Definition sale (label : nat) (id : float) (status : string)
  (price base_price : cell) (product : string) : row :=
  (label,
   [("Id", Num id); ("Status", Str status); ("Type", Str "Sale");
    ("Price", price); ("Base price", base_price);
    ("Payment type", Str "PayType_External payment cards");
    ("Product", Str product)]).

Definition sales : DataFrame :=
  mkDF ["Id"; "Status"; "Type"; "Price"; "Base price"; "Payment type";
        "Product"]
    [sale 0 1 "Active" (Num 10) (Str "x") "A";
     sale 1 2 "Active" (Num 0) (Num 3) "A";
     sale 2 3 "Cancelled" (Num 10) (Num 3) "B"].

(** The three buckets under the names of their sheets. *)
Definition sheets (b : Buckets) : list (string * DataFrame) :=
  [("without_ad", without_advertisement b);
   ("advertisement", advertisment b);
   ("rest", rest b)].

(** The transactions of [tb] that do not balance. *)
Definition unbalanced_ids (tb : list TransactionBalance) : list cell :=
  map tb_transaction (unbalanced_transactions tb).

(** The number of unbalanced transactions an entry of the validation
    shows; the fallback shows none. *)
Definition unbalanced_count (v : Validation) : nat :=
  match v_unbalanced_transactions v with
  | Some n => n
  | None => 0%nat
  end.

(** The row [r] of the report shows the row [r0] of the sheet [s]: the
    name of the sheet, the link to the transaction, and the cells of [r0]
    in the display columns of the sheet. *)
Definition reports {P : Pandas} (s : string * DataFrame) (r0 r : row) : Prop :=
  cell_of col_sheet r = Str (rename_col hebrew_names (fst s))
  /\ cell_of col_transaction_link r
     = Str (String.append transaction_url (fstr (cell_of col_transaction r0)))
  /\ forall c, In c [col_transaction; col_transaction_date; col_product_name;
                     col_debit; col_credit; col_debit_account;
                     col_credit_account] ->
               has_col (snd s) c = true -> cell_of c r = cell_of c r0.

(** The rows of several frames, each with the frame it comes from. *)
Definition rows_of (frames : list DataFrame) : list (DataFrame * row) :=
  flat_map (fun d => map (pair d) (rows d)) frames.

(** Three buckets after normalisation, cut down to the columns of the
    validator: the first has a balanced transaction and one that is 10
    short over its two rows, the second is empty and the third has no
    transaction column. *)
Definition entry (label : nat) (id : string) (debit credit : float) : row :=
  (label,
   [(col_serial, Num (float_of_nat (S label))); (col_transaction, Str id);
    (col_debit, Num debit); (col_credit, Num credit)]).

Definition ten_short : DataFrame :=
  mkDF [col_serial; col_transaction; col_debit; col_credit]
    [entry 0 "T1" 100 100; entry 1 "T2" 100 90; entry 2 "T2" 5 5].

Definition ten_short_buckets : Buckets :=
  mkBuckets ten_short (mkDF [col_transaction; col_debit; col_credit] [])
            without_transaction.

Definition ten_short_report : DataFrame :=
  Eval vm_compute in
    match get_problematic_transactions (P := plain) ten_short_buckets with
    | Ok report => report
    | Raise _ => mkDF [] []
    end.

Definition ten_short_validation : list (string * Validation) :=
  Eval vm_compute in
    match get_balance_validation (P := plain) ten_short_buckets with
    | Ok res => res
    | Raise _ => []
    end.

(** [l'] is [l] with some elements left out, the others in their order. *)
Definition subsequence {A : Type} (l' l : list A) : Prop :=
  exists mask, l' = select mask l.


(** The column names [cols] without the order date. *)
Definition without_order_date (cols : list string) : list string :=
  filter (fun c => negb (String.eqb c col_order_date)) cols.

Definition scenario_prepared : Buckets :=
  Eval vm_compute in
    match prepare_columns (P := plain) scenario_buckets with
    | Ok b => b
    | Raise _ => mkBuckets (mkDF [] []) (mkDF [] []) (mkDF [] [])
    end.

(** The rows of [df] that carry a transaction id. *)
Definition with_transaction (df : DataFrame) : DataFrame :=
  loc df (map (fun r => notna (cell_of col_transaction r)) (rows df)).

(** A bucket with one balanced transaction and a row of 40 that has no
    transaction id. *)
Definition stray_row : DataFrame :=
  mkDF [col_transaction; col_debit; col_credit]
    [(0%nat, [(col_transaction, Str "T1"); (col_debit, Num 100);
              (col_credit, Num 100)]);
     (1%nat, [(col_transaction, NA); (col_debit, Num 40);
              (col_credit, Num 0)])].

(** [strftime('%d/%m/%Y')] *)
Definition strftime_dmy (d : date) : string :=
  String.append (pad 2 (digits (day d)))
    (String.append "/"
       (String.append (pad 2 (digits (month d)))
          (String.append "/" (pad 4 (digits (year d)))))).

(** The character [a] does not occur in [s]. *)
Definition lacks (a : ascii) (s : string) : Prop :=
  ~ In a (list_ascii_of_string s).

(** A date the format [YYYY-MM-DD] has room for. *)
Definition four_digit_year (d : date) : bool :=
  (year d <? (100 * 100))%nat && (month d <? 100)%nat && (day d <? 100)%nat.

(** ** Candidates and segments in the words of the specification *)

(** The number a reference reads as: none for a missing cell and for a
    text that is not a number. *)
Definition reads_as {P : Pandas} (c : cell) : option float :=
  match c with
  | NA => None
  | Num x => if is_nan x then None else Some x
  | _ => match parse_numeric c with
         | Some x => if is_nan x then None else Some x
         | None => None
         end
  end.

(** Row [i] is a candidate: the nearest reference at or before it that is
    not missing reads as the number 79991. *)
Definition is_candidate {P : Pandas} (raw : list cell) (i : nat) : Prop :=
  exists c x,
    nearest_preceding raw i = Some c
    /\ reads_as c = Some x /\ (x =? 79991)%float = true.

(** The product reference [c] of a candidate row reads as no number, so
    that the row opens a segment; it reads as the number 4118. *)
Definition code_missing {P : Pandas} (c : cell) : bool :=
  match reads_as c with
  | None => true
  | Some _ => false
  end.

Definition code_is_4118 {P : Pandas} (c : cell) : bool :=
  match reads_as c with
  | Some x => (x =? 4118)%float
  | None => false
  end.

(** Rows [i] and [j] of the candidate rows, whose product references are
    [codes], lie in one segment: no row after the earlier of the two, up
    to the later one, has a missing code. *)
Definition one_segment {P : Pandas} (codes : list cell) (i j : nat) : Prop :=
  forall k, (Nat.min i j < k <= Nat.max i j)%nat ->
            code_missing (nth k codes NA) = false.

(** Row [i] of the candidate rows lies in a marked segment: some row of
    its segment, itself or another, has the code 4118. *)
Definition in_marked_segment {P : Pandas} (codes : list cell) (i : nat)
  : Prop :=
  exists j, (j < List.length codes)%nat
            /\ one_segment codes i j
            /\ code_is_4118 (nth j codes NA) = true.

(** ** The tolerance of the validator in the words of the specification *)

(** Summed debit and summed credit differ by at most 0.01; by more than
    0.01. *)
Definition within_tolerance (debit credit : float) : bool :=
  (PrimFloat.abs (debit - credit) <=? 0.01)%float.

Definition beyond_tolerance (debit credit : float) : bool :=
  (0.01 <? PrimFloat.abs (debit - credit))%float.

(** No two of the keys are equal. *)
Definition distinct_keys (ks : list cell) : Prop :=
  ForallOrdPairs (fun a b => cell_eqb a b = false) ks.

(** Normalised buckets of which only [rest] has rows: the two
    transactions. *)
Definition two_transactions_buckets : Buckets :=
  {| without_advertisement := mkDF [col_transaction; col_debit; col_credit] [];
     advertisment := mkDF [col_transaction; col_debit; col_credit] [];
     rest := two_transactions |}.

(** ** The excluded accounts in the words of the specification *)

(** The account is the number 70001 or the number 70100. *)
Definition excluded_account (account : cell) : bool :=
  match account with
  | Num x => (x =? 70001)%float || (x =? 70100)%float
  | _ => false
  end.

(** A normalised bucket [rest] with a row of each excluded account and a
    row of another account. *)
Definition both_excluded_example : DataFrame :=
  mkDF [col_transaction_date; col_product_name; col_credit; col_credit_account]
    [(0%nat, [(col_transaction_date, Str "2025-11-27");
              (col_product_name, Str "X"); (col_credit, Num 50);
              (col_credit_account, Num 70001)]);
     (1%nat, [(col_transaction_date, Str "2025-11-05");
              (col_product_name, Str "Y"); (col_credit, Num 30);
              (col_credit_account, Num 40000)]);
     (2%nat, [(col_transaction_date, Str "2025-11-06");
              (col_product_name, Str "Z"); (col_credit, Num 20);
              (col_credit_account, Num 70100)])].

(** A table as [read_csv] gives it when one product reference is not a
    number: the column is read as text, so that the account of the second
    row is the text "70001". The first row is a candidate; the second
    goes to [rest]. *)
Definition text_accounts : DataFrame :=
  mkDF input_columns
    [input_row 0 1 (mkDate 2025 11 3) "Ticket" (Num 100) (Num 100)
               (Num 79991) (Str "ABC");
     input_row 1 2 (mkDate 2025 11 27) "X" (Num 50) (Num 50)
               (Num 10001) (Str "70001")].

(** The same table with numbers for product references. *)
Definition number_accounts : DataFrame :=
  mkDF input_columns
    [input_row 0 1 (mkDate 2025 11 3) "Ticket" (Num 100) (Num 100)
               (Num 79991) (Num 4000);
     input_row 1 2 (mkDate 2025 11 27) "X" (Num 50) (Num 50)
               (Num 10001) (Num 70001)].

(** What a summary shows: credit account, product and summed credit of
    each of its rows. *)
Definition shown (s : DataFrame) : list (cell * cell * cell) :=
  map (fun r => (cell_of "חשבון זכות" r, cell_of "שם מוצר" r,
                 cell_of col_sum_credit r))
      (rows s).

(** ** The buckets without the rows that lack a transaction *)

(** The buckets with only their rows that carry a transaction id. *)
Definition with_transaction_buckets (b : Buckets) : Buckets :=
  {| without_advertisement := with_transaction (without_advertisement b);
     advertisment := with_transaction (advertisment b);
     rest := with_transaction (rest b) |}.

(** The entry of a bucket in which no transaction was found. *)
Definition no_transactions {P : Pandas} : Validation :=
  let zero := series_sum [] in
  {| v_total_debit := zero;
     v_total_credit := zero;
     v_difference := (zero - zero)%float;
     v_balanced := (PrimFloat.abs (zero - zero) <=? 0.01)%float;
     v_unbalanced_transactions := Some 0%nat |}.

(** A bucket whose only row has no transaction id, and buckets made of
    it and of the bucket with a stray row. *)
Definition only_stray_row : DataFrame :=
  mkDF [col_transaction; col_debit; col_credit]
    [(0%nat, [(col_transaction, NA); (col_debit, Num 40);
              (col_credit, Num 0)])].

Definition stray_buckets : Buckets :=
  {| without_advertisement := stray_row;
     advertisment := only_stray_row;
     rest := mkDF [col_transaction; col_debit; col_credit] [] |}.

(** * Properties *)

#[local] Arguments String.eqb : simpl never.

(** ** Lists, masks and the error monad *)

Lemma bind_Ok {A B : Type} (m : result A) (k : A -> result B) (b : B) :
  bind m k = Ok b -> exists a, m = Ok a /\ k a = Ok b.
Proof.
  destruct m as [a | e]; simpl; intros H; [ eauto | discriminate ].
Qed.

Ltac inv_bind H :=
  let a := fresh "a" in
  let E := fresh "E" in
  apply bind_Ok in H; destruct H as [a [E H]].

Lemma mapM_length {A B : Type} (f : A -> result B) (l : list A) (m : list B) :
  mapM f l = Ok m -> List.length m = List.length l.
Proof.
  revert m; induction l as [| a l IH]; simpl; intros m H.
  - inversion H; reflexivity.
  - inv_bind H. inv_bind H. inversion H; subst. simpl.
    f_equal. now apply IH.
Qed.

Lemma mapM_app {A B : Type} (f : A -> result B) (l1 l2 : list A) :
  mapM f (l1 ++ l2) =
  (m1 <- mapM f l1 ;; m2 <- mapM f l2 ;; Ok (m1 ++ m2)).
Proof.
  induction l1 as [| a l1 IH]; simpl.
  - destruct (mapM f l2); reflexivity.
  - destruct (f a); simpl; [ | reflexivity ].
    rewrite IH. destruct (mapM f l1); simpl; [ | reflexivity ].
    destruct (mapM f l2); reflexivity.
Qed.

Lemma mapM_nth {A B : Type} (f : A -> result B) (l : list A) (m : list B) :
  mapM f l = Ok m ->
  forall i a, nth_error l i = Some a ->
  exists b, nth_error m i = Some b /\ f a = Ok b.
Proof.
  revert m; induction l as [| x l IH]; simpl; intros m H i a Hi.
  - destruct i; discriminate.
  - inv_bind H. inv_bind H. inversion H; subst.
    destruct i as [| i]; simpl in *.
    + inversion Hi; subst. eauto.
    + eapply IH; eauto.
Qed.

Lemma select_length_le {A : Type} (m : list bool) (l : list A) :
  (List.length (select m l) <= List.length l)%nat.
Proof.
  revert l; induction m as [| b m IH]; intros [| a l]; simpl; try lia.
  specialize (IH l). destruct b; simpl; lia.
Qed.

Lemma select_length_eq {A B : Type} (m : list bool) (l : list A) (l' : list B) :
  List.length l = List.length l' ->
  List.length (select m l) = List.length (select m l').
Proof.
  revert l l'; induction m as [| b m IH]; intros [| a l] [| a' l']; simpl;
    try discriminate; auto.
  intros H. injection H as H. destruct b; simpl; auto.
Qed.

Lemma select_map {A B : Type} (f : A -> B) (m : list bool) (l : list A) :
  map f (select m l) = select m (map f l).
Proof.
  revert l; induction m as [| b m IH]; intros [| a l]; simpl; auto.
  destruct b; simpl; now rewrite IH.
Qed.

Lemma select_In {A : Type} (m : list bool) (l : list A) (a : A) :
  In a (select m l) -> In a l.
Proof.
  revert l; induction m as [| b m IH]; intros [| x l]; simpl; try tauto.
  destruct b; simpl; intuition.
Qed.

Lemma select_app {A : Type} (m1 m2 : list bool) (l1 l2 : list A) :
  List.length m1 = List.length l1 ->
  select (m1 ++ m2) (l1 ++ l2) = select m1 l1 ++ select m2 l2.
Proof.
  revert l1; induction m1 as [| b m1 IH]; intros [| a l1]; simpl;
    try discriminate; auto.
  intros H. injection H as H. destruct b; simpl; now rewrite IH.
Qed.

Lemma select_none {A : Type} (l : list A) :
  select (repeat false (List.length l)) l = [].
Proof. induction l; simpl; auto. Qed.

Lemma select_all {A : Type} (l : list A) :
  select (repeat true (List.length l)) l = l.
Proof. induction l; simpl; congruence. Qed.

(** A mask and its negation split a list into two parts. *)
Lemma select_partition {A : Type} (m : list bool) (l : list A) :
  List.length m = List.length l ->
  Permutation (select m l ++ select (map negb m) l) l.
Proof.
  revert l; induction m as [| b m IH]; intros [| a l]; simpl;
    try discriminate; auto.
  intros H. injection H as H. destruct b; simpl.
  - constructor. now apply IH.
  - symmetry. apply Permutation_cons_app. symmetry. now apply IH.
Qed.

Lemma zip_with_length {A B C : Type} (f : A -> B -> C) l m :
  List.length m = List.length l ->
  List.length (zip_with f l m) = List.length l.
Proof.
  revert m; induction l as [| a l IH]; intros [| b m]; simpl;
    try discriminate; auto.
Qed.

Lemma zip_with_map_fst {A B C D : Type} (f : A -> B -> C) (g : C -> D)
  (h : A -> D) l m :
  (forall a b, g (f a b) = h a) ->
  List.length m = List.length l ->
  map g (zip_with f l m) = map h l.
Proof.
  intros Hf. revert m; induction l as [| a l IH]; intros [| b m]; simpl;
    try discriminate; auto.
  intros H. injection H as H. now rewrite Hf, IH.
Qed.

Lemma existsb_eqb_In c l : existsb (String.eqb c) l = true <-> In c l.
Proof.
  rewrite existsb_exists. split.
  - intros [x [Hin Hx]]. apply String.eqb_eq in Hx. now subst.
  - intros H. exists c. split; auto. apply String.eqb_refl.
Qed.

(** ** Records *)

Lemma get_put_same c v r : get c (put c v r) = v.
Proof.
  induction r as [| [k w] r IH]; simpl.
  - now rewrite String.eqb_refl.
  - destruct (String.eqb k c) eqn:E; simpl; rewrite E; auto.
Qed.

Lemma get_put_other c c' v r : c <> c' -> get c' (put c v r) = get c' r.
Proof.
  intros Hne. induction r as [| [k w] r IH]; simpl.
  - destruct (String.eqb c c') eqn:E; auto.
    apply String.eqb_eq in E. contradiction.
  - destruct (String.eqb k c) eqn:E; simpl.
    + apply String.eqb_eq in E; subst k.
      destruct (String.eqb c c') eqn:E'; auto.
      apply String.eqb_eq in E'. contradiction.
    + now rewrite IH.
Qed.

Lemma get_del_other c c' r : c <> c' -> get c' (del c r) = get c' r.
Proof.
  intros Hne. unfold del. induction r as [| [k w] r IH]; simpl; auto.
  destruct (String.eqb k c) eqn:E; simpl.
  - apply String.eqb_eq in E; subst k.
    destruct (String.eqb c c') eqn:E'; auto.
    apply String.eqb_eq in E'. contradiction.
  - now rewrite IH.
Qed.

(** ** Frames *)

Lemma get_col_Ok df c col :
  get_col df c = Ok col -> has_col df c = true /\ col = map (cell_of c) (rows df).
Proof.
  unfold get_col. destruct (has_col df c); intros H; inversion H; auto.
Qed.

Lemma get_col_length df c col : get_col df c = Ok col -> List.length col = len df.
Proof.
  intros H. apply get_col_Ok in H as [_ ->]. unfold len. now rewrite length_map.
Qed.

Lemma get_col_loc df m c :
  get_col (loc df m) c = (col <- get_col df c ;; Ok (select m col)).
Proof.
  unfold get_col, has_col, loc; simpl.
  destruct (existsb (String.eqb c) (columns df)); simpl; auto.
  now rewrite select_map.
Qed.

Lemma index_loc df m : index (loc df m) = select m (index df).
Proof. unfold index, loc; simpl. apply select_map. Qed.

Lemma index_set_col df c vals :
  List.length vals = len df -> index (set_col df c vals) = index df.
Proof.
  intros H. unfold index, set_col; simpl.
  now apply zip_with_map_fst.
Qed.

Lemma len_set_col df c vals :
  List.length vals = len df -> len (set_col df c vals) = len df.
Proof.
  intros H. unfold len, set_col; simpl. now apply zip_with_length.
Qed.

Lemma len_index df : List.length (index df) = len df.
Proof. unfold index, len. apply length_map. Qed.

(** ** The segmenter *)

Lemma ffill_from_length last l :
  List.length (ffill_from last l) = List.length l.
Proof.
  revert last; induction l as [| c l IH]; intros last; simpl; auto.
  destruct (isna c); simpl; now rewrite IH.
Qed.

Lemma cumsum_from_length acc l :
  List.length (cumsum_from acc l) = List.length l.
Proof.
  revert acc; induction l as [| b l IH]; intros acc; simpl; auto.
Qed.

Lemma seg_has_4118_length code :
  List.length (seg_has_4118 code) = List.length code.
Proof.
  unfold seg_has_4118, transform_any, cumsum.
  now rewrite length_map, cumsum_from_length, length_map.
Qed.

Section Segmenter.

Context {P : Pandas}.

Lemma block_key_length df key :
  block_key df = Ok key -> List.length key = len df.
Proof.
  unfold block_key. intros H. inv_bind H. inv_bind H. inversion H; subst.
  apply mapM_length in E0. apply get_col_length in E.
  unfold ffill in E0.
  now rewrite length_map, E0, length_map, ffill_from_length, length_map.
Qed.

(** What [only_79991] returns: the candidate rows under their own labels,
    one code for each. *)
Lemma only_79991_Ok df key only code :
  only_79991 df key = Ok (only, code) ->
  let mask := map (fun k => String.eqb k "79991") key in
  code = map (fun r => to_numeric (cell_of "InstallmentProductExtRef" r))
             (select mask (rows df))
  /\ only = set_col (loc df mask) "InstallmentProductExtRef" (map Num code)
  /\ index only = select mask (index df)
  /\ List.length code = len only.
Proof.
  intros H mask. unfold only_79991 in H. fold mask in H.
  inv_bind H. inversion H; subst. clear H.
  apply get_col_Ok in E as [_ ->].
  assert (L : List.length
                (map Num (map to_numeric
                   (map (cell_of "InstallmentProductExtRef")
                        (rows (loc df mask))))) = len (loc df mask)).
  { unfold len. now rewrite !length_map. }
  repeat split.
  - now rewrite map_map.
  - rewrite index_set_col by exact L. apply index_loc.
  - rewrite len_set_col by exact L. unfold len. now rewrite !length_map.
Qed.

Lemma split_data_Ok df b :
  split_data df = Ok b ->
  exists key only code,
    block_key df = Ok key
    /\ only_79991 df key = Ok (only, code)
    /\ advertisment b = loc only (seg_has_4118 code)
    /\ without_advertisement b = loc only (map negb (seg_has_4118 code))
    /\ rest b = loc df (map (fun k => negb (String.eqb k "79991")) key).
Proof.
  unfold split_data. intros H. inv_bind H. inv_bind H.
  destruct a0 as [only code]. inversion H; subst; simpl.
  exists a, only, code. auto.
Qed.

End Segmenter.

(** *** The grouping key *)

Lemma find_app {A : Type} (p : A -> bool) (l1 l2 : list A) :
  find p (l1 ++ l2) =
  match find p l1 with Some x => Some x | None => find p l2 end.
Proof.
  induction l1 as [| a l1 IH]; simpl; auto. destruct (p a); auto.
Qed.

Lemma isna_replace_blank c : isna (replace_blank c) = missing_reference c.
Proof.
  unfold missing_reference. destruct c as [| x | s | d]; simpl; auto.
  - now rewrite !orb_false_r.
  - destruct (String.eqb s "" || String.eqb s "nan" || String.eqb s "NaN");
      reflexivity.
Qed.

Lemma replace_blank_present c :
  missing_reference c = false -> replace_blank c = c.
Proof.
  unfold missing_reference. destruct c as [| x | s | d]; simpl; auto.
  intros H. now rewrite H.
Qed.

(** Forward filling gives every row the nearest reference that is not
    missing; before the first such reference the cell stays missing. *)
Lemma ffill_from_nearest last raw i c0 :
  nth_error raw i = Some c0 ->
  nth_error (ffill_from last (map replace_blank raw)) i =
  Some match nearest_preceding raw i with
       | Some c => c
       | None => match last with Some v => v | None => replace_blank c0 end
       end.
Proof.
  revert last i. induction raw as [| c raw IH]; intros last i Hi.
  - destruct i; discriminate.
  - unfold nearest_preceding. simpl map. simpl ffill_from.
    rewrite isna_replace_blank.
    destruct i as [| i]; simpl in Hi.
    + inversion Hi; subst c0. simpl.
      destruct (missing_reference c) eqn:M; simpl; auto.
      now rewrite replace_blank_present.
    + change (firstn (S (S i)) (c :: raw)) with (c :: firstn (S i) raw).
      specialize (IH (if missing_reference c then last
                      else Some (replace_blank c)) i Hi).
      unfold nearest_preceding in IH.
      remember (firstn (S i) raw) as pre eqn:Epre.
      change (rev (c :: pre)) with (rev pre ++ [c]).
      rewrite find_app. cbn [find].
      destruct (find (fun c => negb (missing_reference c)) (rev pre))
        as [x |];
        destruct (missing_reference c) eqn:M; cbn [nth_error negb];
        rewrite IH; auto.
      now rewrite replace_blank_present.
Qed.

Lemma string_of_Z_inj z z' : string_of_Z z = string_of_Z z' -> z = z'.
Proof.
  unfold string_of_Z. intros H.
  assert (Hn : forall y, Z.to_int y <> Decimal.Pos Decimal.Nil
                         /\ Z.to_int y <> Decimal.Neg Decimal.Nil).
  { intros y. destruct y as [| p | p]; simpl; split; try discriminate;
      intros Hp; inversion Hp as [Hq];
      exact (DecimalPos.Unsigned.to_uint_nonnil p Hq). }
  assert (E : Some (Z.to_int z) = Some (Z.to_int z')).
  { rewrite <- (NilZero.isi (Z.to_int z)) by apply Hn.
    rewrite <- (NilZero.isi (Z.to_int z')) by apply Hn.
    now rewrite H. }
  inversion E as [E']. now apply DecimalZ.to_int_inj.
Qed.

(** Only the integer 79991 prints as the sentinel. *)
Lemma astype_str_79991 v : astype_str v = "79991" <-> v = Some 79991%Z.
Proof.
  split.
  - destruct v as [z |]; simpl; [ | discriminate ].
    intros H. f_equal. apply string_of_Z_inj. rewrite H. reflexivity.
  - intros ->. reflexivity.
Qed.

Lemma isna_to_numeric {P : Pandas} c :
  isna c = true -> is_nan (to_numeric c) = true.
Proof. destruct c; simpl; auto; discriminate. Qed.

Lemma astype_Int64_nan x : is_nan x = true -> astype_Int64 x = Ok None.
Proof. unfold astype_Int64. now intros ->. Qed.

Lemma nearest_preceding_none raw i c0 :
  nth_error raw i = Some c0 ->
  nearest_preceding raw i = None -> missing_reference c0 = true.
Proof.
  unfold nearest_preceding. intros Hi Hn.
  apply negb_false_iff. apply (find_none _ _ Hn).
  apply in_rev. rewrite rev_involutive.
  apply nth_error_In with (n := i).
  rewrite nth_error_firstn. destruct (Nat.ltb_spec i (S i)); [ auto | lia ].
Qed.

Section SegmenterProperties.

Context {P : Pandas}.

Lemma block_key_nth df raw key i c0 :
  get_col df "InstallmentPaymentExtRef" = Ok raw ->
  block_key df = Ok key ->
  nth_error raw i = Some c0 ->
  exists k, nth_error key i = Some k
            /\ key_string (nearest_preceding raw i) = Ok k.
Proof.
  unfold block_key. intros Hraw H Hi. rewrite Hraw in H. simpl in H.
  inv_bind H. inversion H; subst key; clear H.
  pose proof (ffill_from_nearest None raw i c0 Hi) as Hf.
  fold (ffill (map replace_blank raw)) in Hf.
  apply (map_nth_error to_numeric) in Hf.
  destruct (mapM_nth _ _ _ E _ _ Hf) as [z [Hz Hc]].
  exists (astype_str z). split.
  - now apply map_nth_error.
  - destruct (nearest_preceding raw i) as [c |] eqn:N; simpl.
    + now rewrite Hc.
    + rewrite astype_Int64_nan in Hc.
      * now inversion Hc.
      * apply isna_to_numeric. rewrite isna_replace_blank.
        eapply nearest_preceding_none; eauto.
Qed.

Lemma ffill_from_leading l1 l2 :
  Forall (fun c => isna c = true) l1 ->
  ffill_from None (l1 ++ l2) = l1 ++ ffill_from None l2.
Proof.
  induction 1 as [| c l1 Hc _ IH]; simpl; auto.
  now rewrite Hc, IH.
Qed.

Lemma mapM_astype_nan xs :
  Forall (fun x => is_nan x = true) xs ->
  mapM astype_Int64 xs = Ok (repeat None (List.length xs)).
Proof.
  induction 1 as [| x xs Hx _ IH]; simpl; auto.
  rewrite (astype_Int64_nan x Hx). simpl. now rewrite IH.
Qed.

Lemma block_key_leading cols lead tail :
  Forall (fun r => missing_reference
                     (cell_of "InstallmentPaymentExtRef" r) = true) lead ->
  block_key (mkDF cols (lead ++ tail)) =
  (key <- block_key (mkDF cols tail) ;;
   Ok (repeat "<NA>" (List.length lead) ++ key)).
Proof.
  intros Hl. unfold block_key, get_col, has_col. simpl.
  destruct (existsb (String.eqb "InstallmentPaymentExtRef") cols);
    [ simpl | reflexivity ].
  rewrite !map_app. unfold ffill. rewrite ffill_from_leading.
  - rewrite map_app, mapM_app. rewrite mapM_astype_nan.
    + simpl.
      destruct (mapM astype_Int64 _) as [ints | e]; simpl; auto.
      rewrite map_app, map_repeat, !length_map. reflexivity.
    + rewrite !Forall_map. eapply Forall_impl; [ | exact Hl ].
      intros r Hr. apply isna_to_numeric. now rewrite isna_replace_blank.
  - rewrite !Forall_map. eapply Forall_impl; [ | exact Hl ].
    intros r Hr. now rewrite isna_replace_blank.
Qed.

(** C9. Rows at the head of the table whose reference is missing, with
    nothing before them to inherit, all land in [rest], in front of it and
    in their order; the two other buckets are those of the remaining rows,
    and the call raises an error only if the remaining rows alone raise
    it. A table of such rows only, with its two reference columns, is
    split without error: all of it is [rest]. *)
Theorem leading_missing_rows_go_to_rest cols lead tail :
  Forall (fun r => missing_reference
                     (cell_of "InstallmentPaymentExtRef" r) = true) lead ->
  split_data (mkDF cols (lead ++ tail)) =
  (b <- split_data (mkDF cols tail) ;;
   Ok (with_rest_rows b (lead ++ rows (rest b))))
  /\ (In "InstallmentPaymentExtRef" cols ->
      In "InstallmentProductExtRef" cols ->
      split_data (mkDF cols lead)
      = Ok {| without_advertisement := mkDF cols [];
              advertisment := mkDF cols [];
              rest := mkDF cols lead |}).
Proof.
  intros Hl.
  assert (Heq : forall tail,
            split_data (mkDF cols (lead ++ tail)) =
            (b <- split_data (mkDF cols tail) ;;
             Ok (with_rest_rows b (lead ++ rows (rest b))))).
  { clear tail. intros tail.
    unfold split_data. rewrite (block_key_leading _ _ _ Hl).
    destruct (block_key (mkDF cols tail)) as [key | e]; simpl; auto.
    set (n := List.length lead).
    assert (Ho : only_79991 (mkDF cols (lead ++ tail))
                            (repeat "<NA>" n ++ key)
                 = only_79991 (mkDF cols tail) key).
    { unfold only_79991, loc. simpl.
      rewrite map_app, map_repeat. simpl.
      rewrite select_app by (now rewrite repeat_length).
      unfold n. now rewrite select_none. }
    rewrite Ho. destruct (only_79991 (mkDF cols tail) key) as [oc | e];
      simpl; auto.
    unfold with_rest_rows, loc. simpl. do 3 f_equal.
    rewrite map_app, map_repeat. simpl.
    rewrite select_app by (now rewrite repeat_length).
    unfold n. now rewrite select_all. }
  split; [ apply Heq | ].
  intros H1 H2. apply existsb_eqb_In in H1, H2.
  specialize (Heq []). rewrite app_nil_r in Heq. rewrite Heq.
  unfold split_data, block_key, only_79991, get_col, has_col, set_col, loc.
  simpl. rewrite H1. simpl. unfold has_col. simpl. rewrite H2. simpl.
  unfold with_rest_rows. simpl. now rewrite app_nil_r.
Qed.

End SegmenterProperties.

Lemma leading_missing_rows_witness :
  Forall (fun r => missing_reference
                     (cell_of "InstallmentPaymentExtRef" r) = true)
         [blank_row]
  /\ split_data (P := plain) (mkDF input_columns ([blank_row] ++ rows scenario))
     = (b <- split_data (P := plain) (mkDF input_columns (rows scenario)) ;;
        Ok (with_rest_rows b ([blank_row] ++ rows (rest b)))).
Proof.
  split; [ repeat constructor | ].
  apply (leading_missing_rows_go_to_rest (P := plain) input_columns
           [blank_row] (rows scenario)).
  repeat constructor.
Defined.

(** *** The frame of the segmenter *)

Lemma zip_with_map_r {A B C : Type} (f : A -> B -> C) (g : A -> B) l :
  zip_with f l (map g l) = map (fun a => f a (g a)) l.
Proof. induction l as [| a l IH]; simpl; congruence. Qed.

Section SegmenterFrame.

Context {P : Pandas}.

(** The candidate rows are rows of the input whose product reference,
    and nothing else, has been overwritten. *)
Lemma only_79991_rows df key only code :
  only_79991 df key = Ok (only, code) ->
  columns only = columns df
  /\ rows only =
     map (fun r : row =>
            (fst r,
             put "InstallmentProductExtRef"
                 (Num (to_numeric (cell_of "InstallmentProductExtRef" r)))
                 (snd r)))
         (select (map (fun k => String.eqb k "79991") key) (rows df)).
Proof.
  intros H. unfold only_79991 in H. inv_bind H. inversion H; subst; clear H.
  apply get_col_Ok in E as [Hc ->]. unfold set_col. rewrite Hc. simpl.
  split; [ reflexivity | ].
  rewrite !map_map. apply zip_with_map_r.
Qed.

(** C10. Segmentation keeps the columns of the table; a row of [rest] is
    a row of the input, unchanged; a row of the two other buckets is a row
    of the input in which the product reference alone was overwritten
    with its numeric coercion, missing when the value is not numeric. *)
Theorem segmentation_frame df b :
  split_data df = Ok b ->
  (columns (without_advertisement b) = columns df
   /\ columns (advertisment b) = columns df
   /\ columns (rest b) = columns df)
  /\ (forall r, In r (rows (rest b)) -> In r (rows df))
  /\ (forall r',
        In r' (rows (without_advertisement b) ++ rows (advertisment b)) ->
        exists r,
          In r (rows df) /\ fst r' = fst r
          /\ cell_of "InstallmentProductExtRef" r'
             = Num (to_numeric (cell_of "InstallmentProductExtRef" r))
          /\ (float_view (cell_of "InstallmentProductExtRef" r) = None ->
              parse_numeric (cell_of "InstallmentProductExtRef" r) = None ->
              isna (cell_of "InstallmentProductExtRef" r') = true)
          /\ (forall c, c <> "InstallmentProductExtRef" ->
                        cell_of c r' = cell_of c r)).
Proof.
  intros H.
  destruct (split_data_Ok _ _ H) as (key & only & code & Hk & Ho & Ha & Hw & Hr).
  destruct (only_79991_rows _ _ _ _ Ho) as [Hc Hrows].
  rewrite Ha, Hw, Hr. simpl. repeat split; auto.
  - intros r Hin. eapply select_In; eauto.
  - intros r' Hin.
    assert (Hin' : In r' (rows only)).
    { apply in_app_or in Hin as [Hin | Hin]; eapply select_In; eauto. }
    rewrite Hrows in Hin'. apply in_map_iff in Hin' as [r [<- Hr']].
    exists r. unfold cell_of. simpl.
    split; [ eapply select_In; eauto | ]. split; [ reflexivity | ].
    split; [ apply get_put_same | ]. split.
    + intros Hn Hp. rewrite get_put_same.
      destruct (get "InstallmentProductExtRef" (snd r)) as [| x | s | d];
        simpl in *; try discriminate; now rewrite Hp.
    + intros c Hne. apply get_put_other. congruence.
Qed.

End SegmenterFrame.

Lemma segmentation_frame_witness :
  split_data (P := plain) scenario = Ok scenario_buckets
  /\ (forall r, In r (rows (rest scenario_buckets)) -> In r (rows scenario)).
Proof.
  split; [ vm_compute; reflexivity | ].
  apply (segmentation_frame (P := plain) scenario scenario_buckets).
  vm_compute; reflexivity.
Defined.

(** *** Segments *)

(** The running count grows by one exactly at a true entry. *)
Lemma cumsum_from_succ acc l k :
  (S k < List.length l)%nat ->
  nth (S k) (cumsum_from acc l) 0%nat
  = (nth k (cumsum_from acc l) 0 + b2n (nth (S k) l false))%nat.
Proof.
  revert acc k. induction l as [| b l IH]; intros acc k Hk; simpl in Hk.
  - lia.
  - destruct k as [| k].
    + destruct l as [| b' l]; simpl in *; [ lia | ].
      destruct b, b'; simpl; lia.
    + cbn [cumsum_from nth]. apply IH. lia.
Qed.

Lemma cumsum_mono l i j :
  (i <= j < List.length l)%nat ->
  (nth i (cumsum l) 0 <= nth j (cumsum l) 0)%nat.
Proof.
  unfold cumsum. intros [Hij Hj]. induction j as [| j IH].
  - replace i with 0%nat by lia. lia.
  - destruct (Nat.eq_dec i (S j)) as [-> | Hne]; [ lia | ].
    rewrite cumsum_from_succ by lia. specialize (IH ltac:(lia) ltac:(lia)). lia.
Qed.

(** Two rows carry the same segment number exactly when no entry after
    the earlier one, up to the later one, is true. *)
Lemma cumsum_eq_iff l i j :
  (i <= j < List.length l)%nat ->
  nth i (cumsum l) 0%nat = nth j (cumsum l) 0%nat
  <-> (forall k, (i < k <= j)%nat -> nth k l false = false).
Proof.
  intros [Hij Hj]. induction j as [| j IH].
  - replace i with 0%nat by lia. split; [ intros _ k Hk; lia | reflexivity ].
  - destruct (Nat.eq_dec i (S j)) as [-> | Hne].
    + split; [ intros _ k Hk; lia | reflexivity ].
    + assert (Hm := cumsum_mono l i j ltac:(lia)).
      specialize (IH ltac:(lia) ltac:(lia)).
      unfold cumsum in *. rewrite cumsum_from_succ by lia.
      split.
      * intros He k Hk.
        destruct (nth (S j) l false) eqn:Hb; simpl in He; [ lia | ].
        destruct (Nat.eq_dec k (S j)) as [-> | Hk']; [ exact Hb | ].
        apply IH; lia.
      * intros Hall. rewrite (Hall (S j)) by lia. simpl.
        rewrite Nat.add_0_r. apply IH. intros k Hk. apply Hall. lia.
Qed.

Lemma transform_any_nth keys vals i :
  List.length vals = List.length keys ->
  (i < List.length keys)%nat ->
  nth i (transform_any keys vals) false = true
  <-> exists j, (j < List.length keys)%nat
                /\ nth j keys 0%nat = nth i keys 0%nat
                /\ nth j vals false = true.
Proof.
  intros Hl Hi. unfold transform_any.
  set (f := fun k => existsb (fun kv : nat * bool =>
                                Nat.eqb (fst kv) k && snd kv)
                             (combine keys vals)).
  rewrite (nth_indep _ false (f 0%nat)) by (now rewrite length_map).
  rewrite (map_nth f keys 0%nat i). unfold f.
  rewrite existsb_exists. split.
  - intros [[k v] [Hin Hkv]]. simpl in Hkv.
    apply andb_true_iff in Hkv as [Hk Hv]. apply Nat.eqb_eq in Hk. subst v.
    destruct (In_nth _ _ (0%nat, false) Hin) as [j [Hj Hnth]].
    rewrite length_combine, Hl, Nat.min_id in Hj.
    rewrite combine_nth in Hnth by auto. inversion Hnth as [[Hk' Hv']].
    exists j. rewrite Hk', Hv'. auto.
  - intros [j [Hj [Hk Hv]]].
    exists (nth j keys 0%nat, nth j vals false). split.
    + rewrite <- combine_nth by auto. apply nth_In.
      now rewrite length_combine, Hl, Nat.min_id.
    + simpl. rewrite Hk, Nat.eqb_refl, Hv. reflexivity.
Qed.

Lemma same_segment_sym code i j : same_segment code i j -> same_segment code j i.
Proof.
  unfold same_segment. intros H k Hk. apply H.
  rewrite Nat.min_comm, Nat.max_comm. exact Hk.
Qed.

Lemma seg_id_eq_iff code i j :
  (i < List.length code)%nat -> (j < List.length code)%nat ->
  nth j (cumsum (map is_nan code)) 0%nat = nth i (cumsum (map is_nan code)) 0%nat
  <-> same_segment code i j.
Proof.
  assert (Hle : forall a b, (a <= b < List.length code)%nat ->
                 nth a (cumsum (map is_nan code)) 0%nat
                 = nth b (cumsum (map is_nan code)) 0%nat
                 <-> same_segment code a b).
  { intros a b Hab. rewrite cumsum_eq_iff by (now rewrite length_map).
    unfold same_segment.
    rewrite Nat.min_l, Nat.max_r by lia.
    split; intros H k Hk; specialize (H k Hk).
    - rewrite (nth_indep _ false (is_nan nan)) in H
        by (rewrite length_map; lia).
      now rewrite map_nth in H.
    - rewrite (nth_indep _ false (is_nan nan)) by (rewrite length_map; lia).
      now rewrite map_nth. }
  intros Hi Hj. destruct (Nat.le_ge_cases i j) as [Hc | Hc].
  - rewrite <- Hle by lia. split; congruence.
  - split.
    + intros H. apply same_segment_sym. apply Hle; [ lia | exact H ].
    + intros H. apply same_segment_sym in H. apply Hle in H; [ auto | lia ].
Qed.

(** A row is marked exactly when some row of its segment has the code
    4118. *)
Lemma seg_has_4118_nth code i :
  (i < List.length code)%nat ->
  nth i (seg_has_4118 code) false = true
  <-> exists j, (j < List.length code)%nat
                /\ same_segment code i j
                /\ (nth j code nan =? 4118)%float = true.
Proof.
  intros Hi. unfold seg_has_4118.
  assert (Hl : List.length (cumsum (map is_nan code)) = List.length code).
  { unfold cumsum. now rewrite cumsum_from_length, length_map. }
  rewrite transform_any_nth by (rewrite ?length_map, ?Hl; auto).
  rewrite Hl.
  split; intros [j [Hj [Hs Hv]]]; exists j; (split; [ exact Hj | ]).
  - split; [ now apply seg_id_eq_iff | ].
    rewrite (nth_indep _ false ((nan =? 4118)%float)) in Hv
      by (now rewrite length_map).
    now rewrite (map_nth (fun x => (x =? 4118)%float)) in Hv.
  - split; [ now apply seg_id_eq_iff | ].
    rewrite (nth_indep _ false ((nan =? 4118)%float))
      by (now rewrite length_map).
    now rewrite (map_nth (fun x => (x =? 4118)%float)).
Qed.

Lemma zip_with_map_snd {A B C : Type} (f : A -> B -> C) (g : C -> B) l m :
  (forall a b, g (f a b) = b) ->
  List.length m = List.length l ->
  map g (zip_with f l m) = m.
Proof.
  intros Hf. revert m; induction l as [| a l IH]; intros [| b m]; simpl;
    try discriminate; auto.
  intros H. injection H as H. now rewrite Hf, IH.
Qed.

Lemma has_col_set_col df c vals : has_col (set_col df c vals) c = true.
Proof.
  unfold set_col. destruct (has_col df c) eqn:E; unfold has_col in *; simpl.
  - exact E.
  - rewrite existsb_app. simpl. now rewrite String.eqb_refl, orb_true_r.
Qed.

Lemma get_col_set_col_same df c vals :
  List.length vals = len df -> get_col (set_col df c vals) c = Ok vals.
Proof.
  intros H. unfold get_col. rewrite has_col_set_col. f_equal.
  unfold set_col. simpl. apply zip_with_map_snd; auto.
  intros r v. unfold cell_of. simpl. apply get_put_same.
Qed.

Section SegmentMarking.

Context {P : Pandas}.

(** C1, the segmenter's part: the labels of the three buckets together
    are the labels of the input, each as often as the input has it. *)
Lemma split_data_partition df b :
  split_data df = Ok b ->
  Permutation (index (without_advertisement b) ++ index (advertisment b)
               ++ index (rest b))
              (index df).
Proof.
  intros H.
  destruct (split_data_Ok _ _ H) as (key & only & code & Hk & Ho & Ha & Hw & Hr).
  destruct (only_79991_Ok _ _ _ _ Ho) as (_ & _ & Hi & Hl).
  pose proof (block_key_length _ _ Hk) as Hkl.
  rewrite app_assoc.
  eapply Permutation_trans;
    [ | apply (select_partition (map (fun k => String.eqb k "79991") key)) ].
  - apply Permutation_app.
    + rewrite Ha, Hw, !index_loc, <- Hi.
      eapply Permutation_trans; [ apply Permutation_app_comm | ].
      apply select_partition. now rewrite seg_has_4118_length, len_index.
    + rewrite Hr, index_loc, map_map. reflexivity.
  - now rewrite length_map, len_index.
Qed.

End SegmentMarking.

(** ** The column normaliser *)

Lemma keeps_col_refl c df : keeps_col c df df.
Proof. repeat split. Qed.

Lemma keeps_col_trans c df1 df2 df3 :
  keeps_col c df1 df2 -> keeps_col c df2 df3 -> keeps_col c df1 df3.
Proof.
  intros (H1 & H2 & H3) (H4 & H5 & H6). repeat split; congruence.
Qed.

Lemma eqb_neq_false (a b : string) : a <> b -> String.eqb a b = false.
Proof. intros H. now apply String.eqb_neq. Qed.

Lemma len_as_index df df' : index df' = index df -> len df' = len df.
Proof. intros H. now rewrite <- !len_index, H. Qed.

Lemma keeps_col_drop_col c c' df : c' <> c -> keeps_col c df (drop_col df c').
Proof.
  intros Hne. unfold keeps_col, index, drop_col, has_col. simpl.
  rewrite !map_map. simpl. repeat split.
  - apply map_ext. intros r. unfold cell_of. simpl. now apply get_del_other.
  - apply eq_true_iff_eq. rewrite !existsb_eqb_In, filter_In.
    rewrite negb_true_iff, String.eqb_neq. intuition congruence.
Qed.

Lemma keeps_col_set_col c c' df vals :
  c' <> c -> List.length vals = len df -> keeps_col c df (set_col df c' vals).
Proof.
  intros Hne Hl. unfold keeps_col. split; [ now apply index_set_col | ]. split.
  - unfold set_col. simpl. apply zip_with_map_fst; auto.
    intros r v. unfold cell_of. simpl. now apply get_put_other.
  - unfold set_col, has_col. simpl.
    destruct (existsb (String.eqb c') (columns df)); auto.
    rewrite existsb_app. simpl.
    rewrite (eqb_neq_false c c') by congruence. now rewrite !orb_false_r.
Qed.

Lemma keeps_col_insert0 c c' df vals :
  c' <> c -> List.length vals = len df -> keeps_col c df (insert0 df c' vals).
Proof.
  intros Hne Hl. unfold keeps_col, index, insert0, has_col. simpl.
  split; [ now apply zip_with_map_fst | ]. split.
  - apply zip_with_map_fst; auto. intros r v. unfold cell_of. simpl.
    now rewrite (eqb_neq_false c' c).
  - rewrite (eqb_neq_false c c') by congruence. reflexivity.
Qed.

Lemma get_generated (f : string -> cell) c cols :
  In c cols -> get c (map (fun k => (k, f k)) cols) = f c.
Proof.
  induction cols as [| k cols IH]; simpl; [ tauto | ].
  intros [-> | Hin].
  - now rewrite String.eqb_refl.
  - destruct (String.eqb k c) eqn:E; auto.
    apply String.eqb_eq in E. now subst.
Qed.

Lemma keeps_col_reindex c df cols :
  In c cols -> has_col df c = true -> keeps_col c df (reindex df cols).
Proof.
  intros Hin Hc. unfold keeps_col, index, reindex. simpl.
  rewrite !map_map. simpl. repeat split.
  - apply map_ext. intros r. unfold cell_of at 1. simpl.
    rewrite (get_generated (fun k => if has_col df k then cell_of k r else NA))
      by exact Hin.
    now rewrite Hc.
  - rewrite Hc. unfold has_col. simpl. now apply existsb_eqb_In.
Qed.

Lemma lookup_Some k m v :
  lookup k m = Some v -> In k (map fst m) /\ In v (map snd m).
Proof.
  induction m as [| [k' v'] m IH]; simpl; [ discriminate | ].
  destruct (String.eqb_spec k k') as [-> | Hne].
  - intros [= ->]. auto.
  - intros H. destruct (IH H). auto.
Qed.

Lemma lookup_None k m : ~ In k (map fst m) -> lookup k m = None.
Proof.
  induction m as [| [k' v'] m IH]; simpl; auto.
  intros H. destruct (String.eqb_spec k k') as [-> | Hne]; [ tauto | ].
  apply IH. tauto.
Qed.

Lemma passthrough_spec c :
  passthrough c = true ->
  ~ In c columns_to_drop /\ ~ In c (map fst column_mapping)
  /\ ~ In c (map snd column_mapping)
  /\ c <> col_serial /\ c <> col_order_date.
Proof.
  unfold passthrough. rewrite negb_true_iff. intros H.
  assert (Hn : ~ In c (columns_to_drop ++ map fst column_mapping
                        ++ map snd column_mapping
                        ++ [col_serial; col_order_date])).
  { intros Hin. apply existsb_eqb_In in Hin. congruence. }
  rewrite !in_app_iff in Hn. cbn [In] in Hn. intuition congruence.
Qed.

Lemma rename_col_other c :
  ~ In c (map fst column_mapping) -> ~ In c (map snd column_mapping) ->
  forall k, rename_col column_mapping k = c <-> k = c.
Proof.
  intros Hs Ht k. unfold rename_col. split.
  - destruct (lookup k column_mapping) as [v |] eqn:L; auto.
    intros ->. apply lookup_Some in L. tauto.
  - intros ->. now rewrite lookup_None.
Qed.

Lemma keeps_col_rename c df :
  ~ In c (map fst column_mapping) -> ~ In c (map snd column_mapping) ->
  keeps_col c df (rename df column_mapping).
Proof.
  intros Hs Ht. pose proof (rename_col_other c Hs Ht) as Hr.
  unfold keeps_col, index, rename, has_col. simpl.
  rewrite !map_map. simpl. repeat split.
  - apply map_ext. intros [l r]. unfold cell_of. simpl.
    induction r as [| [k v] r IH]; simpl; auto.
    destruct (String.eqb_spec (rename_col column_mapping k) c) as [He | He];
      destruct (String.eqb_spec k c) as [Hk | Hk]; auto.
    + apply (proj1 (Hr k)) in He. contradiction.
    + apply (proj2 (Hr k)) in Hk. contradiction.
  - apply eq_true_iff_eq. rewrite !existsb_eqb_In, in_map_iff. split.
    + intros [k [Hk Hin]]. apply (proj1 (Hr k)) in Hk. now subst.
    + intros Hin. exists c. split; auto. now apply (proj2 (Hr c)).
Qed.

Lemma keeps_col_drop_unwanted c df :
  ~ In c columns_to_drop -> keeps_col c df (drop_unwanted df).
Proof.
  unfold drop_unwanted. generalize columns_to_drop as cols.
  intros cols. revert df. induction cols as [| k cols IH]; intros df Hn; simpl.
  - apply keeps_col_refl.
  - eapply keeps_col_trans; [ | apply IH; simpl in Hn; tauto ].
    destruct (has_col df k); [ | apply keeps_col_refl ].
    apply keeps_col_drop_col. simpl in Hn. tauto.
Qed.

Lemma NoDup_app_disjoint {A : Type} (l1 l2 : list A) (a : A) :
  NoDup (l1 ++ l2) -> In a l1 -> ~ In a l2.
Proof.
  induction l1 as [| x l1 IH]; simpl; [ tauto | ].
  intros Hnd [-> | Hin] H2; inversion Hnd; subst.
  - apply H1. apply in_or_app. now right.
  - now apply IH.
Qed.

Lemma map_snd_combine {A B : Type} (l : list A) (m : list B) :
  List.length l = List.length m -> map snd (combine l m) = m.
Proof.
  revert m; induction l as [| a l IH]; intros [| b m]; simpl;
    try discriminate; auto.
  intros H. injection H as H. now rewrite IH.
Qed.

(** The rows [drop_other_payment] keeps are rows of the frame, selected in
    order. *)
Lemma drop_other_payment_rows df :
  exists mask,
    List.length mask = len df
    /\ map snd (rows (drop_other_payment df)) = map snd (select mask (rows df))
    /\ columns (drop_other_payment df) = columns df.
Proof.
  unfold drop_other_payment. destruct (has_col df col_product_name).
  - eexists. split; [ | split; [ | reflexivity ] ].
    2:{ unfold reset_index, loc, len. simpl.
        rewrite map_snd_combine; [ reflexivity | ].
        now rewrite length_seq, length_map. }
    unfold len. now rewrite length_map.
  - exists (repeat true (len df)). unfold len.
    rewrite repeat_length, select_all. auto.
Qed.

Lemma map_cell_of_snd c (l l' : list row) :
  map snd l = map snd l' -> map (cell_of c) l = map (cell_of c) l'.
Proof.
  intros H. transitivity (map (get c) (map snd l)).
  - now rewrite map_map.
  - rewrite H. now rewrite map_map.
Qed.

Section Normaliser.

Context {P : Pandas}.

Lemma keeps_col_format_dates c df :
  c <> col_transaction_date -> keeps_col c df (format_dates df).
Proof.
  intros Hne. unfold format_dates.
  destruct (has_col df col_transaction_date); [ | apply keeps_col_refl ].
  apply keeps_col_set_col; [ congruence | ].
  unfold len. now rewrite length_map.
Qed.

Lemma keeps_col_number_and_date c df df' :
  c <> col_serial -> c <> col_order_date ->
  number_and_date df = Ok df' -> keeps_col c df df'.
Proof.
  intros Hs Ho. unfold number_and_date.
  set (df1 := if has_col df col_serial then drop_col df col_serial else df).
  assert (K1 : keeps_col c df df1).
  { unfold df1. destruct (has_col df col_serial);
      [ apply keeps_col_drop_col; congruence | apply keeps_col_refl ]. }
  set (df2 := insert0 df1 col_serial _).
  assert (K2 : keeps_col c df df2).
  { eapply keeps_col_trans; [ exact K1 | ].
    apply keeps_col_insert0; [ congruence | ].
    now rewrite length_map, length_seq. }
  destruct (has_col df2 col_transaction_date && (0 <? len df2)%nat).
  - intros H. inv_bind H. inv_bind H. inversion H; subst.
    eapply keeps_col_trans; [ exact K2 | ].
    apply keeps_col_set_col; [ congruence | apply repeat_length ].
  - intros H. inversion H; subst. exact K2.
Qed.

(** What the normaliser leaves alone, for a column [c] that passes
    through: the two advertisement buckets keep their rows, labels and
    cells of [c]; the bucket [rest] keeps, in order, a selection of its
    rows. *)
Lemma prepare_columns_keeps c b b' :
  passthrough c = true ->
  has_col (without_advertisement b) c = true ->
  has_col (advertisment b) c = true ->
  has_col (rest b) c = true ->
  prepare_columns b = Ok b' ->
  keeps_col c (without_advertisement b) (without_advertisement b')
  /\ keeps_col c (advertisment b) (advertisment b')
  /\ exists mask,
       List.length mask = len (rest b)
       /\ len (rest b') = List.length (select mask (rows (rest b)))
       /\ map (cell_of c) (rows (rest b'))
          = map (cell_of c) (select mask (rows (rest b))).
Proof.
  intros Hp Hw Ha Hr H.
  destruct (passthrough_spec c Hp) as (Hd & Hsrc & Htgt & Hser & Hord).
  assert (Hdate : c <> col_transaction_date).
  { intros ->. apply Htgt. simpl. tauto. }
  unfold prepare_columns, align_columns in H.
  cbn [without_advertisement advertisment rest] in H.
  set (wo := format_dates (rename (drop_unwanted (without_advertisement b))
                                  column_mapping)) in *.
  set (ad := format_dates (rename (drop_unwanted (advertisment b))
                                  column_mapping)) in *.
  set (rs0 := rename (drop_unwanted (rest b)) column_mapping) in *.
  set (rs := format_dates (drop_other_payment rs0)) in *.
  assert (Kw : keeps_col c (without_advertisement b) wo).
  { eapply keeps_col_trans; [ apply keeps_col_drop_unwanted; auto | ].
    eapply keeps_col_trans; [ apply keeps_col_rename; auto | ].
    apply keeps_col_format_dates; auto. }
  assert (Ka : keeps_col c (advertisment b) ad).
  { eapply keeps_col_trans; [ apply keeps_col_drop_unwanted; auto | ].
    eapply keeps_col_trans; [ apply keeps_col_rename; auto | ].
    apply keeps_col_format_dates; auto. }
  assert (K0 : keeps_col c (rest b) rs0).
  { eapply keeps_col_trans; [ apply keeps_col_drop_unwanted; auto | ].
    apply keeps_col_rename; auto. }
  assert (Hin : In c (columns wo)).
  { apply existsb_eqb_In. destruct Kw as (_ & _ & Hc).
    unfold has_col in Hc, Hw. congruence. }
  inv_bind H. inv_bind H. inv_bind H. inversion H; subst b'; clear H. simpl.
  split; [ | split ].
  - eapply keeps_col_trans; [ exact Kw | ].
    eapply keeps_col_number_and_date; eauto.
  - eapply keeps_col_trans; [ exact Ka | ].
    eapply keeps_col_trans;
      [ apply keeps_col_reindex; [ exact Hin | ] | ].
    + destruct Ka as (_ & _ & Hc). congruence.
    + eapply keeps_col_number_and_date; eauto.
  - destruct (drop_other_payment_rows rs0) as (mask & Hl & Hrows & Hcols).
    assert (K2 : keeps_col c rs a1).
    { eapply keeps_col_trans;
        [ apply keeps_col_reindex; [ exact Hin | ] | ].
      - unfold rs.
        destruct (keeps_col_format_dates c (drop_other_payment rs0) Hdate)
          as (_ & _ & ->).
        unfold has_col. rewrite Hcols.
        destruct K0 as (_ & _ & Hc). unfold has_col in Hc, Hr. congruence.
      - eapply keeps_col_number_and_date; eauto. }
    assert (K1 : keeps_col c (drop_other_payment rs0) a1).
    { eapply keeps_col_trans; [ | exact K2 ].
      apply keeps_col_format_dates; auto. }
    destruct K0 as (Hi0 & Hc0 & _). destruct K1 as (Hi1 & Hc1 & _).
    exists mask. split; [ | split ].
    + rewrite Hl. now apply len_as_index.
    + rewrite (len_as_index _ _ Hi1). unfold len.
      transitivity (List.length (map snd (rows (drop_other_payment rs0))));
        [ symmetry; apply length_map | ].
      rewrite Hrows, length_map. apply select_length_eq.
      exact (len_as_index _ _ Hi0).
    + rewrite Hc1, (map_cell_of_snd c _ _ Hrows).
      rewrite !select_map. now rewrite Hc0.
Qed.

End Normaliser.

Lemma index_reindex df cols : index (reindex df cols) = index df.
Proof. unfold index, reindex. simpl. now rewrite map_map. Qed.

Lemma passthrough_empty : passthrough "" = true.
Proof. reflexivity. Qed.

Section Partition.

Context {P : Pandas}.

Lemma split_data_columns df b :
  split_data df = Ok b ->
  columns (without_advertisement b) = columns df
  /\ columns (advertisment b) = columns df
  /\ columns (rest b) = columns df.
Proof.
  intros H.
  destruct (split_data_Ok _ _ H) as (key & only & code & Hk & Ho & Ha & Hw & Hr).
  destruct (only_79991_rows _ _ _ _ Ho) as [Hc _].
  rewrite Ha, Hw, Hr. simpl. auto.
Qed.

(** The normaliser keeps the rows of the two advertisement buckets under
    their labels and never adds a row to [rest]. *)
Lemma prepare_columns_index b b' :
  prepare_columns b = Ok b' ->
  index (without_advertisement b') = index (without_advertisement b)
  /\ index (advertisment b') = index (advertisment b)
  /\ (len (rest b') <= len (rest b))%nat.
Proof.
  intros H.
  destruct (passthrough_spec "" passthrough_empty) as (Hd & Hsrc & Htgt & Hs & Ho).
  assert (Hdate : "" <> col_transaction_date) by discriminate.
  assert (Kpre : forall df, index (format_dates (rename (drop_unwanted df)
                                                   column_mapping)) = index df).
  { intros df.
    destruct (keeps_col_format_dates "" (rename (drop_unwanted df) column_mapping)
                Hdate) as (-> & _).
    destruct (keeps_col_rename "" (drop_unwanted df) Hsrc Htgt)
      as (-> & _).
    now destruct (keeps_col_drop_unwanted "" df Hd) as (-> & _). }
  unfold prepare_columns, align_columns in H.
  cbn [without_advertisement advertisment rest] in H.
  inv_bind H. inv_bind H. inv_bind H. inversion H; subst b'; clear H. simpl.
  destruct (keeps_col_number_and_date "" _ _ Hs Ho E) as (Iw & _).
  destruct (keeps_col_number_and_date "" _ _ Hs Ho E0) as (Ia & _).
  destruct (keeps_col_number_and_date "" _ _ Hs Ho E1) as (Ir & _).
  rewrite index_reindex in Ia, Ir.
  split; [ now rewrite Iw, Kpre | ]. split; [ now rewrite Ia, Kpre | ].
  rewrite (len_as_index _ _ Ir).
  set (rs0 := rename (drop_unwanted (rest b)) column_mapping).
  destruct (keeps_col_format_dates "" (drop_other_payment rs0) Hdate)
    as (I1 & _).
  rewrite (len_as_index _ _ I1).
  destruct (drop_other_payment_rows rs0) as (mask & Hl & Hrows & _).
  assert (L0 : len rs0 = len (rest b)).
  { apply len_as_index. unfold rs0.
    destruct (keeps_col_rename "" (drop_unwanted (rest b)) Hsrc Htgt)
      as (-> & _).
    now destruct (keeps_col_drop_unwanted "" (rest b) Hd) as (-> & _). }
  rewrite <- L0. unfold len.
  replace (List.length (rows (drop_other_payment rs0)))
    with (List.length (map snd (rows (drop_other_payment rs0))))
    by apply length_map.
  rewrite Hrows, length_map. apply select_length_le.
Qed.

(** C1. Every row of the input is in exactly one of the three buckets:
    the labels of the buckets together are the labels of the input, so
    that, labels being distinct, each label is in one bucket and in no
    other. The normaliser moves no row to another bucket: the two
    advertisement buckets keep their rows, [rest] keeps a selection of
    its own, and every column that passes through holds in each bucket
    the cells it held after segmentation. *)
Theorem buckets_partition df b :
  split_data df = Ok b ->
  let wo := index (without_advertisement b) in
  let ad := index (advertisment b) in
  let rs := index (rest b) in
  Permutation (wo ++ ad ++ rs) (index df)
  /\ (NoDup (index df) ->
      forall x, In x (index df) ->
        (In x wo /\ ~ In x ad /\ ~ In x rs)
        \/ (~ In x wo /\ In x ad /\ ~ In x rs)
        \/ (~ In x wo /\ ~ In x ad /\ In x rs))
  /\ (forall b', prepare_columns b = Ok b' ->
        index (without_advertisement b') = wo
        /\ index (advertisment b') = ad
        /\ (len (rest b') <= len (rest b))%nat
        /\ forall c, passthrough c = true -> has_col df c = true ->
             map (cell_of c) (rows (without_advertisement b'))
             = map (cell_of c) (rows (without_advertisement b))
             /\ map (cell_of c) (rows (advertisment b'))
                = map (cell_of c) (rows (advertisment b))
             /\ exists mask,
                  List.length mask = len (rest b)
                  /\ len (rest b') = List.length (select mask (rows (rest b)))
                  /\ map (cell_of c) (rows (rest b'))
                     = map (cell_of c) (select mask (rows (rest b)))).
Proof.
  intros H wo ad rs.
  pose proof (split_data_partition df b H) as Hperm. fold wo ad rs in Hperm.
  split; [ exact Hperm | ]. split.
  - intros Hnd x Hx.
    assert (Hnd' : NoDup (wo ++ ad ++ rs)).
    { eapply Permutation_NoDup; [ symmetry; exact Hperm | exact Hnd ]. }
    assert (Hin : In x (wo ++ ad ++ rs)).
    { eapply Permutation_in; [ symmetry; exact Hperm | exact Hx ]. }
    pose proof (NoDup_app_disjoint wo (ad ++ rs) x Hnd') as D1.
    pose proof (NoDup_app_disjoint ad rs x (NoDup_app_remove_l _ _ Hnd')) as D2.
    rewrite !in_app_iff in Hin. rewrite in_app_iff in D1.
    destruct Hin as [Hw | [Ha | Hr]].
    + left. tauto.
    + right; left. tauto.
    + right; right. tauto.
  - intros b' Hb'.
    destruct (prepare_columns_index b b' Hb') as (Iw & Ia & Lr).
    split; [ exact Iw | ]. split; [ exact Ia | ]. split; [ exact Lr | ].
    intros c Hp Hc.
    destruct (split_data_columns df b H) as (Cw & Ca & Cr).
    destruct (prepare_columns_keeps c b b' Hp) as (Kw & Ka & Kr); auto;
      try (unfold has_col in *; congruence).
    destruct Kw as (_ & Kw & _). destruct Ka as (_ & Ka & _). auto.
Qed.

End Partition.

Lemma buckets_partition_witness :
  split_data (P := plain) scenario = Ok scenario_buckets
  /\ Permutation (index (without_advertisement scenario_buckets)
                  ++ index (advertisment scenario_buckets)
                  ++ index (rest scenario_buckets))
                 (index scenario).
Proof.
  split; [ vm_compute; reflexivity | ].
  apply (buckets_partition (P := plain) scenario scenario_buckets).
  vm_compute; reflexivity.
Defined.

(** ** The order date *)

Lemma string_leb_trans a b c :
  String.leb a b = true -> String.leb b c = true -> String.leb a c = true.
Proof.
  unfold String.leb. revert b c.
  induction a as [| x a IH]; intros [| y b] [| z c]; simpl; try easy.
  unfold Ascii.compare.
  destruct (N.compare_spec (N_of_ascii x) (N_of_ascii y));
    destruct (N.compare_spec (N_of_ascii y) (N_of_ascii z));
    destruct (N.compare_spec (N_of_ascii x) (N_of_ascii z));
    try easy; try lia.
  apply IH.
Qed.

Lemma string_ltb_leb a b : String.ltb a b = true -> String.leb a b = true.
Proof. unfold String.ltb, String.leb. now destruct (String.compare a b). Qed.

Lemma string_not_ltb_leb a b : String.ltb a b = false -> String.leb b a = true.
Proof.
  unfold String.ltb, String.leb. rewrite (String.compare_antisym b a).
  now destruct (String.compare a b).
Qed.

Lemma string_leb_refl a : String.leb a a = true.
Proof. destruct (String.leb_total a a); auto. Qed.

(** Python's [max] over strings returns one of them, no smaller than any
    other. *)
Lemma max_from_strings cur ss :
  exists m,
    max_from (Str cur) (map Str ss) = Ok (Str m)
    /\ In m (cur :: ss)
    /\ forall s, In s (cur :: ss) -> String.leb s m = true.
Proof.
  revert cur. induction ss as [| s ss IH]; intros cur; simpl.
  - exists cur. split; [ reflexivity | ]. split; [ auto | ].
    intros s [<- | []]. apply string_leb_refl.
  - destruct (String.ltb cur s) eqn:L.
    + destruct (IH s) as (m & Hm & Hin & Hle). exists m.
      split; [ exact Hm | ]. split; [ simpl in *; tauto | ].
      intros t [<- | Ht]; [ | now apply Hle ].
      eapply string_leb_trans; [ apply string_ltb_leb; exact L | ].
      apply Hle. now left.
    + destruct (IH cur) as (m & Hm & Hin & Hle). exists m.
      split; [ exact Hm | ]. split; [ simpl in *; tauto | ].
      intros t [<- | [<- | Ht]].
      * apply Hle. now left.
      * eapply string_leb_trans; [ apply string_not_ltb_leb; exact L | ].
        apply Hle. now left.
      * apply Hle. now right.
Qed.

(** A formatted column with no missing value is a column of strings. *)
Lemma present_dates_strings dates :
  Forall (fun c => date_cell c = true) dates ->
  forallb notna dates = true ->
  exists ss, dates = map Str ss.
Proof.
  induction 1 as [| c dates Hc _ IH]; simpl; intros Hn.
  - now exists [].
  - apply andb_true_iff in Hn as [Hn1 Hn2]. destruct (IH Hn2) as [ss ->].
    destruct c as [| x | s | d]; try discriminate. now exists (s :: ss).
Qed.

Lemma present_not_all_missing dates :
  dates <> [] -> forallb notna dates = true -> forallb isna dates = false.
Proof.
  destruct dates as [| c dates]; [ congruence | ]. simpl. unfold notna.
  intros _ H. apply andb_true_iff in H as [H _].
  apply negb_true_iff in H. now rewrite H.
Qed.

Lemma not_in_by_eqb c l : existsb (String.eqb c) l = false -> ~ In c l.
Proof. intros H Hin. apply existsb_eqb_In in Hin. congruence. Qed.

Lemma has_col_reindex df cols c :
  has_col (reindex df cols) c = existsb (String.eqb c) cols.
Proof. reflexivity. Qed.

Lemma formatted_reindex df cols : formatted df -> formatted (reindex df cols).
Proof.
  unfold formatted. intros Hf Hc. rewrite has_col_reindex in Hc.
  apply existsb_eqb_In in Hc.
  unfold reindex. simpl. rewrite map_map. apply Forall_map.
  apply Forall_forall. intros r Hr. unfold cell_of at 1. simpl.
  rewrite (get_generated (fun k => if has_col df k then cell_of k r else NA))
    by exact Hc.
  destruct (has_col df col_transaction_date) eqn:E; [ | reflexivity ].
  specialize (Hf eq_refl). rewrite Forall_map, Forall_forall in Hf. auto.
Qed.

Section OrderDate.

Context {P : Pandas}.

Lemma date_cell_format_date c : date_cell (format_date c) = true.
Proof. unfold format_date. now destruct (to_datetime c). Qed.

Lemma formatted_format_dates df : formatted (format_dates df).
Proof.
  unfold formatted, format_dates.
  destruct (has_col df col_transaction_date) eqn:E; [ | congruence ].
  intros _.
  pose proof (get_col_set_col_same df col_transaction_date
                (map (fun r => format_date (cell_of col_transaction_date r))
                     (rows df))) as G.
  unfold len in G. rewrite length_map in G. specialize (G eq_refl).
  apply get_col_Ok in G as [_ G]. rewrite <- G.
  apply Forall_map. apply Forall_forall. intros r _.
  apply date_cell_format_date.
Qed.

(** [Series.max()] of a formatted date column with no date missing is
    its greatest date string. *)
Lemma series_max_dates dates :
  dates <> [] ->
  Forall (fun c => date_cell c = true) dates ->
  forallb notna dates = true ->
  exists m, series_max dates = Ok (Str m) /\ is_max_string dates m.
Proof.
  intros Hne Hd Hn. destruct (present_dates_strings dates Hd Hn) as [ss ->].
  destruct ss as [| s ss]; [ now elim Hne | ].
  rewrite series_max_strings.
  destruct (max_from_strings s ss) as (m & Hm & Hin & Hle).
  exists m. split; [ exact Hm | ]. split.
  - apply in_map. exact Hin.
  - intros t Ht. apply Hle.
    apply in_map_iff in Ht as (t' & He & Ht'). now inversion He; subst.
Qed.

(** The last loop of the normaliser on a formatted bucket: what it
    returns has the order date of the specification, and it does return
    when the dates of the bucket are all missing or all present. *)
Lemma number_and_date_spec df :
  formatted df ->
  (forall df',
      number_and_date df = Ok df' ->
      order_date_spec df'
      /\ (len df = 0%nat ->
          has_col df' col_order_date = has_col df col_order_date))
  /\ (dates_uniform df = true -> exists df', number_and_date df = Ok df').
Proof.
  intros Hf. unfold number_and_date, dates_uniform.
  set (df1 := if has_col df col_serial then drop_col df col_serial else df).
  assert (K1 : forall c, c <> col_serial -> keeps_col c df df1).
  { intros c Hc. unfold df1. destruct (has_col df col_serial);
      [ apply keeps_col_drop_col; congruence | apply keeps_col_refl ]. }
  set (df2 := insert0 df1 col_serial _).
  assert (K2 : forall c, c <> col_serial -> keeps_col c df df2).
  { intros c Hc. eapply keeps_col_trans; [ exact (K1 c Hc) | ].
    apply keeps_col_insert0; [ congruence | ].
    now rewrite length_map, length_seq. }
  destruct (K2 col_transaction_date ltac:(discriminate)) as (I2 & C2 & H2).
  destruct (K2 col_order_date ltac:(discriminate)) as (_ & _ & O2).
  pose proof (len_as_index _ _ I2) as L2.
  rewrite <- C2.
  set (dates := map (cell_of col_transaction_date) (rows df2)).
  destruct (has_col df2 col_transaction_date && (0 <? len df2)%nat) eqn:Cond.
  - apply andb_true_iff in Cond as [Hc Hl]. apply Nat.ltb_lt in Hl.
    unfold get_col. rewrite Hc. cbn [bind]. fold dates.
    assert (Hd : Forall (fun c => date_cell c = true) dates).
    { unfold dates. rewrite C2. apply Hf. congruence. }
    assert (Hne : dates <> []).
    { unfold dates, len in *. destruct (rows df2); simpl in *;
        [ lia | discriminate ]. }
    split.
    + intros df' H. inv_bind H. inversion H; subst df'; clear H.
      rename a into v.
      destruct (keeps_col_set_col col_transaction_date col_order_date df2
                  (repeat v (len df2)) ltac:(discriminate)
                  (repeat_length _ _)) as (I3 & C3 & H3).
      split; [ | intros L0; lia ].
      intros _ _. split; [ apply has_col_set_col | ].
      exists dates, v. split; [ | split; [ | split ] ].
      * unfold get_col. rewrite H3, Hc. now rewrite C3.
      * pose proof (get_col_set_col_same df2 col_order_date
                      (repeat v (len df2)) (repeat_length _ _)) as G.
        apply get_col_Ok in G as [_ G].
        apply Forall_forall. intros r Hr.
        apply (in_map (cell_of col_order_date)) in Hr. rewrite <- G in Hr.
        now apply repeat_spec in Hr.
      * intros A. rewrite A in E. now inversion E.
      * intros A. rewrite (present_not_all_missing dates Hne A) in E.
        destruct (series_max_dates dates Hne Hd A) as (m & Hm & Hmax).
        exists m. split; [ congruence | exact Hmax ].
    + intros U. destruct (forallb isna dates) eqn:A.
      * cbn [bind]. eexists. reflexivity.
      * simpl in U.
        destruct (series_max_dates dates Hne Hd U) as (m & -> & _).
        cbn [bind]. eexists. reflexivity.
  - split.
    + intros df' H. inversion H; subst df'; clear H. split.
      * intros Hl Hc. rewrite Hc in Cond. simpl in Cond.
        apply Nat.ltb_ge in Cond. lia.
      * intros _. exact O2.
    + intros _. eexists. reflexivity.
Qed.

(** C8, as the code has it. In what the normaliser returns, a bucket that
    has rows and the date column carries the order date in every row: the
    greatest date string of that bucket alone when none of its dates is
    missing, the empty string when all of them are. A bucket without rows
    is given no order-date column. The normaliser does return when in
    each bucket the dates are all present or all missing. *)
Theorem order_date_per_bucket (b : Buckets) :
  (forall b',
      prepare_columns b = Ok b' ->
      (order_date_spec (without_advertisement b')
       /\ order_date_spec (advertisment b')
       /\ order_date_spec (rest b'))
      /\ (has_col (without_advertisement b) col_order_date = false ->
          (len (without_advertisement b') = 0%nat ->
           has_col (without_advertisement b') col_order_date = false)
          /\ (len (advertisment b') = 0%nat ->
              has_col (advertisment b') col_order_date = false)
          /\ (len (rest b') = 0%nat ->
              has_col (rest b') col_order_date = false)))
  /\ (dates_uniform (without_advertisement (align_columns b)) = true ->
      dates_uniform (advertisment (align_columns b)) = true ->
      dates_uniform (rest (align_columns b)) = true ->
      exists b', prepare_columns b = Ok b').
Proof.
  unfold prepare_columns.
  assert (Fw : formatted (without_advertisement (align_columns b)))
    by apply formatted_format_dates.
  assert (Fa : formatted (advertisment (align_columns b)))
    by (apply formatted_reindex, formatted_format_dates).
  assert (Fr : formatted (rest (align_columns b)))
    by (apply formatted_reindex, formatted_format_dates).
  assert (Ho : has_col (without_advertisement b) col_order_date = false ->
               has_col (without_advertisement (align_columns b)) col_order_date
               = false
               /\ has_col (advertisment (align_columns b)) col_order_date = false
               /\ has_col (rest (align_columns b)) col_order_date = false).
  { intros Hno. unfold align_columns.
    cbn [without_advertisement advertisment rest].
    rewrite !has_col_reindex.
    change (existsb (String.eqb col_order_date)
              (columns (format_dates
                          (rename (drop_unwanted (without_advertisement b))
                                  column_mapping))))
      with (has_col (format_dates
                       (rename (drop_unwanted (without_advertisement b))
                               column_mapping)) col_order_date).
    destruct (keeps_col_format_dates col_order_date
                (rename (drop_unwanted (without_advertisement b)) column_mapping)
                ltac:(discriminate)) as (_ & _ & ->).
    destruct (keeps_col_rename col_order_date
                (drop_unwanted (without_advertisement b))
                ltac:(apply not_in_by_eqb; reflexivity)
                ltac:(apply not_in_by_eqb; reflexivity)) as (_ & _ & ->).
    destruct (keeps_col_drop_unwanted col_order_date (without_advertisement b)
                ltac:(apply not_in_by_eqb; reflexivity)) as (_ & _ & ->).
    auto. }
  set (m := align_columns b) in *.
  destruct (number_and_date_spec _ Fw) as [Sw Tw].
  destruct (number_and_date_spec _ Fa) as [Sa Ta].
  destruct (number_and_date_spec _ Fr) as [Sr Tr].
  split.
  - intros b' H. inv_bind H. inv_bind H. inv_bind H.
    inversion H; subst b'; clear H. cbn [without_advertisement advertisment rest].
    destruct (Sw _ E) as [Ow Zw]. destruct (Sa _ E0) as [Oa Za].
    destruct (Sr _ E1) as [Or Zr].
    split; [ auto | ]. intros Hno. destruct (Ho Hno) as (Hw & Ha & Hr).
    assert (L : forall df df', number_and_date df = Ok df' -> len df' = len df).
    { intros df df' Ed.
      destruct (keeps_col_number_and_date "" df df' ltac:(discriminate)
                  ltac:(discriminate) Ed) as (I & _).
      now apply len_as_index. }
    split; [ | split ]; intros Hl.
    + rewrite Zw by (now rewrite <- (L _ _ E)). exact Hw.
    + rewrite Za by (now rewrite <- (L _ _ E0)). exact Ha.
    + rewrite Zr by (now rewrite <- (L _ _ E1)). exact Hr.
  - intros Uw Ua Ur.
    destruct (Tw Uw) as [wo' ->]. destruct (Ta Ua) as [ad' ->].
    destruct (Tr Ur) as [rs' ->]. cbn [bind]. eexists. reflexivity.
Qed.

End OrderDate.

(** C8 as stated fails on a table without candidate rows: the bucket
    without advertisement comes out empty and with no order-date column,
    while [rest] has one. *)
Lemma order_date_absent_from_empty_bucket :
  exists b b',
    split_data (P := plain) no_candidates = Ok b
    /\ prepare_columns (P := plain) b = Ok b'
    /\ len (without_advertisement b') = 0%nat
    /\ has_col (without_advertisement b') col_order_date = false
    /\ has_col (rest b') col_order_date = true.
Proof.
  do 2 eexists. split; [ vm_compute; reflexivity | ].
  split; [ vm_compute; reflexivity | ]. vm_compute. auto.
Qed.

Lemma order_date_per_bucket_witness :
  exists b',
    prepare_columns (P := plain) scenario_buckets = Ok b'
    /\ order_date_spec (without_advertisement b')
    /\ order_date_spec (advertisment b')
    /\ order_date_spec (rest b').
Proof.
  destruct (order_date_per_bucket (P := plain) scenario_buckets) as [H1 H2].
  destruct H2 as [b' Hb']; try (vm_compute; reflexivity).
  exists b'. split; [ exact Hb' | ]. apply (H1 b' Hb').
Defined.

(** The order dates of the scenario differ from bucket to bucket. *)
Example scenario_order_dates :
  (b <- split_data (P := plain) scenario ;;
   b' <- prepare_columns (P := plain) b ;;
   Ok (map (cell_of col_order_date) (rows (without_advertisement b')),
       map (cell_of col_order_date) (rows (advertisment b')),
       map (cell_of col_order_date) (rows (rest b'))))
  = Ok ([Str "2025-11-04"], [Str "2025-11-03"; Str "2025-11-03"],
        [Str "2025-11-27"]).
Proof. vm_compute. reflexivity. Qed.

(** The scenario of the specification, end to end: one row without
    advertisement, two rows of advertisement, one row of [rest] once the
    "Other Payment" is dropped, each bucket numbered from 1. *)
Example scenario_end_to_end :
  (b <- split_data (P := plain) scenario ;;
   b' <- prepare_columns (P := plain) b ;;
   Ok (map (cell_of col_serial) (rows (without_advertisement b')),
       map (cell_of col_serial) (rows (advertisment b')),
       map (cell_of col_serial) (rows (rest b')),
       map (cell_of col_product_name) (rows (rest b'))))
  = Ok ([Num 1], [Num 1; Num 2], [Num 1], [Str "Shirt"]).
Proof. vm_compute. reflexivity. Qed.

(** ** Equality of floats *)

(** Two floats that compare equal are both zeros or the same value. *)
Lemma SFeqb_true a b :
  SFeqb a b = true ->
  (exists s s', a = S754_zero s /\ b = S754_zero s') \/ a = b.
Proof.
  unfold SFeqb, SFcompare.
  destruct a as [s | s | | s m e], b as [s' | s' | | s' m' e'];
    try discriminate; try (destruct s; discriminate);
    try (destruct s'; discriminate).
  - intros _. left. eauto.
  - destruct s, s'; try discriminate; auto.
  - destruct s, s'; try discriminate;
      destruct (Z.compare_spec e e') as [-> | |]; try discriminate;
      change (PosDef.Pos.compare_cont Eq m m') with (Pos.compare m m');
      destruct (Pos.compare_spec m m') as [-> | |]; try discriminate; auto.
Qed.

Lemma float_eqb_compat x y z :
  (x =? y)%float = true -> (x =? z)%float = (y =? z)%float.
Proof.
  rewrite !FloatAxioms.eqb_spec. intros H.
  apply SFeqb_true in H as [(s & s' & -> & ->) | ->]; auto.
Qed.

(** Equal accounts are excluded together. *)
Lemma is_excluded_compat a k :
  cell_eqb a k = true -> is_excluded a = is_excluded k.
Proof.
  unfold is_excluded. destruct a as [| x | s | d], k as [| y | t | f];
    simpl; try discriminate; auto.
  intros H. now rewrite !(float_eqb_compat x y _ H).
Qed.

(** ** Order of floats *)

Lemma SFcompare_antisym a b :
  SFcompare b a = option_map CompOpp (SFcompare a b).
Proof.
  destruct a as [s | s | | s m e], b as [s' | s' | | s' m' e']; simpl; auto;
    try (destruct s; reflexivity); try (destruct s'; reflexivity);
    try (destruct s, s'; reflexivity).
  change (PosDef.Pos.compare_cont Eq m m') with (Pos.compare m m').
  change (PosDef.Pos.compare_cont Eq m' m) with (Pos.compare m' m).
  rewrite (Z.compare_antisym e e'), (Pos.compare_antisym m m').
  destruct s, s'; simpl; auto;
    destruct (e ?= e')%Z; simpl; auto;
    destruct (m ?= m')%positive; reflexivity.
Qed.

Lemma float_ltb_leb x y : (x <? y)%float = true -> (y <=? x)%float = false.
Proof.
  rewrite FloatAxioms.ltb_spec, FloatAxioms.leb_spec. unfold SFltb, SFleb.
  rewrite (SFcompare_antisym (Prim2SF x) (Prim2SF y)).
  destruct (SFcompare (Prim2SF x) (Prim2SF y)) as [[] |]; simpl; congruence.
Qed.

Lemma is_nan_Prim2SF x : is_nan x = true <-> Prim2SF x = S754_nan.
Proof.
  unfold is_nan. rewrite negb_true_iff, FloatAxioms.eqb_spec.
  unfold SFeqb, SFcompare.
  destruct (Prim2SF x) as [s | s | | s m e]; split; try discriminate; auto.
  - destruct s; discriminate.
  - rewrite Z.compare_refl.
    change (PosDef.Pos.compare_cont Eq m m) with (Pos.compare m m).
    rewrite Pos.compare_refl. destruct s; discriminate.
Qed.

(** Two floats that are numbers are comparable. *)
Lemma float_leb_or_ltb x y :
  is_nan x = false -> is_nan y = false ->
  (x <=? y)%float = true \/ (y <? x)%float = true.
Proof.
  intros Hx Hy. rewrite FloatAxioms.ltb_spec, FloatAxioms.leb_spec.
  unfold SFltb, SFleb.
  rewrite (SFcompare_antisym (Prim2SF x) (Prim2SF y)).
  assert (Nx : Prim2SF x <> S754_nan).
  { intros E. apply is_nan_Prim2SF in E. congruence. }
  assert (Ny : Prim2SF y <> S754_nan).
  { intros E. apply is_nan_Prim2SF in E. congruence. }
  destruct (Prim2SF x) as [s | s | | s m e],
           (Prim2SF y) as [s' | s' | | s' m' e'];
    try congruence; simpl; auto;
    try (destruct s; auto; fail); try (destruct s'; auto; fail);
    try (destruct s, s'; auto; fail).
  destruct s, s'; auto;
    destruct (e ?= e')%Z; auto;
    destruct (PosDef.Pos.compare_cont Eq m m'); auto.
Qed.

Lemma is_nan_abs x : is_nan (PrimFloat.abs x) = is_nan x.
Proof.
  apply eq_true_iff_eq. rewrite !is_nan_Prim2SF, abs_spec.
  unfold SFabs. destruct (Prim2SF x); split; congruence.
Qed.

(** ** The balance validator *)

Lemma cell_eqb_refl c : notna c = true -> cell_eqb c c = true.
Proof.
  unfold notna. destruct c as [| x | s | d]; simpl; try discriminate.
  - unfold is_nan. now rewrite negb_involutive.
  - intros _. apply String.eqb_refl.
  - intros _. now rewrite !Nat.eqb_refl.
Qed.

Lemma insert_sorted_In {A : Type} (leb : A -> A -> bool) a x l :
  In x (insert_sorted leb a l) <-> x = a \/ In x l.
Proof.
  induction l as [| b l IH]; simpl.
  - intuition.
  - destruct (leb a b); simpl; rewrite ?IH; intuition.
Qed.

Lemma sort_In {A : Type} (leb : A -> A -> bool) x l :
  In x (sort leb l) <-> In x l.
Proof.
  unfold sort. induction l as [| a l IH]; simpl; [ tauto | ].
  rewrite insert_sorted_In, IH. intuition.
Qed.

Lemma unique_from_In {A : Type} (eqb : A -> A -> bool) l acc x :
  In x (fold_left (fun acc a => if existsb (eqb a) acc then acc else acc ++ [a])
                  l acc) ->
  In x acc \/ In x l.
Proof.
  revert acc. induction l as [| a l IH]; intros acc; simpl; auto.
  intros H. apply IH in H as [H | H]; auto.
  destruct (existsb (eqb a) acc); auto.
  apply in_app_or in H as [H | [<- | []]]; auto.
Qed.

Lemma unique_from_covers {A : Type} (eqb : A -> A -> bool) l acc a :
  (In a l /\ eqb a a = true) \/ existsb (eqb a) acc = true ->
  existsb (eqb a)
    (fold_left (fun acc a => if existsb (eqb a) acc then acc else acc ++ [a])
               l acc) = true.
Proof.
  revert acc. induction l as [| b l IH]; intros acc; simpl.
  - intros [[[] _] | H]; exact H.
  - intros [[[-> | Hin] Hr] | H]; apply IH.
    + right. destruct (existsb (eqb a) acc) eqn:E; auto.
      rewrite existsb_app. simpl. now rewrite Hr, orb_true_r.
    + left. auto.
    + right. destruct (existsb (eqb b) acc); auto.
      rewrite existsb_app. now rewrite H.
Qed.

(** Every transaction id of the column that is not missing has its group,
    and every group key is an id of the column. *)
Lemma group_keys_spec ids :
  (forall k, In k (group_keys ids) -> In k ids /\ notna k = true)
  /\ (forall id, In id ids -> notna id = true ->
        exists k, In k (group_keys ids) /\ cell_eqb id k = true).
Proof.
  unfold group_keys, unique. split.
  - intros k Hk. apply sort_In in Hk.
    apply unique_from_In in Hk as [[] | Hk]. now apply filter_In in Hk.
  - intros id Hin Hn.
    assert (He : existsb (cell_eqb id)
                   (fold_left (fun acc a => if existsb (cell_eqb a) acc
                                            then acc else acc ++ [a])
                              (filter notna ids) []) = true).
    { apply unique_from_covers. left. split.
      - apply filter_In. auto.
      - now apply cell_eqb_refl. }
    apply existsb_exists in He as [k [Hk He]].
    exists k. split; auto. now apply sort_In.
Qed.

Section Validator.

Context {P : Pandas}.

(** C7, as the code has it. A bucket that lacks the transaction id but
    has numeric debit and credit columns is validated by the sums of
    these two columns alone: the totals, their difference and the
    balanced flag, and no count of unbalanced transactions. *)
Theorem fallback_without_transaction df debit_cells credit_cells debit credit :
  has_col df col_transaction = false ->
  get_col df col_debit = Ok debit_cells ->
  get_col df col_credit = Ok credit_cells ->
  mapM as_float debit_cells = Ok debit ->
  mapM as_float credit_cells = Ok credit ->
  validate_sheet df
  = Ok {| v_total_debit := series_sum debit;
          v_total_credit := series_sum credit;
          v_difference := (series_sum debit - series_sum credit)%float;
          v_balanced :=
            (PrimFloat.abs (series_sum debit - series_sum credit) <=? 0.01)%float;
          v_unbalanced_transactions := None |}.
Proof.
  intros Ht Hd Hc Hfd Hfc. unfold validate_sheet.
  rewrite Ht, Hd, Hc. simpl. rewrite Hfd, Hfc. reflexivity.
Qed.

(** Without the debit or the credit column the fallback itself fails. *)
Lemma fallback_needs_both_columns df :
  has_col df col_debit && has_col df col_credit = false ->
  exists e, validate_sheet df = Raise e.
Proof.
  intros H. unfold validate_sheet.
  replace (has_col df col_transaction && has_col df col_debit
           && has_col df col_credit) with false
    by (rewrite <- andb_assoc, H; now rewrite andb_false_r).
  unfold get_col.
  destruct (has_col df col_debit); [ | eexists; reflexivity ].
  simpl in H. rewrite H. cbn [bind].
  destruct (mapM as_float _); eexists; reflexivity.
Qed.

End Validator.

Lemma fallback_without_transaction_witness :
  validate_sheet (P := plain) without_transaction
  = Ok {| v_total_debit := 200;
          v_total_credit := (99.995 + 99.98)%float;
          v_difference := (200 - (99.995 + 99.98))%float;
          v_balanced := false;
          v_unbalanced_transactions := None |}.
Proof.
  exact (fallback_without_transaction (P := plain) without_transaction
           [Num 100; Num 100] [Num 99.995; Num 99.98]
           [100; 100]%float [99.995; 99.98]%float
           eq_refl eq_refl eq_refl eq_refl eq_refl).
Defined.

(** C7 as stated fails on a bucket that has rows and the transaction id
    but no credit column: no fallback result, a [KeyError]. Such a bucket
    is what the pipeline makes of an input without the product price. *)
Lemma no_fallback_without_credit :
  (0 <? len without_credit)%nat = true
  /\ has_col without_credit col_transaction && has_col without_credit col_debit
     && has_col without_credit col_credit = false
  /\ validate_sheet (P := plain) without_credit = Raise KeyError
  /\ get_balance_validation (P := plain)
       (mkBuckets without_credit (mkDF [] []) (mkDF [] []))
     = Raise KeyError
  /\ (b <- split_data (P := plain) no_price_input ;;
      b' <- prepare_columns (P := plain) b ;;
      _ <- create_excel_summary (P := plain) (rest b') ;;
      get_balance_validation (P := plain) b')
     = Raise KeyError.
Proof. vm_compute. auto 6. Qed.

(** ** The summary builder *)

Lemma mapM_Forall2 {A B : Type} (f : A -> result B) (l : list A) (m : list B) :
  mapM f l = Ok m -> Forall2 (fun a b => f a = Ok b) l m.
Proof.
  revert m; induction l as [| a l IH]; simpl; intros m H.
  - inversion H. constructor.
  - inv_bind H. inv_bind H. inversion H; subst. constructor; auto.
Qed.



Lemma accumulate_not_excluded summary key amount :
  Forall (fun e : cell * cell * float => is_excluded (fst (fst e)) = false)
         summary ->
  is_excluded (fst key) = false ->
  Forall (fun e : cell * cell * float => is_excluded (fst (fst e)) = false)
         (accumulate summary key amount).
Proof.
  intros Hs Hk. induction Hs as [| [k v] summary Hkv Hs IH]; simpl.
  - constructor; auto.
  - destruct (pair_eqb key k); constructor; auto.
Qed.


Lemma Forall2_map_left {A B C : Type} (R : B -> C -> Prop) (f : A -> B) l m :
  Forall2 R (map f l) m -> Forall2 (fun a c => R (f a) c) l m.
Proof.
  revert m; induction l as [| a l IH]; intros m H; inversion H; subst;
    constructor; auto.
Qed.

Section Summary.

Context {P : Pandas}.

Lemma total_credit_Ok df tc : total_credit df = Ok tc -> sums_all_credit df tc.
Proof.
  unfold total_credit, sums_all_credit.
  destruct (Nat.ltb_spec 0 (len df)) as [Hl | Hl]; intros H.
  - right. split; [ exact Hl | ].
    inv_bind H. inv_bind H. inversion H; subst tc; clear H.
    apply get_col_Ok in E as [_ ->]. apply mapM_Forall2 in E0.
    exists a0. split; [ | reflexivity ].
    now apply Forall2_map_left in E0.
  - left. inversion H. split; [ lia | reflexivity ].
Qed.

Lemma revenue_summary_not_excluded df summary :
  revenue_summary df = Ok summary ->
  Forall (fun e : cell * cell * float => is_excluded (fst (fst e)) = false)
         summary.
Proof.
  unfold revenue_summary. destruct (0 <? len df)%nat; intros H.
  - inv_bind H. inversion H; subst summary; clear H E.
    assert (G : forall acc,
              Forall (fun e : cell * cell * float =>
                        is_excluded (fst (fst e)) = false) acc ->
              Forall (fun e : cell * cell * float =>
                        is_excluded (fst (fst e)) = false)
                (fold_left
                   (fun summary (r : cell * cell * float) =>
                      let '(account, product, amount) := r in
                      if is_excluded account then summary
                      else accumulate summary (account, product) amount)
                   a acc)).
    { induction a as [| [[account product] amount] data IH]; intros acc Hacc;
        simpl; auto.
      apply IH. destruct (is_excluded account) eqn:X; auto.
      apply accumulate_not_excluded; auto. }
    apply G. constructor.
  - inversion H. constructor.
Qed.

(** What [create_excel_summary] returns: the header, one row for every
    entry of [revenue_summary] with a positive amount, and the grand
    total. *)
Lemma create_excel_summary_Ok df s :
  create_excel_summary df = Ok s ->
  exists cd summary entries tc,
    command_date df = Ok cd
    /\ revenue_summary df = Ok summary
    /\ mapM (revenue_row cd)
            (filter (fun e : cell * cell * float => (0 <? snd e)%float) summary)
       = Ok entries
    /\ total_credit df = Ok tc
    /\ map snd (rows s) = header_row :: entries ++ [total_row cd tc].
Proof.
  unfold create_excel_summary. intros H.
  inv_bind H. inv_bind H. inv_bind H. inv_bind H.
  inversion H; subst s; clear H.
  exists a, a0, a1, a2. repeat (split; [ assumption | ]).
  cbn [rows map snd]. f_equal. apply map_snd_combine. now rewrite length_seq.
Qed.


End Summary.


(** ** The CSV filter *)

Lemma select_filter {A : Type} (p : A -> bool) (l : list A) :
  select (map p l) l = filter p l.
Proof.
  induction l as [| a l IH]; simpl; [ reflexivity | ].
  destruct (p a); simpl; congruence.
Qed.

Lemma filter_filter {A : Type} (p q : A -> bool) (l : list A) :
  filter q (filter p l) = filter (fun a => p a && q a) l.
Proof.
  induction l as [| a l IH]; simpl; [ reflexivity | ].
  destruct (p a); simpl; [ destruct (q a) | ]; simpl; congruence.
Qed.

Lemma loc_pred (df : DataFrame) (p : row -> bool) :
  loc df (map p (rows df)) = mkDF (columns df) (filter p (rows df)).
Proof. unfold loc. now rewrite select_filter. Qed.

Lemma filter_true {A : Type} (l : list A) : filter (fun _ => true) l = l.
Proof. induction l; simpl; congruence. Qed.

Section CsvFilterProperties.

Context {P : Pandas}.

Lemma keep_equal_filter cols rs p col v :
  keep_equal (mkDF cols (filter p rs)) col v
  = mkDF cols (filter (fun r => p r && cell_eqb (cell_of col r) (Str v)) rs).
Proof.
  unfold keep_equal. rewrite loc_pred. simpl. now rewrite filter_filter.
Qed.

Lemma keep_nonzero_fold cols rs p cs :
  fold_left keep_nonzero cs (mkDF cols (filter p rs))
  = mkDF cols
      (filter (fun r => p r
                        && forallb (fun col =>
                                      negb (to_numeric (cell_of col r) =? 0)%float)
                                   cs)
              rs).
Proof.
  revert p. induction cs as [| c cs IH]; intros p; simpl.
  - f_equal. apply filter_ext. intros r. now rewrite andb_true_r.
  - unfold keep_nonzero at 2. rewrite loc_pred. simpl. rewrite filter_filter.
    rewrite IH. f_equal. apply filter_ext. intros r. now rewrite andb_assoc.
Qed.

Lemma keep_equal_step cols rs p (b : bool) col v :
  (if has_col (mkDF cols (filter p rs)) col && b
   then keep_equal (mkDF cols (filter p rs)) col v
   else mkDF cols (filter p rs))
  = mkDF cols
      (filter (fun r => p r && (negb (has_col (mkDF cols rs) col && b)
                                || cell_eqb (cell_of col r) (Str v)))
              rs).
Proof.
  change (has_col (mkDF cols (filter p rs)) col) with (has_col (mkDF cols rs) col).
  destruct (has_col (mkDF cols rs) col && b); simpl.
  - apply keep_equal_filter.
  - f_equal. apply filter_ext. intros r. now rewrite andb_true_r.
Qed.

Lemma keep_nonzero_step cols rs p (b : bool) :
  (if b
   then fold_left keep_nonzero (price_cols (mkDF cols (filter p rs)))
                  (mkDF cols (filter p rs))
   else mkDF cols (filter p rs))
  = mkDF cols
      (filter (fun r => p r
                        && (negb b
                            || forallb (fun col =>
                                          negb (to_numeric (cell_of col r) =? 0)%float)
                                       (price_cols (mkDF cols rs))))
              rs).
Proof.
  change (price_cols (mkDF cols (filter p rs))) with (price_cols (mkDF cols rs)).
  destruct b; simpl.
  - apply keep_nonzero_fold.
  - f_equal. apply filter_ext. intros r. now rewrite andb_true_r.
Qed.

(** The four steps of the filter are one selection. *)
Lemma filter_steps (filters : Filters) cols rs :
  let df := mkDF cols rs in
  let filtered_df := df in
  let filtered_df :=
    if has_col filtered_df "Status" && status_active filters
    then keep_equal filtered_df "Status" "Active" else filtered_df in
  let filtered_df :=
    if has_col filtered_df "Type" && type_sale filters
    then keep_equal filtered_df "Type" "Sale" else filtered_df in
  let filtered_df :=
    if price_not_zero filters
    then fold_left keep_nonzero (price_cols filtered_df) filtered_df
    else filtered_df in
  let filtered_df :=
    if has_col filtered_df "Payment type" && payment_type_external filters
    then keep_equal filtered_df "Payment type" "PayType_External payment cards"
    else filtered_df in
  filtered_df = mkDF cols (filter (passes filters df) rs).
Proof.
  intros df f0 f1 f2 f3 f4.
  assert (E0 : f0 = mkDF cols (filter (fun _ => true) rs))
    by (subst f0 df; now rewrite filter_true).
  assert (E1 : f1 = mkDF cols (filter (fun r =>
            true && (negb (has_col df "Status" && status_active filters)
                     || cell_eqb (cell_of "Status" r) (Str "Active"))) rs))
    by (subst f1; rewrite E0; apply keep_equal_step).
  clearbody f1. subst f1.
  match type of f2 with _ => idtac end.
  assert (E2 : f2 = mkDF cols (filter (fun r =>
            (true && (negb (has_col df "Status" && status_active filters)
                     || cell_eqb (cell_of "Status" r) (Str "Active")))
            && (negb (has_col df "Type" && type_sale filters)
                || cell_eqb (cell_of "Type" r) (Str "Sale"))) rs))
    by (subst f2; apply keep_equal_step).
  clearbody f2. subst f2.
  assert (E3 : f3 = mkDF cols (filter (fun r =>
            ((true && (negb (has_col df "Status" && status_active filters)
                     || cell_eqb (cell_of "Status" r) (Str "Active")))
            && (negb (has_col df "Type" && type_sale filters)
                || cell_eqb (cell_of "Type" r) (Str "Sale")))
            && (negb (price_not_zero filters)
                || forallb (fun col =>
                              negb (to_numeric (cell_of col r) =? 0)%float)
                           (price_cols df))) rs))
    by (subst f3; apply keep_nonzero_step).
  clearbody f3. subst f3.
  subst f4. rewrite keep_equal_step. f_equal.
Qed.

Lemma filter_csv_passes csv_data filters :
  let df := from_records csv_data in
  filter_csv csv_data filters
  = select_display (loc df (map (passes filters df) (rows df))).
Proof.
  intros df. rewrite loc_pred. unfold filter_csv. fold df.
  f_equal. destruct df as [cols rs]. apply (filter_steps filters cols rs).
Qed.

End CsvFilterProperties.

Lemma forallb_ext_in {A : Type} (f g : A -> bool) (l : list A) :
  (forall a, In a l -> f a = g a) -> forallb f l = forallb g l.
Proof.
  induction l as [| a l IH]; intros H; simpl; [ reflexivity | ].
  rewrite (H a) by now left. f_equal. apply IH. intros b Hb. apply H. now right.
Qed.

Lemma Forall2_filter {A B : Type} (R : A -> B -> Prop) (p : A -> bool)
  (q : B -> bool) l m :
  (forall a b, R a b -> q b = p a) ->
  Forall2 R l m -> Forall2 R (filter p l) (filter q m).
Proof.
  intros H F. induction F as [| a b l m Hab F IH]; simpl; [ constructor | ].
  rewrite (H a b Hab). destruct (p a); [ constructor | ]; assumption.
Qed.

Lemma Forall2_map_eq {A B C : Type} (R : A -> B -> Prop) (f : A -> C)
  (g : B -> C) l m :
  (forall a b, R a b -> g b = f a) ->
  Forall2 R l m -> map g m = map f l.
Proof.
  intros H F. induction F as [| a b l m Hab F IH]; simpl; [ reflexivity | ].
  now rewrite (H a b Hab), IH.
Qed.

Section CsvFilterViews.

Context {P : Pandas}.

Lemma add_columns_nil cols : add_columns [] cols = cols.
Proof.
  unfold add_columns. simpl. induction cols as [| c cols IH]; simpl; congruence.
Qed.

Lemma add_columns_same cols : add_columns cols cols = cols.
Proof.
  unfold add_columns. rewrite <- app_nil_r. f_equal.
  assert (H : forall l, (forall c, In c l -> In c cols) ->
                        filter (fun c => negb (existsb (String.eqb c) cols)) l = []).
  { induction l as [| c l IH]; intros Hl; simpl; [ reflexivity | ].
    assert (In c cols) as Hc by (apply Hl; now left).
    apply existsb_eqb_In in Hc. rewrite Hc. simpl. apply IH.
    intros c' Hc'. apply Hl. now right. }
  apply H. auto.
Qed.

Lemma union_columns_repeat cols n :
  union_columns (repeat cols (S n)) = cols.
Proof.
  unfold union_columns. simpl. rewrite add_columns_nil.
  induction n as [| n IH]; simpl; [ reflexivity | ].
  now rewrite add_columns_same.
Qed.

Lemma stored_frame df :
  (0 < len df)%nat ->
  columns (from_records (to_records df)) = columns df
  /\ Forall2 (same_cells (columns df))
             (rows df) (rows (from_records (to_records df))).
Proof.
  intros Hn. unfold from_records, to_records. simpl. split.
  - rewrite map_map. simpl.
    assert (E : map (fun r : row => map fst (map (fun c => (c, cell_of c r)) (columns df)))
                    (rows df)
                = repeat (columns df) (len df)).
    { unfold len. induction (rows df) as [| r rs IH]; simpl; [ reflexivity | ].
      f_equal; [ | exact IH ]. rewrite map_map. simpl. apply map_id. }
    rewrite E. destruct (len df) as [| n]; [ lia | ].
    apply union_columns_repeat.
  - rewrite length_map. generalize 0%nat.
    induction (rows df) as [| r rs IH]; intros k; simpl; constructor.
    + intros c Hc. unfold cell_of. simpl.
      apply (get_generated (fun c => get c (snd r))). exact Hc.
    + apply IH.
Qed.

Lemma passes_columns filters df df' r :
  columns df' = columns df -> passes filters df' r = passes filters df r.
Proof.
  intros E. unfold passes, has_col, price_cols. now rewrite E.
Qed.

Lemma passes_same_cells filters df r r' :
  same_cells (columns df) r r' -> passes filters df r' = passes filters df r.
Proof.
  intros H. unfold passes.
  assert (K : forall c, has_col df c = true -> cell_of c r' = cell_of c r).
  { intros c Hc. apply H. now apply existsb_eqb_In. }
  assert (S : forall (b : bool) c v,
             negb (has_col df c && b) || cell_eqb (cell_of c r') (Str v)
             = negb (has_col df c && b) || cell_eqb (cell_of c r) (Str v)).
  { intros b c v. destruct (has_col df c) eqn:Hc; [ | reflexivity ].
    now rewrite (K c Hc). }
  rewrite !S. do 2 f_equal. f_equal. apply forallb_ext_in.
  intros c Hc. unfold price_cols in Hc. apply filter_In in Hc.
  now rewrite (H c (proj1 Hc)).
Qed.

Lemma upload_steps cols rs :
  let df := mkDF cols rs in
  let filtered_df := df in
  let filtered_df :=
    if has_col filtered_df "Status"
    then keep_equal filtered_df "Status" "Active" else filtered_df in
  let filtered_df :=
    if has_col filtered_df "Type"
    then keep_equal filtered_df "Type" "Sale" else filtered_df in
  let filtered_df :=
    fold_left keep_nonzero (price_cols filtered_df) filtered_df in
  let filtered_df :=
    if has_col filtered_df "Payment type"
    then keep_equal filtered_df "Payment type" "PayType_External payment cards"
    else filtered_df in
  filtered_df = mkDF cols (filter (passes default_filters df) rs).
Proof.
  intros df f0 f1 f2 f3 f4.
  rewrite <- (filter_steps default_filters cols rs). cbv zeta.
  subst f4 f3 f2 f1 f0 df. simpl status_active. simpl type_sale.
  simpl price_not_zero. simpl payment_type_external. cbv iota.
  rewrite !andb_true_r. reflexivity.
Qed.

Lemma upload_csv_filter_eq df :
  upload_csv_filter df
  = let display_df :=
      select_display
        (mkDF (columns df) (filter (passes default_filters df) (rows df))) in
    if has_col display_df "Date"
    then set_col display_df "Date"
           (map (fun r => format_date (cell_of "Date" r)) (rows display_df))
    else display_df.
Proof.
  destruct df as [cols rs]. unfold upload_csv_filter.
  pose proof (upload_steps cols rs) as E. cbv zeta in E |- *.
  rewrite E. reflexivity.
Qed.

Lemma get_not_generated (f : string -> cell) c cols :
  ~ In c cols -> get c (map (fun k => (k, f k)) cols) = NA.
Proof.
  induction cols as [| k cols IH]; intros H; simpl; [ reflexivity | ].
  rewrite eqb_neq_false by (intros ->; apply H; now left).
  apply IH. intros K. apply H. now right.
Qed.

(** Selecting the display columns keeps the cells of two tables that
    agree on their columns in agreement. *)
Lemma select_display_same_cells cols rs rs' :
  Forall2 (same_cells cols) rs rs' ->
  columns (select_display (mkDF cols rs'))
  = columns (select_display (mkDF cols rs))
  /\ Forall2 (same_cells cols) (rows (select_display (mkDF cols rs)))
             (rows (select_display (mkDF cols rs'))).
Proof.
  intros F. unfold select_display, reindex, has_col. cbn [columns rows].
  destruct (filter (fun c => existsb (String.eqb c) cols) csv_display_columns)
    as [| a avail] eqn:E; [ now split | ].
  split; [ reflexivity | ]. cbn [rows]. revert E. generalize (a :: avail).
  intros av E.
  induction F as [| r r' l l' Hr F IH]; simpl; constructor; [ | exact IH ].
  intros c Hc. unfold cell_of. cbn [snd].
  destruct (in_dec string_dec c av) as [Hi | Hi].
  - rewrite !(get_generated
                (fun c => if existsb (String.eqb c) cols then _ else NA) c av Hi).
    apply existsb_eqb_In in Hc. rewrite Hc. apply Hr.
    now apply existsb_eqb_In.
  - now rewrite !get_not_generated.
Qed.

Lemma len_select_display df : len (select_display df) = len df.
Proof.
  unfold select_display.
  destruct (filter (has_col df) csv_display_columns); [ reflexivity | ].
  unfold len, reindex. cbn [rows]. apply length_map.
Qed.

(** X18. The three copies of the filter agree: the file that
    [download_filtered_csv] writes is the table [filter_csv] answers with
    for the same switches, and for a file with rows the table the upload
    shows is the one [filter_csv] answers with when every switch is on,
    but for the format of the dates. *)
Theorem csv_filter_views_agree df args :
  (0 < len df)%nat ->
  let csv_data := to_records df in
  download_filtered_csv csv_data args = filter_csv csv_data (filters_of args)
  /\ columns (filter_csv csv_data default_filters)
     = columns (upload_csv_filter df)
  /\ len (filter_csv csv_data default_filters) = len (upload_csv_filter df)
  /\ forall c, In c (columns df) -> c <> "Date" ->
       map (cell_of c) (rows (filter_csv csv_data default_filters))
       = map (cell_of c) (rows (upload_csv_filter df)).
Proof.
  intros Hn csv_data. split; [ reflexivity | ].
  destruct (stored_frame df Hn) as [Ec F]. fold csv_data in Ec, F.
  pose proof (filter_csv_passes csv_data default_filters) as E.
  cbv zeta in E. rewrite loc_pred in E. rewrite Ec in E.
  assert (F' : Forall2 (same_cells (columns df))
                 (filter (passes default_filters df) (rows df))
                 (filter (passes default_filters (from_records csv_data))
                         (rows (from_records csv_data)))).
  { apply Forall2_filter; [ | exact F ].
    intros r r' Hr. rewrite (passes_columns _ df (from_records csv_data)) by exact Ec.
    now apply passes_same_cells. }
  destruct (select_display_same_cells _ _ _ F') as [Dc Dr].
  rewrite <- E in Dc, Dr.
  rewrite upload_csv_filter_eq. cbv zeta.
  set (display_df := select_display
         (mkDF (columns df) (filter (passes default_filters df) (rows df))))
    in *.
  assert (K : forall c, c <> "Date" ->
            keeps_col c display_df
              (if has_col display_df "Date"
               then set_col display_df "Date"
                      (map (fun r => format_date (cell_of "Date" r))
                           (rows display_df))
               else display_df)).
  { intros c Hc. destruct (has_col display_df "Date") eqn:Hd.
    - apply keeps_col_set_col; [ congruence | apply length_map ].
    - apply keeps_col_refl. }
  split; [ | split ].
  - rewrite Dc. destruct (has_col display_df "Date") eqn:Hd; [ | reflexivity ].
    unfold set_col. cbn [columns]. now rewrite Hd.
  - destruct (K "" ltac:(discriminate)) as [Ki _].
    rewrite (len_as_index _ _ Ki).
    unfold len. apply (Forall2_length) in Dr. now symmetry.
  - intros c Hc Hd. destruct (K c Hd) as [_ [Kc _]]. rewrite Kc.
    apply (Forall2_map_eq (same_cells (columns df))); [ | exact Dr ].
    intros r r' Hr. now apply Hr.
Qed.

End CsvFilterViews.

Section CsvFilterRows.

Context {P : Pandas}.


Lemma index_select_display df : index (select_display df) = index df.
Proof.
  unfold select_display.
  destruct (filter (has_col df) csv_display_columns); [ reflexivity | ].
  apply index_reindex.
Qed.


Lemma passes_mono filters filters' df r :
  switches_leb filters filters' = true ->
  passes filters' df r = true -> passes filters df r = true.
Proof.
  unfold switches_leb, passes.
  destruct filters as [a b c d], filters' as [a' b' c' d']. simpl.
  intros L H.
  apply andb_prop in L. destruct L as [L Ld].
  apply andb_prop in L. destruct L as [L Lc].
  apply andb_prop in L. destruct L as [La Lb].
  apply andb_prop in H. destruct H as [H Hd].
  apply andb_prop in H. destruct H as [H Hc].
  apply andb_prop in H. destruct H as [Ha Hb].
  repeat (apply andb_true_intro; split).
  - destruct a; [ | now rewrite andb_false_r ].
    destruct a'; [ exact Ha | discriminate ].
  - destruct b; [ | now rewrite andb_false_r ].
    destruct b'; [ exact Hb | discriminate ].
  - destruct c; [ | reflexivity ].
    destruct c'; [ exact Hc | discriminate ].
  - destruct d; [ | now rewrite andb_false_r ].
    destruct d'; [ exact Hd | discriminate ].
Qed.

(** X19. Switching a filter on never brings a row back: the rows [filter_csv]
    answers with under more switches are among those it answers with
    under fewer, in the same order. *)
Theorem filter_csv_more_switches_fewer_rows csv_data filters filters' :
  switches_leb filters filters' = true ->
  exists mask,
    index (filter_csv csv_data filters')
    = select mask (index (filter_csv csv_data filters))
    /\ (len (filter_csv csv_data filters')
        <= len (filter_csv csv_data filters))%nat.
Proof.
  intros L.
  pose proof (filter_csv_passes csv_data filters) as E.
  pose proof (filter_csv_passes csv_data filters') as E'.
  cbv zeta in E, E'. rewrite loc_pred in E, E'.
  set (df := from_records csv_data) in *.
  assert (K : filter (passes filters' df) (rows df)
              = filter (passes filters' df) (filter (passes filters df) (rows df))).
  { rewrite filter_filter. apply filter_ext_in. intros r _.
    destruct (passes filters' df r) eqn:H; [ | now rewrite andb_false_r ].
    now rewrite (passes_mono _ _ _ _ L H). }
  assert (I : index (filter_csv csv_data filters')
              = select (map (passes filters' df)
                            (filter (passes filters df) (rows df)))
                       (index (filter_csv csv_data filters))).
  { rewrite E, E', !index_select_display. unfold index. cbn [rows].
    rewrite K at 1. rewrite <- select_filter. apply select_map. }
  eexists. split; [ exact I | ].
  rewrite <- !len_index, I. apply select_length_le.
Qed.

(** X20. A file with a header and no row: the display columns of the upload
    are those of the header, but the stored records carry no column
    name, so [filter_csv] answers with no column at all. *)
Theorem filter_csv_forgets_columns_of_empty_file df filters :
  len df = 0%nat ->
  filter_csv (to_records df) filters = mkDF [] []
  /\ columns (upload_csv_filter df) = columns (select_display df).
Proof.
  intros H. unfold len in H. apply length_zero_iff_nil in H.
  split.
  - replace (to_records df) with (@nil record)
      by (unfold to_records; now rewrite H).
    pose proof (filter_csv_passes [] filters) as E. cbv zeta in E.
    rewrite E. reflexivity.
  - rewrite upload_csv_filter_eq. cbv zeta. rewrite H. simpl.
    replace (mkDF (columns df) []) with df by (destruct df; simpl in *; congruence).
    destruct (has_col (select_display df) "Date") eqn:Hd; [ | reflexivity ].
    unfold set_col. cbn [columns]. now rewrite Hd.
Qed.

End CsvFilterRows.

Lemma csv_filter_views_agree_witness :
  (0 < len sales)%nat
  /\ download_filtered_csv (P := plain) (to_records sales)
       [("status_active", "false")]
     = filter_csv (P := plain) (to_records sales)
         (mkFilters false true true true)
  /\ map (cell_of "Id")
         (rows (filter_csv (P := plain) (to_records sales) default_filters))
     = map (cell_of "Id") (rows (upload_csv_filter (P := plain) sales)).
Proof.
  split; [ vm_compute; lia | ].
  destruct (csv_filter_views_agree (P := plain) sales
              [("status_active", "false")]) as [D [_ [_ C]]];
    [ vm_compute; lia | ].
  split; [ exact D | ].
  apply C; [ vm_compute; tauto | discriminate ].
Defined.

Lemma filter_csv_more_switches_witness :
  switches_leb (mkFilters false true false true) default_filters = true
  /\ exists mask,
       index (filter_csv (P := plain) (to_records sales) default_filters)
       = select mask
           (index (filter_csv (P := plain) (to_records sales)
                     (mkFilters false true false true)))
       /\ (len (filter_csv (P := plain) (to_records sales) default_filters)
           <= len (filter_csv (P := plain) (to_records sales)
                     (mkFilters false true false true)))%nat.
Proof.
  split; [ reflexivity | ].
  apply (filter_csv_more_switches_fewer_rows (P := plain)). reflexivity.
Defined.

Lemma filter_csv_forgets_columns_witness :
  len (mkDF ["Id"; "Price"] []) = 0%nat
  /\ filter_csv (P := plain) (to_records (mkDF ["Id"; "Price"] []))
       default_filters = mkDF [] []
  /\ columns (upload_csv_filter (P := plain) (mkDF ["Id"; "Price"] []))
     = ["Id"; "Price"].
Proof.
  split; [ reflexivity | ].
  destruct (filter_csv_forgets_columns_of_empty_file (P := plain)
              (mkDF ["Id"; "Price"] []) default_filters) as [A B];
    [ reflexivity | ].
  split; [ exact A | ]. rewrite B. reflexivity.
Defined.

(** ** Uploads *)





(** ** The report of unbalanced transactions *)

Lemma zip_with_repeat {A B C : Type} (f : A -> B -> C) (l : list A) (b : B) :
  zip_with f l (repeat b (List.length l)) = map (fun a => f a b) l.
Proof. induction l as [| a l IH]; simpl; congruence. Qed.

Lemma union_columns_from_In ls acc c :
  In c (fold_left add_columns ls acc)
  <-> In c acc \/ exists l, In l ls /\ In c l.
Proof.
  revert acc. induction ls as [| l ls IH]; intros acc; simpl.
  - split; [ auto | intros [H | [l [[] _]]]; exact H ].
  - rewrite IH. unfold add_columns. rewrite in_app_iff, filter_In. split.
    + intros [[H | [H _]] | [l' [H1 H2]]]; eauto.
    + intros [H | [l' [[<- | H1] H2]]]; eauto.
      destruct (existsb (String.eqb c) acc) eqn:E.
      * left. left. now apply existsb_eqb_In.
      * left. right. now split.
Qed.

Lemma union_columns_In ls c :
  In c (union_columns ls) <-> exists l, In l ls /\ In c l.
Proof.
  unfold union_columns. rewrite union_columns_from_In. simpl. tauto.
Qed.

Lemma has_col_In df c : has_col df c = true <-> In c (columns df).
Proof. apply existsb_eqb_In. Qed.

Section ReportRows.

Context {P : Pandas}.

Lemma has_col_set_col_other df c c' vals :
  c' <> c -> has_col (set_col df c' vals) c = has_col df c.
Proof.
  intros Hc. unfold set_col, has_col at 1. cbn [columns].
  destruct (has_col df c'); [ reflexivity | ].
  rewrite existsb_app. simpl. rewrite orb_false_r.
  rewrite (eqb_neq_false c c') by congruence. apply orb_false_r.
Qed.

Lemma Forall2_map_r {A B : Type} (R : A -> B -> Prop) (f : A -> B) l :
  (forall a, In a l -> R a (f a)) -> Forall2 R l (map f l).
Proof.
  induction l as [| a l IH]; intros H; simpl; constructor.
  - apply H. now left.
  - apply IH. intros b Hb. apply H. now right.
Qed.

Lemma select_In_mask {A : Type} (p : A -> bool) (l : list A) a :
  In a (select (map p l) l) <-> In a l /\ p a = true.
Proof. rewrite select_filter. apply filter_In. Qed.

(** The rows of [problematic_subset] show, one for one and in order, the
    rows of the bucket whose transaction is one of [unbalanced]. *)
Lemma problematic_subset_rows hebrew_name df unbalanced :
  let kept := filter (fun r => isin unbalanced (cell_of col_transaction r))
                     (rows df) in
  index (problematic_subset hebrew_name df unbalanced) = map fst kept
  /\ has_col (problematic_subset hebrew_name df unbalanced) col_sheet = true
  /\ has_col (problematic_subset hebrew_name df unbalanced)
             col_transaction_link = true
  /\ Forall2 (fun r0 r =>
                cell_of col_sheet r = Str hebrew_name
                /\ cell_of col_transaction_link r
                   = Str (String.append transaction_url
                            (fstr (cell_of col_transaction r0)))
                /\ forall c, In c display_columns ->
                             c <> col_sheet -> c <> col_transaction_link ->
                             has_col df c = true ->
                             has_col (problematic_subset hebrew_name df unbalanced) c
                             = true
                             /\ cell_of c r = cell_of c r0)
             kept (rows (problematic_subset hebrew_name df unbalanced)).
Proof.
  intros kept. unfold problematic_subset.
  set (d0 := loc df _).
  assert (R0 : rows d0 = kept) by (unfold d0; now rewrite loc_pred).
  set (d1 := set_col d0 col_sheet _).
  assert (R1 : rows d1
               = map (fun r : row => (fst r, put col_sheet (Str hebrew_name) (snd r)))
                     kept).
  { unfold d1, set_col. cbn [rows]. unfold len. rewrite R0.
    apply zip_with_repeat. }
  set (d2 := set_col d1 col_transaction_link _).
  assert (R2 : rows d2
               = map (fun r : row =>
                        (fst r,
                         put col_transaction_link
                             (Str (String.append transaction_url
                                     (fstr (cell_of col_transaction r))))
                             (snd r)))
                     (rows d1)).
  { unfold d2, set_col. cbn [rows]. apply zip_with_map_r. }
  assert (H1 : forall c, c <> col_sheet -> has_col d1 c = has_col df c).
  { intros c Hc. unfold d1. rewrite has_col_set_col_other by congruence.
    reflexivity. }
  assert (H2 : forall c, c <> col_transaction_link -> has_col d2 c = has_col d1 c).
  { intros c Hc. unfold d2. now rewrite has_col_set_col_other by congruence. }
  assert (Hs : has_col d2 col_sheet = true).
  { rewrite H2 by discriminate. apply has_col_set_col. }
  assert (Hl : has_col d2 col_transaction_link = true)
    by apply has_col_set_col.
  set (available_columns := filter (has_col d2) display_columns).
  assert (Av : forall c, In c display_columns -> has_col d2 c = true ->
                         In c available_columns).
  { intros c Hc Hh. apply filter_In. now split. }
  split; [ | split; [ | split ] ].
  - rewrite index_reindex. unfold index. rewrite R2, R1, !map_map. reflexivity.
  - rewrite has_col_reindex. apply existsb_eqb_In. apply Av; [ | exact Hs ].
    vm_compute. tauto.
  - rewrite has_col_reindex. apply existsb_eqb_In. apply Av; [ | exact Hl ].
    vm_compute. tauto.
  - unfold reindex. cbn [rows]. rewrite R2, R1, !map_map.
    apply Forall2_map_r. intros r0 _.
    assert (G : forall c, In c display_columns -> has_col d2 c = true ->
                cell_of c
                  (fst r0,
                   map (fun c => (c, if has_col d2 c
                                     then cell_of c
                                            (fst r0,
                                             put col_transaction_link
                                               (Str (String.append transaction_url
                                                  (fstr (cell_of col_transaction
                                                     (fst r0, put col_sheet (Str hebrew_name) (snd r0))))))
                                               (put col_sheet (Str hebrew_name) (snd r0)))
                                     else NA))
                       available_columns)
                = get c (put col_transaction_link
                           (Str (String.append transaction_url
                              (fstr (cell_of col_transaction
                                 (fst r0, put col_sheet (Str hebrew_name) (snd r0))))))
                           (put col_sheet (Str hebrew_name) (snd r0)))).
    { intros c Hc Hh. unfold cell_of at 1. cbn [snd].
      rewrite (get_generated (fun c => if has_col d2 c then _ else NA) c
                 available_columns (Av c Hc Hh)).
      now rewrite Hh. }
    cbn [fst snd]. split; [ | split ].
    + rewrite G; [ | vm_compute; tauto | exact Hs ].
      rewrite get_put_other by discriminate. apply get_put_same.
    + rewrite G; [ | vm_compute; tauto | exact Hl ].
      rewrite get_put_same. unfold cell_of. cbn [snd].
      now rewrite get_put_other by discriminate.
    + intros c Hc Ns Nl Hh.
      assert (Hh2 : has_col d2 c = true) by (now rewrite H2, H1).
      split.
      * apply has_col_In. cbn [columns]. now apply Av.
      * rewrite G by assumption.
        rewrite !get_put_other by congruence. reflexivity.
Qed.

Lemma Forall2_In_r {A B : Type} (R : A -> B -> Prop) l m b :
  Forall2 R l m -> In b m -> exists a, In a l /\ R a b.
Proof.
  intros F. induction F as [| x y l m Hxy F IH]; simpl; [ tauto | ].
  intros [<- | H]; [ eauto | ].
  destruct (IH H) as [a [Ha Hr]]. eauto.
Qed.

Lemma Forall2_In_l {A B : Type} (R : A -> B -> Prop) l m a :
  Forall2 R l m -> In a l -> exists b, In b m /\ R a b.
Proof.
  intros F. induction F as [| x y l m Hxy F IH]; simpl; [ tauto | ].
  intros [<- | H]; [ eauto | ].
  destruct (IH H) as [b [Hb Hr]]. eauto.
Qed.

Lemma Forall2_relabel {A : Type} (Q : A -> record -> Prop) l (m : list row) k :
  Forall2 (fun a (r : row) => Q a (snd r)) l m ->
  Forall2 (fun a (r : row) => Q a (snd r)) l
          (combine (seq k (List.length m)) (map snd m)).
Proof.
  intros F. revert k.
  induction F as [| a r l m H F IH]; intros k; simpl; constructor; auto.
Qed.

Lemma Forall2_put {A : Type} (Q : A -> record -> Prop) c l (m : list row) vals :
  (forall a r v, Q a r -> Q a (put c v r)) ->
  List.length vals = List.length m ->
  Forall2 (fun a (r : row) => Q a (snd r)) l m ->
  Forall2 (fun a (r : row) => Q a (snd r)) l
          (zip_with (fun (r : row) v => (fst r, put c v (snd r))) m vals).
Proof.
  intros H L F. revert vals L.
  induction F as [| a r l m Har F IH]; intros vals L.
  - destruct vals; [ constructor | discriminate ].
  - destruct vals as [| v vals]; [ discriminate | ].
    simpl. constructor; [ now apply H | ]. apply IH. now injection L.
Qed.

Lemma reindex_rows_of cols frames :
  (forall d c, In d frames -> has_col d c = true -> In c cols) ->
  Forall2 (fun (x : DataFrame * row) (r : row) =>
             forall c, has_col (fst x) c = true ->
                       get c (snd r) = cell_of c (snd x))
          (rows_of frames)
          (flat_map (fun d => rows (reindex d cols)) frames).
Proof.
  unfold rows_of. induction frames as [| d frames IH]; intros H; simpl;
    [ constructor | ].
  apply Forall2_app.
  - unfold reindex. cbn [rows]. generalize (rows d) as rs.
    induction rs as [| r rs IHr]; simpl; constructor; [ | exact IHr ].
    intros c Hc. cbn [fst snd] in *.
    rewrite (get_generated (fun c => if has_col d c then cell_of c r else NA)
               c cols) by (apply (H d); [ now left | exact Hc ]).
    now rewrite Hc.
  - apply IH. intros d' c Hd. apply H. now right.
Qed.

(** The report built from a non-empty list of frames: fresh labels,
    serial numbers from 1, and the rows of the frames one after the
    other. *)
Lemma numbered_concat frames :
  let combined := pd_concat frames in
  let report :=
    set_col combined col_serial
            (map (fun n => Num (float_of_nat n)) (seq 1 (len combined))) in
  index report = seq 0 (len report)
  /\ map (cell_of col_serial) (rows report)
     = map (fun n => Num (float_of_nat n)) (seq 1 (len report))
  /\ has_col report col_serial = true
  /\ Forall2 (fun (x : DataFrame * row) (r : row) =>
                forall c, c <> col_serial -> has_col (fst x) c = true ->
                          cell_of c r = cell_of c (snd x))
             (rows_of frames) (rows report).
Proof.
  intros combined report.
  assert (Lv : List.length (map (fun n => Num (float_of_nat n))
                                (seq 1 (len combined))) = len combined)
    by now rewrite length_map, length_seq.
  assert (Ln : len report = len combined) by (apply len_set_col; exact Lv).
  set (cols := union_columns (map columns frames)).
  set (L := flat_map (fun d => rows (reindex d cols)) frames).
  assert (Rc : rows combined = combine (seq 0 (List.length L)) (map snd L))
    by reflexivity.
  split; [ | split; [ | split ] ].
  - rewrite Ln. unfold report. rewrite index_set_col by exact Lv.
    unfold index, len. rewrite Rc.
    assert (E : List.length (combine (seq 0 (List.length L)) (map snd L))
                = List.length L)
      by now rewrite length_combine, length_seq, length_map, Nat.min_id.
    transitivity (seq 0 (List.length L)); [ | f_equal; symmetry; apply E ].
    clear. generalize 0%nat. induction L as [| r L IH]; intros k; simpl;
      [ reflexivity | ]. now rewrite IH.
  - rewrite Ln. unfold report.
    pose proof (get_col_set_col_same combined col_serial _ Lv) as G.
    apply get_col_Ok in G. symmetry. apply G.
  - apply has_col_set_col.
  - unfold report, set_col. cbn [rows].
    apply (Forall2_put
             (fun (x : DataFrame * row) (r : record) =>
                forall c, c <> col_serial -> has_col (fst x) c = true ->
                          get c r = cell_of c (snd x))).
    + intros x r v H c Hc Hh. rewrite get_put_other by congruence. auto.
    + exact Lv.
    + rewrite Rc.
      apply (Forall2_relabel
               (fun (x : DataFrame * row) (r : record) =>
                  forall c, c <> col_serial -> has_col (fst x) c = true ->
                            get c r = cell_of c (snd x))).
      eapply Forall2_impl; [ | apply (reindex_rows_of cols frames) ].
      * intros x r H c _ Hh. now apply H.
      * intros d c Hd Hc. apply union_columns_In. exists (columns d).
        split; [ now apply in_map | now apply has_col_In ].
Qed.

Lemma problematic_sheet_Ok s o :
  problematic_sheet s = Ok o ->
  match o with
  | Some d =>
      has_col (snd s) col_transaction && has_col (snd s) col_debit
      && has_col (snd s) col_credit = true
      /\ exists tb,
           transaction_balance (snd s) = Ok tb
           /\ unbalanced_ids tb <> []
           /\ d = problematic_subset (rename_col hebrew_names (fst s)) (snd s)
                    (unbalanced_ids tb)
  | None =>
      has_col (snd s) col_transaction && has_col (snd s) col_debit
      && has_col (snd s) col_credit = false
      \/ exists tb, transaction_balance (snd s) = Ok tb /\ unbalanced_ids tb = []
  end.
Proof.
  unfold problematic_sheet.
  destruct (has_col (snd s) col_transaction && has_col (snd s) col_debit
            && has_col (snd s) col_credit) eqn:C.
  - intros H. inv_bind H. fold (unbalanced_ids a) in H.
    revert H. destruct (unbalanced_ids a) as [| k ks] eqn:U; cbv iota;
      intros [= <-].
    + right. eauto.
    + split; [ reflexivity | ]. exists a. rewrite U.
      split; [ exact E | split; [ discriminate | reflexivity ] ].
  - intros [= <-]. now left.
Qed.

Lemma get_problematic_transactions_Ok b report :
  get_problematic_transactions b = Ok report ->
  exists found,
    mapM problematic_sheet
         (filter (fun s : string * DataFrame => (0 <? len (snd s))%nat)
                 (sheets b)) = Ok found
    /\ let frames :=
         flat_map (fun o : option DataFrame =>
                     match o with Some d => [d] | None => [] end) found in
       (frames = [] /\ report = mkDF [] [])
       \/ (frames <> []
           /\ report
              = set_col (pd_concat frames) col_serial
                  (map (fun n => Num (float_of_nat n))
                       (seq 1 (len (pd_concat frames))))).
Proof.
  unfold get_problematic_transactions. fold (sheets b). intros H. inv_bind H.
  exists a. split; [ exact E | ]. cbv zeta.
  destruct (flat_map _ a); injection H as <-;
    [ left | right ]; split; congruence.
Qed.

(** X14. The report numbers its rows afresh: whatever serial numbers and
    labels the rows had in their buckets, the rows of the report are
    labelled from 0 and numbered from 1, in the order of the report. *)
Theorem report_is_renumbered b report :
  get_problematic_transactions b = Ok report ->
  index report = seq 0 (len report)
  /\ map (cell_of col_serial) (rows report)
     = map (fun n => Num (float_of_nat n)) (seq 1 (len report)).
Proof.
  intros H. apply get_problematic_transactions_Ok in H.
  destruct H as [found [_ [[_ ->] | [_ ->]]]]; [ now split | ].
  destruct (numbered_concat
              (flat_map (fun o : option DataFrame =>
                           match o with Some d => [d] | None => [] end) found))
    as [I [S _]].
  now split.
Qed.

End ReportRows.

Section ReportContents.

Context {P : Pandas}.

Lemma rows_of_In frames d r :
  In (d, r) (rows_of frames) <-> In d frames /\ In r (rows d).
Proof.
  unfold rows_of. rewrite in_flat_map. split.
  - intros [d' [Hd Hr]]. apply in_map_iff in Hr.
    destruct Hr as [r' [[= -> ->] Hr]]. now split.
  - intros [Hd Hr]. exists d. split; [ exact Hd | now apply in_map ].
Qed.

Lemma found_frames (found : list (option DataFrame)) d :
  In d (flat_map (fun o : option DataFrame =>
                    match o with Some d => [d] | None => [] end) found)
  <-> In (Some d) found.
Proof.
  rewrite in_flat_map. split.
  - intros [[d' |] [Ho Hd]]; simpl in Hd; [ | tauto ].
    destruct Hd as [-> | []]. exact Ho.
  - intros H. exists (Some d). split; [ exact H | now left ].
Qed.

Lemma display_column c :
  In c [col_transaction; col_transaction_date; col_product_name;
        col_debit; col_credit; col_debit_account; col_credit_account] ->
  In c display_columns
  /\ c <> col_serial /\ c <> col_sheet /\ c <> col_transaction_link.
Proof.
  intros H. split; [ simpl in *; tauto | ].
  simpl in H.
  repeat (destruct H as [<- | H]; [ repeat split; discriminate | ]).
  contradiction.
Qed.

(** X13. The report shows the rows of the unbalanced transactions, and only
    them: every row of the report shows a row of one of the three buckets
    whose transaction is unbalanced in that bucket, and every such row of
    a bucket that has the three columns is shown by a row of the report,
    with the name of its sheet and the link to its transaction. *)
Theorem report_shows_unbalanced_rows b report :
  get_problematic_transactions b = Ok report ->
  (forall r, In r (rows report) ->
     exists s tb r0,
       In s (sheets b)
       /\ transaction_balance (snd s) = Ok tb
       /\ In r0 (rows (snd s))
       /\ isin (unbalanced_ids tb) (cell_of col_transaction r0) = true
       /\ reports s r0 r)
  /\ (forall s tb r0,
        In s (sheets b) ->
        has_col (snd s) col_transaction && has_col (snd s) col_debit
        && has_col (snd s) col_credit = true ->
        transaction_balance (snd s) = Ok tb ->
        In r0 (rows (snd s)) ->
        isin (unbalanced_ids tb) (cell_of col_transaction r0) = true ->
        exists r, In r (rows report) /\ reports s r0 r).
Proof.
  intros H. apply get_problematic_transactions_Ok in H.
  destruct H as [found [M Hrep]]. cbv zeta in Hrep.
  apply mapM_Forall2 in M.
  set (frames := flat_map _ found) in *.
  assert (Fr : forall d, In d frames <-> In (Some d) found)
    by apply found_frames.
  assert (Rep : forall s tb r0 r1 r,
             has_col (snd s) col_transaction = true ->
             let d := problematic_subset (rename_col hebrew_names (fst s))
                        (snd s) (unbalanced_ids tb) in
             (cell_of col_sheet r1 = Str (rename_col hebrew_names (fst s))
              /\ cell_of col_transaction_link r1
                 = Str (String.append transaction_url
                          (fstr (cell_of col_transaction r0)))
              /\ forall c, In c display_columns ->
                           c <> col_sheet -> c <> col_transaction_link ->
                           has_col (snd s) c = true ->
                           has_col d c = true /\ cell_of c r1 = cell_of c r0) ->
             (forall c, c <> col_serial -> has_col d c = true ->
                        cell_of c r = cell_of c r1) ->
             reports s r0 r).
  { intros s tb r0 r1 r Ht d [A [B C]] D.
    destruct (problematic_subset_rows (rename_col hebrew_names (fst s))
                (snd s) (unbalanced_ids tb)) as [_ [Hs [Hl _]]].
    fold d in Hs, Hl. split; [ | split ].
    - rewrite D; [ exact A | discriminate | exact Hs ].
    - rewrite D; [ exact B | discriminate | exact Hl ].
    - intros c Hc Hh. destruct (display_column c Hc) as [Hd [N1 [N2 N3]]].
      destruct (C c Hd N2 N3 Hh) as [Hh' E]. now rewrite D. }
  split.
  - intros r Hr.
    destruct Hrep as [[_ ->] | [_ ->]]; [ contradiction | ].
    destruct (numbered_concat frames) as [_ [_ [_ F]]]. cbv zeta in F.
    destruct (Forall2_In_r _ _ _ _ F Hr) as [[d r1] [Hx Hrel]].
    apply rows_of_In in Hx. destruct Hx as [Hd Hr1]. cbn [fst snd] in Hrel.
    apply Fr in Hd.
    destruct (Forall2_In_r _ _ _ _ M Hd) as [s [Hs Ho]].
    apply filter_In in Hs. destruct Hs as [Hs _].
    apply problematic_sheet_Ok in Ho. destruct Ho as [C [tb [Etb [_ ->]]]].
    destruct (problematic_subset_rows (rename_col hebrew_names (fst s))
                (snd s) (unbalanced_ids tb)) as [_ [_ [_ F1]]].
    cbv zeta in F1.
    destruct (Forall2_In_r _ _ _ _ F1 Hr1) as [r0 [Hr0 Hrel0]].
    apply filter_In in Hr0. destruct Hr0 as [Hr0 Hin].
    exists s, tb, r0. repeat split; try assumption.
    + apply (Rep s tb r0 r1 r); try assumption.
      apply andb_prop in C. destruct C as [C _].
      apply andb_prop in C. apply C.
    + apply (Rep s tb r0 r1 r); try assumption.
      apply andb_prop in C. destruct C as [C _].
      apply andb_prop in C. apply C.
    + apply (Rep s tb r0 r1 r); try assumption.
      apply andb_prop in C. destruct C as [C _].
      apply andb_prop in C. apply C.
  - intros s tb r0 Hs C Etb Hr0 Hin.
    assert (Hs' : In s (filter (fun s : string * DataFrame =>
                                  (0 <? len (snd s))%nat) (sheets b))).
    { apply filter_In. split; [ exact Hs | ]. apply Nat.ltb_lt.
      unfold len. destruct (rows (snd s)); [ contradiction | simpl; lia ]. }
    destruct (Forall2_In_l _ _ _ _ M Hs') as [o [Ho Es]].
    apply problematic_sheet_Ok in Es. destruct o as [d |].
    + destruct Es as [_ [tb' [Etb' [_ ->]]]].
      assert (tb' = tb) by congruence. subst tb'.
      apply Fr in Ho.
      destruct (problematic_subset_rows (rename_col hebrew_names (fst s))
                  (snd s) (unbalanced_ids tb)) as [_ [_ [_ F1]]].
      cbv zeta in F1.
      assert (Hk : In r0 (filter (fun r => isin (unbalanced_ids tb)
                                             (cell_of col_transaction r))
                                 (rows (snd s))))
        by (apply filter_In; now split).
      destruct (Forall2_In_l _ _ _ _ F1 Hk) as [r1 [Hr1 Hrel0]].
      destruct Hrep as [[Ef _] | [_ ->]];
        [ rewrite Ef in Ho; contradiction | ].
      destruct (numbered_concat frames) as [_ [_ [_ F]]]. cbv zeta in F.
      assert (Hx : In (problematic_subset (rename_col hebrew_names (fst s))
                         (snd s) (unbalanced_ids tb), r1) (rows_of frames))
        by (apply rows_of_In; now split).
      destruct (Forall2_In_l _ _ _ _ F Hx) as [r [Hr Hrel]].
      cbn [fst snd] in Hrel.
      exists r. split; [ exact Hr | ].
      apply (Rep s tb r0 r1 r); try assumption.
      apply andb_prop in C. destruct C as [C _].
      apply andb_prop in C. apply C.
    + destruct Es as [Es | [tb' [Etb' U]]]; [ congruence | ].
      assert (tb' = tb) by congruence. subst tb'.
      rewrite U in Hin. discriminate.
Qed.

End ReportContents.

Section ReportAndValidation.

Context {P : Pandas}.

Lemma transaction_balance_keys df tb :
  transaction_balance df = Ok tb ->
  map tb_transaction tb = group_keys (map (cell_of col_transaction) (rows df)).
Proof.
  unfold transaction_balance. intros H.
  inv_bind H. inv_bind H. inv_bind H. inv_bind H. inv_bind H.
  injection H as <-. apply get_col_Ok in E. destruct E as [_ ->].
  rewrite map_map. simpl. apply map_id.
Qed.

(** A bucket with an unbalanced transaction has a row of it. *)
Lemma unbalanced_has_rows df tb :
  transaction_balance df = Ok tb ->
  unbalanced_ids tb <> [] ->
  filter (fun r => isin (unbalanced_ids tb) (cell_of col_transaction r))
         (rows df) <> [].
Proof.
  intros E U. destruct (unbalanced_ids tb) as [| k ks] eqn:Ek;
    [ congruence | ].
  assert (Hk : In k (map tb_transaction tb)).
  { assert (In k (unbalanced_ids tb)) as H by (rewrite Ek; now left).
    unfold unbalanced_ids, unbalanced_transactions in H.
    apply in_map_iff in H. destruct H as [t [<- Ht]].
    apply filter_In in Ht. apply in_map. apply Ht. }
  rewrite (transaction_balance_keys df tb E) in Hk.
  destruct (proj1 (group_keys_spec _) k Hk) as [Hi Hn].
  apply in_map_iff in Hi. destruct Hi as [r0 [Hc Hr0]].
  intros N.
  assert (In r0 (filter (fun r => isin (k :: ks) (cell_of col_transaction r))
                        (rows df))) as H.
  { apply filter_In. split; [ exact Hr0 | ]. rewrite Hc. simpl.
    now rewrite (cell_eqb_refl k Hn). }
  rewrite N in H. contradiction.
Qed.

(** What the report takes from a bucket, against what the validator
    counts there. *)
Lemma sheet_agreement s v :
  validate_sheet (snd s) = Ok v ->
  exists o,
    problematic_sheet s = Ok o
    /\ match o with
       | None => unbalanced_count v = 0%nat
       | Some d => unbalanced_count v <> 0%nat /\ rows d <> []
       end.
Proof.
  unfold validate_sheet.
  destruct (has_col (snd s) col_transaction && has_col (snd s) col_debit
            && has_col (snd s) col_credit) eqn:C.
  - intros H. inv_bind H. injection H as <-. rename a into tb.
    unfold problematic_sheet. rewrite C, E. simpl.
    fold (unbalanced_ids tb). unfold unbalanced_count. simpl.
    destruct (unbalanced_ids tb) as [| k ks] eqn:U.
    + exists None. split; [ reflexivity | ].
      unfold unbalanced_ids in U. apply map_eq_nil in U. now rewrite U.
    + eexists. split; [ reflexivity | ]. split.
      * unfold unbalanced_ids in U. intros N.
        apply length_zero_iff_nil in N. rewrite N in U. discriminate.
      * rewrite <- U.
        destruct (problematic_subset_rows (rename_col hebrew_names (fst s))
                    (snd s) (unbalanced_ids tb)) as [I _].
        cbv zeta in I. intros N.
        apply (unbalanced_has_rows (snd s) tb E); [ rewrite U; discriminate | ].
        unfold index in I. rewrite N in I. simpl in I. symmetry in I.
        now apply map_eq_nil in I.
  - intros H. inv_bind H. inv_bind H. inv_bind H. inv_bind H.
    injection H as <-. exists None. unfold problematic_sheet. rewrite C.
    now split.
Qed.

Lemma sheets_agreement (l : list (string * DataFrame)) res :
  mapM (fun s : string * DataFrame =>
          v <- validate_sheet (snd s) ;;
          Ok (rename_col hebrew_names (fst s), v)) l = Ok res ->
  exists found,
    mapM problematic_sheet l = Ok found
    /\ Forall2 (fun (e : string * Validation) (o : option DataFrame) =>
                  match o with
                  | None => unbalanced_count (snd e) = 0%nat
                  | Some d => unbalanced_count (snd e) <> 0%nat /\ rows d <> []
                  end)
               res found.
Proof.
  revert res. induction l as [| s l IH]; intros res; simpl.
  - intros [= <-]. exists []. split; [ reflexivity | constructor ].
  - intros H. inv_bind H. inv_bind E. injection E as <-.
    inv_bind H. injection H as <-.
    destruct (sheet_agreement s a0 E0) as [o [Eo Ho]].
    destruct (IH a E) as [found [Ef Hf]].
    exists (o :: found). rewrite Eo, Ef. split; [ reflexivity | ].
    constructor; assumption.
Qed.

(** X15. The report and the validator agree: whenever the validation
    succeeds the report is built too, and it is empty exactly when the
    validation counts no unbalanced transaction in any bucket. *)
Theorem report_empty_iff_validation_clean b res :
  get_balance_validation b = Ok res ->
  exists report,
    get_problematic_transactions b = Ok report
    /\ (empty report = true
        <-> Forall (fun e : string * Validation =>
                      unbalanced_count (snd e) = 0%nat) res).
Proof.
  unfold get_balance_validation, get_problematic_transactions.
  intros H. destruct (sheets_agreement _ _ H) as [found [Ef Hf]].
  rewrite Ef. simpl. clear H Ef.
  destruct (flat_map _ found) as [| d frames] eqn:Fr.
  - eexists. split; [ reflexivity | ]. split; [ intros _ | reflexivity ].
    induction Hf as [| e o res found Heo Hf IH]; constructor.
    + destruct o as [d |]; [ discriminate | exact Heo ].
    + apply IH. destruct o; [ discriminate | exact Fr ].
  - eexists. split; [ reflexivity | ].
    assert (Hd : In (Some d) found)
      by (apply found_frames; rewrite Fr; now left).
    destruct (Forall2_In_r _ _ _ _ Hf Hd) as [e [He [Hc Hr]]].
    destruct (numbered_concat (d :: frames)) as [_ [_ [Hs F]]].
    cbv zeta in F, Hs. split.
    + intros Em. exfalso. unfold empty in Em. apply orb_prop in Em.
      destruct Em as [Em | Em].
      * apply Nat.eqb_eq in Em.
        assert (N : List.length (rows_of (d :: frames)) = 0%nat)
          by (rewrite (Forall2_length F); exact Em).
        apply length_zero_iff_nil in N. unfold rows_of in N. simpl in N.
        apply app_eq_nil in N. destruct N as [N _].
        apply map_eq_nil in N. contradiction.
      * apply Nat.eqb_eq in Em. apply length_zero_iff_nil in Em.
        unfold has_col in Hs. rewrite Em in Hs. discriminate.
    + intros A. exfalso. rewrite Forall_forall in A. apply Hc.
      now apply A.
Qed.

End ReportAndValidation.

Lemma report_is_renumbered_witness :
  get_problematic_transactions (P := plain) ten_short_buckets
  = Ok ten_short_report
  /\ map (cell_of col_transaction) (rows ten_short_report)
     = [Str "T2"; Str "T2"]
  /\ index ten_short_report = seq 0 (len ten_short_report)
  /\ map (cell_of col_serial) (rows ten_short_report)
     = map (fun n => Num (float_of_nat n)) (seq 1 (len ten_short_report)).
Proof.
  split; [ vm_compute; reflexivity | ].
  split; [ vm_compute; reflexivity | ].
  apply (report_is_renumbered (P := plain) ten_short_buckets).
  vm_compute. reflexivity.
Defined.

Lemma report_shows_unbalanced_rows_witness :
  get_problematic_transactions (P := plain) ten_short_buckets
  = Ok ten_short_report
  /\ map (fun r => (cell_of col_sheet r, cell_of col_transaction_link r,
                    cell_of col_debit r, cell_of col_credit r))
         (rows ten_short_report)
     = [(Str "ללא פרסומים",
         Str "https://tickets.hapoel.co.il/Transaction2/Details?id=T2",
         Num 100, Num 90);
        (Str "ללא פרסומים",
         Str "https://tickets.hapoel.co.il/Transaction2/Details?id=T2",
         Num 5, Num 5)]
  /\ forall r, In r (rows ten_short_report) ->
       exists s tb r0,
         In s (sheets ten_short_buckets)
         /\ transaction_balance (P := plain) (snd s) = Ok tb
         /\ In r0 (rows (snd s))
         /\ isin (unbalanced_ids tb) (cell_of col_transaction r0) = true
         /\ reports (P := plain) s r0 r.
Proof.
  split; [ vm_compute; reflexivity | ].
  split; [ vm_compute; reflexivity | ].
  apply (report_shows_unbalanced_rows (P := plain) ten_short_buckets).
  vm_compute. reflexivity.
Defined.

Lemma report_empty_iff_validation_clean_witness :
  get_balance_validation (P := plain) ten_short_buckets
  = Ok ten_short_validation
  /\ map (fun e : string * Validation => unbalanced_count (snd e))
         ten_short_validation = [1%nat; 0%nat]
  /\ exists report,
       get_problematic_transactions (P := plain) ten_short_buckets = Ok report
       /\ (empty report = true
           <-> Forall (fun e : string * Validation =>
                         unbalanced_count (snd e) = 0%nat)
                      ten_short_validation).
Proof.
  split; [ vm_compute; reflexivity | ].
  split; [ vm_compute; reflexivity | ].
  apply (report_empty_iff_validation_clean (P := plain) ten_short_buckets).
  vm_compute. reflexivity.
Defined.

(** ** The segmenter: order, refusals and the case without candidates *)

Lemma select_nil {A : Type} (m : list bool) : select m (@nil A) = [].
Proof. now destruct m. Qed.

(** Two selections in a row are one selection, by a mask that does not
    depend on the list. *)
Lemma select_select (m m' : list bool) :
  exists m'', forall (A : Type) (l : list A),
    select m' (select m l) = select m'' l.
Proof.
  revert m'. induction m as [| b m IH]; intros m'.
  - exists []. intros A l. simpl. apply select_nil.
  - destruct b.
    + destruct m' as [| b' m'].
      * exists []. intros A l. reflexivity.
      * destruct (IH m') as [m'' H]. exists (b' :: m''). intros A l.
        destruct l as [| a l]; simpl; [ now rewrite ?select_nil | ].
        destruct b'; now rewrite H.
    + destruct (IH m') as [m'' H]. exists (false :: m''). intros A l.
      destruct l as [| a l]; simpl; [ now rewrite ?select_nil | apply H ].
Qed.


Section SegmenterOrder.

Context {P : Pandas}.

(** X1. Each bucket lists rows of the input in the order of the input: its
    labels, and its cells in every column but the product reference that
    the candidate rows have coerced, are those of the input with some
    rows left out. *)
Theorem split_data_keeps_order df b :
  split_data df = Ok b ->
  (exists mask,
      index (without_advertisement b) = select mask (index df)
      /\ forall c, c <> "InstallmentProductExtRef" ->
           map (cell_of c) (rows (without_advertisement b))
           = select mask (map (cell_of c) (rows df)))
  /\ (exists mask,
        index (advertisment b) = select mask (index df)
        /\ forall c, c <> "InstallmentProductExtRef" ->
             map (cell_of c) (rows (advertisment b))
             = select mask (map (cell_of c) (rows df)))
  /\ subsequence (rows (rest b)) (rows df).
Proof.
  intros H.
  destruct (split_data_Ok _ _ H) as (key & only & code & Hk & Ho & Ha & Hw & Hr).
  destruct (only_79991_rows _ _ _ _ Ho) as [_ Ro].
  assert (K : forall marked,
             exists mask,
               index (loc only marked) = select mask (index df)
               /\ forall c, c <> "InstallmentProductExtRef" ->
                    map (cell_of c) (rows (loc only marked))
                    = select mask (map (cell_of c) (rows df))).
  { intros marked.
    destruct (select_select (map (fun k => String.eqb k "79991") key) marked)
      as [mask Hm].
    exists mask. unfold index, loc. cbn [rows]. rewrite Ro. split.
    - rewrite select_map, map_map. cbn [fst].
      rewrite (select_map (fun x : row => fst x)). apply Hm.
    - intros c Hc. rewrite select_map, map_map.
      rewrite (map_ext _ (cell_of c)).
      + rewrite (select_map (cell_of c)). apply Hm.
      + intros r. unfold cell_of. cbn [snd]. apply get_put_other. congruence. }
  split; [ rewrite Hw; apply K | ].
  split; [ rewrite Ha; apply K | ].
  rewrite Hr. eexists. reflexivity.
Qed.

End SegmenterOrder.

Section SegmenterRefusals.

Context {P : Pandas}.





(** X3. Without a candidate row the two candidate buckets are empty and
    every row is in [rest], rows and columns as they came; the product
    reference column is asked for all the same. *)
Theorem split_data_without_candidates df key :
  block_key df = Ok key ->
  Forall (fun k => k <> "79991") key ->
  split_data df
  = if has_col df "InstallmentProductExtRef"
    then Ok {| without_advertisement := mkDF (columns df) [];
               advertisment := mkDF (columns df) [];
               rest := df |}
    else Raise KeyError.
Proof.
  intros Hk F. pose proof (block_key_length _ _ Hk) as L.
  assert (E1 : map (fun k => String.eqb k "79991") key
               = repeat false (len df)).
  { rewrite <- L. clear L Hk. induction F as [| k key Hne F IH]; simpl;
      [ reflexivity | ].
    rewrite IH. now rewrite eqb_neq_false. }
  assert (E2 : map (fun k => negb (String.eqb k "79991")) key
               = repeat true (len df)).
  { rewrite <- (map_map (fun k => String.eqb k "79991") negb), E1.
    clear. induction (len df); simpl; congruence. }
  unfold split_data, only_79991. rewrite Hk. simpl. rewrite E1, E2.
  rewrite get_col_loc. unfold get_col.
  destruct (has_col df "InstallmentProductExtRef") eqn:Hp; simpl;
    [ | reflexivity ].
  unfold loc, len. rewrite select_none, select_all.
  unfold set_col. cbn [rows columns].
  change (has_col {| columns := columns df; rows := [] |}) with (has_col df).
  rewrite Hp. simpl. rewrite !select_nil. destruct df. reflexivity.
Qed.

End SegmenterRefusals.

Lemma split_data_without_candidates_witness :
  block_key (P := plain) no_candidates = Ok ["10001"; "10001"]
  /\ Forall (fun k => k <> "79991") ["10001"; "10001"]
  /\ split_data (P := plain) no_candidates
     = Ok {| without_advertisement := mkDF input_columns [];
             advertisment := mkDF input_columns [];
             rest := no_candidates |}.
Proof.
  assert (K : block_key (P := plain) no_candidates = Ok ["10001"; "10001"])
    by (vm_compute; reflexivity).
  assert (F : Forall (fun k => k <> "79991") ["10001"; "10001"])
    by (repeat constructor; discriminate).
  split; [ exact K | ]. split; [ exact F | ].
  exact (split_data_without_candidates (P := plain) no_candidates _ K F).
Defined.

Lemma split_data_keeps_order_witness :
  split_data (P := plain) scenario = Ok scenario_buckets
  /\ index (without_advertisement scenario_buckets) = [2%nat]
  /\ index (advertisment scenario_buckets) = [0%nat; 1%nat]
  /\ index (rest scenario_buckets) = [3%nat; 4%nat]
  /\ subsequence (rows (rest scenario_buckets)) (rows scenario).
Proof.
  split; [ vm_compute; reflexivity | ].
  repeat (split; [ vm_compute; reflexivity | ]).
  apply (split_data_keeps_order (P := plain) scenario).
  vm_compute. reflexivity.
Defined.

(** ** The normaliser: numbers, columns and "Other Payment" *)

Lemma filter_absent (c : string) (cols : list string) :
  existsb (String.eqb c) cols = false ->
  filter (fun k => negb (String.eqb k c)) cols = cols.
Proof.
  induction cols as [| k cols IH]; simpl; [ reflexivity | ].
  intros H. apply orb_false_elim in H. destruct H as [H1 H2].
  rewrite String.eqb_sym, H1. simpl. now rewrite IH.
Qed.

Lemma existsb_filter_other (c c' : string) (cols : list string) :
  c <> c' ->
  existsb (String.eqb c) (filter (fun k => negb (String.eqb k c')) cols)
  = existsb (String.eqb c) cols.
Proof.
  intros N. induction cols as [| k cols IH]; [ reflexivity | ].
  cbn [filter existsb].
  destruct (String.eqb_spec k c') as [-> | N']; cbn [negb existsb].
  - rewrite (eqb_neq_false c c' N). exact IH.
  - now rewrite IH.
Qed.

Section NormaliserColumns.

Context {P : Pandas}.

Lemma prepare_columns_Ok b b' :
  prepare_columns b = Ok b' ->
  number_and_date (without_advertisement (align_columns b))
  = Ok (without_advertisement b')
  /\ number_and_date (advertisment (align_columns b)) = Ok (advertisment b')
  /\ number_and_date (rest (align_columns b)) = Ok (rest b').
Proof.
  unfold prepare_columns. intros H.
  inv_bind H. inv_bind H. inv_bind H. injection H as <-. auto.
Qed.

Lemma number_and_date_numbers df df' :
  number_and_date df = Ok df' ->
  index df' = index df
  /\ map (cell_of col_serial) (rows df')
     = map (fun n => Num (float_of_nat n)) (seq 1 (len df'))
  /\ (exists tail, columns df' = col_serial :: tail)
  /\ without_order_date (columns df')
     = without_order_date
         (col_serial
          :: filter (fun k => negb (String.eqb k col_serial)) (columns df))
  /\ ((len df = 0%nat \/ has_col df col_transaction_date = false) ->
      columns df'
      = col_serial :: filter (fun k => negb (String.eqb k col_serial)) (columns df))
  /\ ((0 < len df)%nat -> has_col df col_transaction_date = true ->
      has_col df' col_order_date = true).
Proof.
  unfold number_and_date.
  set (df1 := if has_col df col_serial then drop_col df col_serial else df).
  assert (C1 : columns df1
               = filter (fun k => negb (String.eqb k col_serial)) (columns df)).
  { unfold df1. destruct (has_col df col_serial) eqn:Hs; [ reflexivity | ].
    symmetry. now apply filter_absent. }
  assert (I1 : index df1 = index df).
  { unfold df1. destruct (has_col df col_serial); [ | reflexivity ].
    unfold index, drop_col. cbn [rows]. now rewrite map_map. }
  assert (L1 : len df1 = len df) by now apply len_as_index.
  set (vals := map (fun n => Num (float_of_nat n)) (seq 1 (len df1))).
  assert (Lv : List.length vals = len df1)
    by (unfold vals; now rewrite length_map, length_seq).
  set (df2 := insert0 df1 col_serial vals).
  assert (I2 : index df2 = index df1).
  { unfold index, df2, insert0. cbn [rows].
    apply zip_with_map_fst; [ reflexivity | exact Lv ]. }
  assert (L2 : len df2 = len df1) by now apply len_as_index.
  assert (S2 : map (cell_of col_serial) (rows df2) = vals).
  { unfold df2, insert0. cbn [rows].
    apply zip_with_map_snd; [ | exact Lv ].
    intros r v. unfold cell_of. cbn [get snd fst]. now rewrite String.eqb_refl. }
  assert (D2 : has_col df2 col_transaction_date = has_col df col_transaction_date).
  { unfold has_col, df2, insert0. cbn [columns existsb]. rewrite C1.
    rewrite (eqb_neq_false col_transaction_date col_serial) by discriminate.
    apply existsb_filter_other. discriminate. }
  destruct (has_col df2 col_transaction_date && (0 <? len df2)%nat) eqn:C.
  - intros H. inv_bind H. inv_bind H. injection H as <-.
    destruct (keeps_col_set_col col_serial col_order_date df2
                (repeat a0 (len df2)))
      as [Ki [Kc _]]; [ discriminate | apply repeat_length | ].
    apply andb_prop in C. destruct C as [Cd Cl]. apply Nat.ltb_lt in Cl.
    split; [ congruence | ]. split; [ | split; [ | split; [ | split ] ] ].
    + rewrite Kc, S2. unfold vals. now rewrite (len_as_index _ _ Ki), L2.
    + unfold set_col. cbn [columns].
      destruct (has_col df2 col_order_date); eexists; reflexivity.
    + unfold set_col. cbn [columns].
      destruct (has_col df2 col_order_date);
        [ unfold df2, insert0; cbn [columns]; now rewrite C1 | ].
      unfold without_order_date. rewrite filter_app. cbn [filter].
      rewrite String.eqb_refl. cbn [negb]. rewrite app_nil_r.
      unfold df2, insert0. cbn [columns]. now rewrite C1.
    + intros [Z | Z]; [ lia | congruence ].
    + intros _ _. apply has_col_set_col.
  - intros H. injection H as <-.
    split; [ congruence | ]. split; [ | split; [ | split; [ | split ] ] ].
    + rewrite S2. unfold vals. now rewrite L2.
    + eexists. reflexivity.
    + unfold df2, insert0. cbn [columns]. now rewrite C1.
    + intros _. unfold df2, insert0. cbn [columns]. now rewrite C1.
    + intros Hl Hd. rewrite D2, Hd, L2, L1 in C. simpl in C.
      apply Nat.ltb_ge in C. lia.
Qed.

(** X4. In every bucket the serial number is the first column and counts the
    rows of that bucket from 1, whatever numbers the input carried under
    that name. *)
Theorem serial_numbers_restart_in_each_bucket b b' :
  prepare_columns b = Ok b' ->
  let numbered (df : DataFrame) :=
    (exists tail, columns df = col_serial :: tail)
    /\ map (cell_of col_serial) (rows df)
       = map (fun n => Num (float_of_nat n)) (seq 1 (len df)) in
  numbered (without_advertisement b')
  /\ numbered (advertisment b')
  /\ numbered (rest b').
Proof.
  intros H numbered. destruct (prepare_columns_Ok _ _ H) as [Hw [Ha Hr]].
  apply number_and_date_numbers in Hw, Ha, Hr. unfold numbered.
  repeat split; try apply Hw; try apply Ha; apply Hr.
Qed.

Lemma number_and_date_columns df df' :
  number_and_date df = Ok df' ->
  columns df'
  = let numbered :=
      col_serial
      :: filter (fun k => negb (String.eqb k col_serial)) (columns df) in
    if has_col df col_transaction_date && (0 <? len df)%nat
    then if existsb (String.eqb col_order_date) numbered
         then numbered else numbered ++ [col_order_date]
    else numbered.
Proof.
  intros H. pose proof (number_and_date_numbers _ _ H)
    as [_ [_ [_ [_ [Hc Hd]]]]].
  cbv zeta.
  destruct (has_col df col_transaction_date) eqn:D; simpl;
    [ | apply Hc; now right ].
  destruct (0 <? len df)%nat eqn:L;
    [ | apply Hc; left; apply Nat.ltb_ge in L; lia ].
  apply Nat.ltb_lt in L. clear Hc Hd. revert H. unfold number_and_date.
  set (df1 := if has_col df col_serial then drop_col df col_serial else df).
  assert (C1 : columns df1
               = filter (fun k => negb (String.eqb k col_serial)) (columns df)).
  { unfold df1. destruct (has_col df col_serial) eqn:Hs; [ reflexivity | ].
    symmetry. now apply filter_absent. }
  set (df2 := insert0 df1 col_serial _).
  destruct (has_col df2 col_transaction_date && (0 <? len df2)%nat) eqn:C;
    intros H.
  - inv_bind H. inv_bind H. injection H as <-.
    unfold set_col, has_col. cbn [columns]. unfold df2, insert0.
    cbn [columns]. now rewrite C1.
  - injection H as <-. exfalso.
    assert (I : index df2 = index df).
    { transitivity (index df1).
      - unfold index, df2, insert0. cbn [rows].
        apply zip_with_map_fst;
          [ reflexivity | now rewrite length_map, length_seq ].
      - unfold df1. destruct (has_col df col_serial); [ | reflexivity ].
        unfold index, drop_col. cbn [rows]. now rewrite map_map. }
    rewrite (len_as_index _ _ I) in C.
    apply Nat.ltb_lt in L. rewrite L, andb_true_r in C.
    unfold has_col, df2, insert0 in C. cbn [columns existsb] in C.
    rewrite C1 in C.
    rewrite (eqb_neq_false col_transaction_date col_serial) in C
      by discriminate.
    rewrite existsb_filter_other in C by discriminate.
    unfold has_col in D. simpl in C. congruence.
Qed.

Lemma columns_format_dates df : columns (format_dates df) = columns df.
Proof.
  unfold format_dates. destruct (has_col df col_transaction_date) eqn:D;
    [ | reflexivity ].
  unfold set_col. cbn [columns]. now rewrite D.
Qed.

Lemma align_columns_columns b :
  columns (advertisment (align_columns b))
  = columns (without_advertisement (align_columns b))
  /\ columns (rest (align_columns b))
     = columns (without_advertisement (align_columns b))
  /\ columns (without_advertisement (align_columns b))
     = map (rename_col column_mapping)
           (columns (drop_unwanted (without_advertisement b))).
Proof.
  unfold align_columns. cbn [without_advertisement advertisment rest].
  unfold reindex. cbn [columns]. rewrite columns_format_dates.
  repeat split.
Qed.

(** X5. The three sheets are aligned: apart from the order date, which only
    a bucket with rows receives, the three buckets have the same columns
    in the same order, those of the bucket without advertisement; two
    buckets that both have rows have the very same columns. *)
Theorem buckets_share_columns b b' :
  prepare_columns b = Ok b' ->
  let aligned (df df' : DataFrame) :=
    without_order_date (columns df) = without_order_date (columns df')
    /\ ((0 < len df)%nat -> (0 < len df')%nat -> columns df = columns df') in
  aligned (without_advertisement b') (advertisment b')
  /\ aligned (without_advertisement b') (rest b')
  /\ aligned (advertisment b') (rest b').
Proof.
  intros H aligned. destruct (prepare_columns_Ok _ _ H) as [Hw [Ha Hr]].
  destruct (align_columns_columns b) as [Ca [Cr _]].
  assert (K : forall df1 df2 df1' df2',
             columns df1 = columns df2 ->
             number_and_date df1 = Ok df1' -> number_and_date df2 = Ok df2' ->
             aligned df1' df2').
  { intros df1 df2 df1' df2' E H1 H2. split.
    - destruct (number_and_date_numbers _ _ H1) as [_ [_ [_ [-> _]]]].
      destruct (number_and_date_numbers _ _ H2) as [_ [_ [_ [-> _]]]].
      now rewrite E.
    - intros L1 L2.
      destruct (number_and_date_numbers _ _ H1) as [I1 _].
      destruct (number_and_date_numbers _ _ H2) as [I2 _].
      rewrite (len_as_index _ _ I1) in L1. rewrite (len_as_index _ _ I2) in L2.
      rewrite (number_and_date_columns _ _ H1), (number_and_date_columns _ _ H2).
      apply Nat.ltb_lt in L1, L2. unfold has_col. now rewrite L1, L2, E. }
  split; [ | split ].
  - eapply K; [ | exact Hw | exact Ha ]. now symmetry.
  - eapply K; [ | exact Hw | exact Hr ]. now symmetry.
  - eapply K; [ | exact Ha | exact Hr ]. congruence.
Qed.

Lemma drop_other_payment_cells df :
  has_col df col_product_name = true ->
  Forall (fun c => c <> Str "Other Payment")
         (map (cell_of col_product_name) (rows (drop_other_payment df))).
Proof.
  intros H. unfold drop_other_payment. rewrite H.
  unfold reset_index. cbn [rows]. rewrite loc_pred. cbn [columns rows].
  unfold len. cbn [rows].
  set (kept := filter _ (rows df)).
  assert (K : Forall (fun r : row =>
                        ne_str "Other Payment" (cell_of col_product_name r) = true)
                     kept)
    by (apply Forall_forall; intros r Hr; now apply filter_In in Hr).
  assert (E : map (cell_of col_product_name)
                  (combine (seq 0 (List.length kept)) (map snd kept))
              = map (cell_of col_product_name) kept).
  { apply map_cell_of_snd. apply map_snd_combine.
    now rewrite length_seq, length_map. }
  rewrite E. apply Forall_map. eapply Forall_impl; [ | exact K ].
  intros r Hr N. cbv beta in Hr. unfold row in *. rewrite N in Hr. discriminate.
Qed.

(** X6. After the normaliser no row of [rest] is an "Other Payment": the
    rows that were no longer show in the sheet, in the summary or in the
    validation. The two other buckets are not filtered. *)
Theorem rest_has_no_other_payment b b' :
  prepare_columns b = Ok b' ->
  forall r, In r (rows (rest b')) ->
    cell_of col_product_name r <> Str "Other Payment".
Proof.
  intros H. destruct (prepare_columns_Ok _ _ H) as [_ [_ Hr]].
  destruct (keeps_col_number_and_date col_product_name _ _
              ltac:(discriminate) ltac:(discriminate) Hr) as [_ [Kc _]].
  assert (F : Forall (fun c => c <> Str "Other Payment")
                (map (cell_of col_product_name) (rows (rest b')))).
  { rewrite Kc. unfold align_columns. cbn [rest].
    set (rs1 := rename (drop_unwanted (rest b)) column_mapping).
    set (cols := columns _).
    destruct (has_col rs1 col_product_name) eqn:Hp.
    - pose proof (drop_other_payment_cells rs1 Hp) as D.
      destruct (keeps_col_format_dates col_product_name (drop_other_payment rs1)
                  ltac:(discriminate)) as [_ [Kf Kh]].
      rewrite <- Kf in D.
      unfold reindex. cbn [rows]. rewrite map_map.
      apply Forall_map. rewrite Forall_map in D.
      eapply Forall_impl; [ | exact D ]. intros r Hc. unfold cell_of at 1.
      cbn [snd].
      destruct (in_dec string_dec col_product_name cols) as [Hi | Hi].
      + rewrite (get_generated
                   (fun c => if has_col (format_dates (drop_other_payment rs1)) c
                             then cell_of c r else NA) _ _ Hi).
        destruct (has_col (format_dates (drop_other_payment rs1))
                          col_product_name); [ exact Hc | discriminate ].
      + rewrite get_not_generated by exact Hi. discriminate.
    - assert (Hp' : has_col (format_dates (drop_other_payment rs1))
                            col_product_name = false).
      { destruct (keeps_col_format_dates col_product_name
                    (drop_other_payment rs1) ltac:(discriminate))
          as [_ [_ ->]].
        unfold drop_other_payment. now rewrite Hp. }
      unfold reindex. cbn [rows]. rewrite map_map. apply Forall_map.
      apply Forall_forall. intros r _. unfold cell_of. cbn [snd].
      destruct (in_dec string_dec col_product_name cols) as [Hi | Hi].
      + rewrite (get_generated
                   (fun c => if has_col (format_dates (drop_other_payment rs1)) c
                             then get c (snd r) else NA) _ _ Hi).
        rewrite Hp'. discriminate.
      + rewrite get_not_generated by exact Hi. discriminate. }
  intros r Hin. rewrite Forall_map, Forall_forall in F. now apply F.
Qed.

Lemma columns_drop_unwanted df c :
  In c (columns (drop_unwanted df)) -> ~ In c columns_to_drop.
Proof.
  unfold drop_unwanted.
  assert (K : forall cols d,
             In c (columns (fold_left (fun d col =>
                                         if has_col d col then drop_col d col
                                         else d) cols d)) ->
             In c (columns d) /\ ~ In c cols).
  { induction cols as [| k cols IH]; intros d Hc; simpl in *; [ tauto | ].
    destruct (IH _ Hc) as [H1 H2]. destruct (has_col d k) eqn:Hk.
    - unfold drop_col in H1. cbn [columns] in H1. apply filter_In in H1.
      destruct H1 as [H1 N]. split; [ exact H1 | ].
      intros [-> | H]; [ | tauto ]. now rewrite String.eqb_refl in N.
    - split; [ exact H1 | ]. intros [-> | H]; [ | tauto ].
      apply not_in_by_eqb in Hk. contradiction. }
  intros H. now apply K in H.
Qed.

Lemma rename_col_not_source k :
  ~ In (rename_col column_mapping k) (map fst column_mapping).
Proof.
  unfold rename_col. destruct (lookup k column_mapping) as [v |] eqn:L.
  - apply lookup_Some in L. destruct L as [_ Hv]. simpl in Hv.
    repeat (destruct Hv as [<- | Hv];
            [ simpl; intuition discriminate | ]).
    contradiction.
  - intros H. revert L. clear -H. induction column_mapping as [| [k' v] m IH];
      simpl in *; [ tauto | ].
    destruct (String.eqb_spec k k') as [-> | N]; [ discriminate | ].
    destruct H as [H | H]; [ congruence | now apply IH ].
Qed.

Lemma rename_col_not_dropped k :
  ~ In k columns_to_drop ->
  ~ In (rename_col column_mapping k) columns_to_drop.
Proof.
  intros Hk. unfold rename_col.
  destruct (lookup k column_mapping) as [v |] eqn:L; [ | exact Hk ].
  apply lookup_Some in L. destruct L as [_ Hv]. simpl in Hv.
  repeat (destruct Hv as [<- | Hv]; [ simpl; intuition discriminate | ]).
  contradiction.
Qed.

(** X7. No bucket keeps a column under a name the normaliser drops or
    renames: the three discarded columns and the seven English names are
    gone from the three sheets. *)
Theorem source_columns_are_gone b b' :
  prepare_columns b = Ok b' ->
  forall c, In c (columns_to_drop ++ map fst column_mapping) ->
    has_col (without_advertisement b') c = false
    /\ has_col (advertisment b') c = false
    /\ has_col (rest b') c = false.
Proof.
  intros H c Hc. destruct (prepare_columns_Ok _ _ H) as [Hw [Ha Hr]].
  destruct (align_columns_columns b) as [Ca [Cr Cw]].
  assert (N : ~ In c (columns (without_advertisement (align_columns b)))).
  { rewrite Cw. intros Hi. apply in_map_iff in Hi. destruct Hi as [k [<- Hk]].
    apply columns_drop_unwanted in Hk. apply in_app_or in Hc.
    destruct Hc as [Hc | Hc].
    - now apply (rename_col_not_dropped k Hk).
    - now apply (rename_col_not_source k). }
  assert (Cs : c <> col_serial /\ c <> col_order_date).
  { simpl in Hc. split; intros ->; intuition discriminate. }
  assert (K : forall df df',
             columns df = columns (without_advertisement (align_columns b)) ->
             number_and_date df = Ok df' -> has_col df' c = false).
  { intros df df' E Hn.
    destruct (has_col df' c) eqn:Hh; [ exfalso | reflexivity ].
    apply has_col_In in Hh. rewrite (number_and_date_columns _ _ Hn) in Hh.
    cbv zeta in Hh. rewrite E in Hh.
    assert (B : ~ In c (col_serial
                        :: filter (fun k => negb (String.eqb k col_serial))
                                  (columns (without_advertisement
                                              (align_columns b))))).
    { intros [<- | Hi]; [ tauto | ]. apply filter_In in Hi. tauto. }
    destruct (has_col df col_transaction_date && (0 <? len df)%nat);
      [ | contradiction ].
    destruct (existsb _ _); [ contradiction | ].
    apply in_app_or in Hh. destruct Hh as [Hh | [<- | []]]; tauto. }
  split; [ apply (K _ _ eq_refl Hw) | ].
  split; [ apply (K _ _ Ca Ha) | apply (K _ _ Cr Hr) ].
Qed.

End NormaliserColumns.

Lemma serial_numbers_restart_witness :
  prepare_columns (P := plain) scenario_buckets = Ok scenario_prepared
  /\ map (cell_of col_serial) (rows (advertisment scenario_prepared))
     = [Num 1; Num 2]
  /\ map (cell_of col_serial) (rows (rest scenario_prepared))
     = map (fun n => Num (float_of_nat n))
           (seq 1 (len (rest scenario_prepared))).
Proof.
  assert (H : prepare_columns (P := plain) scenario_buckets
              = Ok scenario_prepared) by (vm_compute; reflexivity).
  split; [ exact H | ]. split; [ vm_compute; reflexivity | ].
  destruct (serial_numbers_restart_in_each_bucket (P := plain) _ _ H)
    as [_ [_ [_ R]]].
  exact R.
Defined.

Lemma buckets_share_columns_witness :
  prepare_columns (P := plain) scenario_buckets = Ok scenario_prepared
  /\ (0 < len (without_advertisement scenario_prepared))%nat
  /\ (0 < len (rest scenario_prepared))%nat
  /\ columns (without_advertisement scenario_prepared)
     = columns (rest scenario_prepared).
Proof.
  assert (H : prepare_columns (P := plain) scenario_buckets
              = Ok scenario_prepared) by (vm_compute; reflexivity).
  assert (L1 : (0 < len (without_advertisement scenario_prepared))%nat)
    by (vm_compute; lia).
  assert (L2 : (0 < len (rest scenario_prepared))%nat) by (vm_compute; lia).
  split; [ exact H | ]. split; [ exact L1 | ]. split; [ exact L2 | ].
  destruct (buckets_share_columns (P := plain) _ _ H) as [_ [[_ C] _]].
  exact (C L1 L2).
Defined.

Lemma rest_has_no_other_payment_witness :
  prepare_columns (P := plain) scenario_buckets = Ok scenario_prepared
  /\ map (cell_of "InstallmentProducts") (rows (rest scenario_buckets))
     = [Str "Shirt"; Str "Other Payment"]
  /\ forall r, In r (rows (rest scenario_prepared)) ->
       cell_of col_product_name r <> Str "Other Payment".
Proof.
  assert (H : prepare_columns (P := plain) scenario_buckets
              = Ok scenario_prepared) by (vm_compute; reflexivity).
  split; [ exact H | ]. split; [ vm_compute; reflexivity | ].
  exact (rest_has_no_other_payment (P := plain) _ _ H).
Defined.

Lemma source_columns_are_gone_witness :
  prepare_columns (P := plain) scenario_buckets = Ok scenario_prepared
  /\ has_col (rest scenario_buckets) "InstallmentDate" = true
  /\ has_col (without_advertisement scenario_prepared) "InstallmentDate" = false
  /\ has_col (advertisment scenario_prepared) "InstallmentDate" = false
  /\ has_col (rest scenario_prepared) "InstallmentDate" = false.
Proof.
  assert (H : prepare_columns (P := plain) scenario_buckets
              = Ok scenario_prepared) by (vm_compute; reflexivity).
  split; [ exact H | ]. split; [ vm_compute; reflexivity | ].
  apply (source_columns_are_gone (P := plain) _ _ H).
  vm_compute. tauto.
Defined.

(** ** The validator and the rows without a transaction *)

Lemma mapM_select {A B : Type} (f : A -> result B) (mask : list bool) l m :
  mapM f l = Ok m -> mapM f (select mask l) = Ok (select mask m).
Proof.
  revert mask m. induction l as [| a l IH]; intros mask m H; simpl in H.
  - injection H as <-. now destruct mask.
  - inv_bind H. inv_bind H. injection H as <-.
    destruct mask as [| [|] mask]; simpl; [ reflexivity | | now apply IH ].
    rewrite E. simpl. now rewrite (IH mask _ E0).
Qed.

Lemma cell_eqb_notna k c : cell_eqb k c = true -> notna c = true.
Proof.
  destruct k as [| x | s | d], c as [| y | t | e]; simpl; try discriminate;
    try reflexivity.
  intros H. rewrite FloatAxioms.eqb_spec in H. unfold notna. simpl.
  destruct (is_nan y) eqn:N; [ | reflexivity ].
  apply is_nan_Prim2SF in N. rewrite N in H.
  destruct (Prim2SF x) as [? | ? | | ? ? ?]; discriminate.
Qed.

(** Selecting by a test [p] among the rows selected by a weaker test
    [q] is selecting by [p]. *)
Lemma select_within {A B : Type} (p q : A -> bool) (l : list A) (d : list B) :
  (forall a, p a = true -> q a = true) ->
  select (map p (select (map q l) l)) (select (map q l) d)
  = select (map p l) d.
Proof.
  intros H. revert d. induction l as [| a l IH]; intros d; simpl.
  - reflexivity.
  - destruct d as [| x d]; simpl.
    + destruct (q a); simpl; [ | now rewrite select_nil ].
      destruct (p a); now rewrite ?select_nil.
    + destruct (q a) eqn:Q; simpl.
      * destruct (p a); now rewrite IH.
      * destruct (p a) eqn:Pa; [ | apply IH ].
        apply H in Pa. congruence.
Qed.

Section ValidatorRows.

Context {P : Pandas}.

Lemma transaction_balance_with_transaction df tb :
  transaction_balance df = Ok tb ->
  transaction_balance (with_transaction df) = Ok tb.
Proof.
  unfold transaction_balance, with_transaction. intros H.
  rewrite !get_col_loc.
  inv_bind H. rewrite E. simpl. inv_bind H. rewrite E0. simpl.
  inv_bind H. rewrite E1. simpl. inv_bind H. inv_bind H.
  injection H as <-.
  rewrite (mapM_select _ _ _ _ E2). simpl.
  rewrite (mapM_select _ _ _ _ E3). simpl.
  apply get_col_Ok in E. destruct E as [_ ->].
  set (ids := map (cell_of col_transaction) (rows df)).
  assert (M : map (fun r => notna (cell_of col_transaction r)) (rows df)
              = map notna ids) by (unfold ids; now rewrite map_map).
  rewrite M.
  assert (G : group_keys (select (map notna ids) ids) = group_keys ids).
  { unfold group_keys. do 2 f_equal. rewrite select_filter.
    rewrite filter_filter. apply filter_ext. intros c. now destruct (notna c). }
  rewrite G. f_equal. apply map_ext. intros k.
  now rewrite !(select_within (cell_eqb k) notna ids) by apply cell_eqb_notna.
Qed.

End ValidatorRows.

(** ** The summary: the order date and the empty bucket *)

Lemma list_ascii_of_append s t :
  list_ascii_of_string (String.append s t)
  = list_ascii_of_string s ++ list_ascii_of_string t.
Proof. induction s as [| a s IH]; simpl; congruence. Qed.

Lemma lacks_append a s t : lacks a s -> lacks a t -> lacks a (String.append s t).
Proof.
  unfold lacks. rewrite list_ascii_of_append, in_app_iff. tauto.
Qed.

Lemma lacks_zeros n : lacks "-" (zeros n).
Proof.
  unfold lacks. induction n as [| n IH]; simpl; [ tauto | ].
  intros [H | H]; [ discriminate | tauto ].
Qed.

Lemma lacks_digits n : lacks "-" (digits n).
Proof.
  unfold digits.
  assert (K : forall d, lacks "-" (NilEmpty.string_of_uint d)).
  { unfold lacks. induction d; simpl; try tauto;
      intros [H | H]; try discriminate; tauto. }
  destruct (Nat.to_uint n) as [| u | u | u | u | u | u | u | u | u | u];
    unfold NilZero.string_of_uint; try apply K.
  unfold lacks. simpl. intros [H | []]. discriminate.
Qed.

Lemma lacks_pad w n : lacks "-" (pad w (digits n)).
Proof. apply lacks_append; [ apply lacks_zeros | apply lacks_digits ]. Qed.

Lemma split_on_lacks sep s : lacks sep s -> split_on sep s = [s].
Proof.
  unfold lacks, split_on. induction s as [| a s IH]; simpl; [ reflexivity | ].
  intros H. rewrite IH by tauto.
  destruct (Ascii.eqb_spec a sep) as [-> | N]; [ tauto | reflexivity ].
Qed.

Lemma split_on_append sep s t :
  lacks sep s ->
  split_on sep (String.append s (String sep t)) = s :: split_on sep t.
Proof.
  unfold lacks, split_on. induction s as [| a s IH]; simpl.
  - intros _. now rewrite Ascii.eqb_refl.
  - intros H. rewrite IH by tauto.
    destruct (Ascii.eqb_spec a sep) as [-> | N]; [ tauto | reflexivity ].
Qed.

Lemma split_on_strftime_ymd d :
  split_on "-" (strftime_ymd d)
  = [pad 4 (digits (year d)); pad 2 (digits (month d)); pad 2 (digits (day d))].
Proof.
  unfold strftime_ymd.
  change (String.append "-" ?s) with (String "-" s).
  rewrite split_on_append by apply lacks_pad.
  change (String.append "-" (pad 2 (digits (day d))))
    with (String "-" (pad 2 (digits (day d)))).
  rewrite split_on_append by apply lacks_pad.
  now rewrite split_on_lacks by apply lacks_pad.
Qed.

Lemma strftime_ymd_not_empty d : String.eqb (strftime_ymd d) "" = false.
Proof.
  apply eqb_neq_false. intros E.
  apply (f_equal list_ascii_of_string) in E. unfold strftime_ymd in E.
  rewrite list_ascii_of_append in E. apply app_eq_nil in E.
  destruct E as [_ E]. discriminate.
Qed.

(** The order of the texts [YYYY-MM-DD] is the order of the dates. *)

Lemma compare_append (a b s t : string) :
  String.length a = String.length b ->
  String.compare (String.append a s) (String.append b t)
  = match String.compare a b with
    | Eq => String.compare s t
    | c => c
    end.
Proof.
  revert b. induction a as [| x a IH]; intros [| y b] L; simpl in *;
    try discriminate; [ reflexivity | ].
  destruct (Ascii.compare x y); [ | reflexivity | reflexivity ].
  apply IH. now injection L.
Qed.

Lemma string_length_append (s t : string) :
  String.length (String.append s t) = (String.length s + String.length t)%nat.
Proof. induction s as [| a s IH]; simpl; congruence. Qed.

Lemma two_digits a b :
  (a < 100)%nat -> (b < 100)%nat ->
  String.length (pad 2 (digits a)) = 2%nat
  /\ String.compare (pad 2 (digits a)) (pad 2 (digits b)) = Nat.compare a b.
Proof.
  intros Ha Hb.
  assert (K : forallb (fun a =>
                 Nat.eqb (String.length (pad 2 (digits a))) 2
                 && forallb (fun b =>
                      match String.compare (pad 2 (digits a)) (pad 2 (digits b)),
                            Nat.compare a b with
                      | Eq, Eq | Lt, Lt | Gt, Gt => true
                      | _, _ => false
                      end) (seq 0 100)) (seq 0 100) = true)
    by (vm_compute; reflexivity).
  rewrite forallb_forall in K.
  specialize (K a ltac:(apply in_seq; lia)).
  apply andb_prop in K. destruct K as [K1 K2]. apply Nat.eqb_eq in K1.
  split; [ exact K1 | ].
  rewrite forallb_forall in K2. specialize (K2 b ltac:(apply in_seq; lia)).
  destruct (String.compare _ _), (Nat.compare a b); congruence.
Qed.

Lemma four_digits y :
  (y < (100 * 100))%nat ->
  pad 4 (digits y)
  = String.append (pad 2 (digits (y / 100))) (pad 2 (digits (y mod 100))).
Proof.
  intros Hy.
  assert (K : forallb (fun y =>
                 String.eqb (pad 4 (digits y))
                   (String.append (pad 2 (digits (y / 100)))
                                  (pad 2 (digits (y mod 100)))))
                (seq 0 (100 * 100)) = true)
    by (vm_compute; reflexivity).
  rewrite forallb_forall in K.
  specialize (K y ltac:(apply in_seq; lia)). now apply String.eqb_eq in K.
Qed.

Lemma four_digits_compare y z :
  (y < (100 * 100))%nat -> (z < (100 * 100))%nat ->
  String.length (pad 4 (digits y)) = 4%nat
  /\ String.compare (pad 4 (digits y)) (pad 4 (digits z)) = Nat.compare y z.
Proof.
  intros Hy Hz. rewrite !four_digits by assumption.
  assert (Hy1 : (y / 100 < 100)%nat) by (apply Nat.Div0.div_lt_upper_bound; lia).
  assert (Hz1 : (z / 100 < 100)%nat) by (apply Nat.Div0.div_lt_upper_bound; lia).
  assert (Hy2 : (y mod 100 < 100)%nat) by (apply Nat.mod_upper_bound; lia).
  assert (Hz2 : (z mod 100 < 100)%nat) by (apply Nat.mod_upper_bound; lia).
  destruct (two_digits _ _ Hy1 Hz1) as [L1 C1].
  destruct (two_digits _ _ Hy2 Hz2) as [L2 C2].
  destruct (two_digits _ _ Hz1 Hy1) as [L3 _].
  split.
  - rewrite string_length_append. now rewrite L1, L2.
  - rewrite compare_append by congruence. rewrite C1, C2.
    pose proof (Nat.div_mod_eq y 100) as Ey.
    pose proof (Nat.div_mod_eq z 100) as Ez.
    destruct (Nat.compare_spec (y / 100) (z / 100)) as [E | E | E];
      destruct (Nat.compare_spec (y mod 100) (z mod 100)) as [F | F | F];
      symmetry; try (apply Nat.compare_eq_iff; lia);
      try (apply Nat.compare_lt_iff; lia); apply Nat.compare_gt_iff; lia.
Qed.

Lemma strftime_ymd_order d e :
  four_digit_year d = true -> four_digit_year e = true ->
  String.leb (strftime_ymd e) (strftime_ymd d) = negb (date_ltb d e).
Proof.
  unfold four_digit_year. intros Hd He.
  apply andb_prop in Hd. destruct Hd as [Hd Hd3].
  apply andb_prop in Hd. destruct Hd as [Hd1 Hd2].
  apply andb_prop in He. destruct He as [He He3].
  apply andb_prop in He. destruct He as [He1 He2].
  apply Nat.ltb_lt in Hd1, Hd2, Hd3, He1, He2, He3.
  destruct (four_digits_compare _ _ He1 Hd1) as [Ly Cy].
  destruct (four_digits_compare _ _ Hd1 He1) as [Ly' _].
  destruct (two_digits _ _ He2 Hd2) as [Lm Cm].
  destruct (two_digits _ _ Hd2 He2) as [Lm' _].
  destruct (two_digits _ _ He3 Hd3) as [_ Cd].
  unfold String.leb, strftime_ymd.
  rewrite compare_append by congruence. rewrite Cy.
  change (String.append "-" ?s) with (String.append "-" s).
  rewrite (compare_append "-" "-") by reflexivity. cbn [String.compare].
  change (String.compare "-" "-") with Eq. cbv iota.
  rewrite compare_append by congruence. rewrite Cm.
  rewrite (compare_append "-" "-") by reflexivity.
  change (String.compare "-" "-") with Eq. cbv iota. rewrite Cd.
  unfold date_ltb.
  destruct (Nat.compare_spec (year e) (year d)) as [E | E | E].
  - rewrite E, Nat.ltb_irrefl, Nat.eqb_refl. simpl.
    destruct (Nat.compare_spec (month e) (month d)) as [F | F | F].
    + rewrite F, Nat.ltb_irrefl, Nat.eqb_refl. simpl.
      destruct (Nat.compare_spec (day e) (day d)) as [G | G | G].
      * now rewrite G, Nat.ltb_irrefl.
      * apply Nat.lt_asymm in G. apply Nat.ltb_nlt in G. now rewrite G.
      * apply Nat.ltb_lt in G. now rewrite G.
    + assert (N : (month d <? month e)%nat = false) by (apply Nat.ltb_ge; lia).
      assert (N' : Nat.eqb (month d) (month e) = false)
        by (apply Nat.eqb_neq; lia).
      now rewrite N, N'.
    + apply Nat.ltb_lt in F. now rewrite F.
  - assert (N : (year d <? year e)%nat = false) by (apply Nat.ltb_ge; lia).
    assert (N' : Nat.eqb (year d) (year e) = false) by (apply Nat.eqb_neq; lia).
    now rewrite N, N'.
  - apply Nat.ltb_lt in E. now rewrite E.
Qed.

Section SummaryDate.

Context {P : Pandas}.

Lemma command_date_of_formatted_dates df ds :
  (0 < len df)%nat ->
  get_col df col_transaction_date = Ok (map (fun d => Str (strftime_ymd d)) ds) ->
  exists d,
    In d ds
    /\ command_date df = Ok (Str (strftime_dmy d))
    /\ forall d', In d' ds ->
         String.leb (strftime_ymd d') (strftime_ymd d) = true.
Proof.
  intros L G. unfold command_date.
  apply Nat.ltb_lt in L. rewrite L, G. simpl.
  destruct ds as [| d0 ds].
  - apply get_col_length in G. simpl in G. apply Nat.ltb_lt in L. lia.
  - cbn [map python_max].
    rewrite <- (map_map strftime_ymd Str).
    destruct (max_from_strings (strftime_ymd d0) (map strftime_ymd ds))
      as [m [Hm [Hin Hle]]].
    rewrite Hm. simpl.
    assert (Hd : exists d, In d (d0 :: ds) /\ m = strftime_ymd d).
    { destruct Hin as [<- | Hin]; [ exists d0; split; [ now left | reflexivity ] | ].
      apply in_map_iff in Hin. destruct Hin as [d [<- Hd]].
      exists d. split; [ now right | reflexivity ]. }
    destruct Hd as [d [Hd ->]]. exists d. split; [ exact Hd | ].
    rewrite strftime_ymd_not_empty. simpl.
    rewrite split_on_strftime_ymd. split; [ reflexivity | ].
    intros d' Hd'. apply Hle. destruct Hd' as [<- | Hd']; [ now left | ].
    right. now apply in_map.
Qed.

End SummaryDate.

Section LatestDate.

Context {P : Pandas}.

(** X9. The summary turns the dates the normaliser has written around: on a
    bucket whose dates are all formatted as [YYYY-MM-DD], the order date
    of the summary is the latest of these dates, written as day, month
    and year separated by slashes. *)
Theorem command_date_is_latest_date df ds :
  (0 < len df)%nat ->
  get_col df col_transaction_date = Ok (map (fun d => Str (strftime_ymd d)) ds) ->
  Forall (fun d => four_digit_year d = true) ds ->
  exists d,
    In d ds
    /\ (forall d', In d' ds -> date_ltb d d' = false)
    /\ command_date df = Ok (Str (strftime_dmy d)).
Proof.
  intros L G F.
  destruct (command_date_of_formatted_dates df ds L G) as [d [Hd [Hc Hm]]].
  exists d. split; [ exact Hd | ]. split; [ | exact Hc ].
  intros d' Hd'. rewrite Forall_forall in F.
  pose proof (strftime_ymd_order d d' (F d Hd) (F d' Hd')) as O.
  rewrite (Hm d' Hd') in O. now destruct (date_ltb d d').
Qed.

(** X10. A bucket without rows is asked for nothing: the summary of an empty
    [rest] is the header and a grand total of 0 with no date, whatever
    columns the bucket has or lacks. *)
Theorem summary_of_empty_bucket df :
  len df = 0%nat ->
  create_excel_summary df
  = Ok (mkDF summary_columns
          [(0%nat, header_row); (1%nat, total_row (Str "") 0)]).
Proof.
  intros H. unfold create_excel_summary, command_date, revenue_summary,
    total_credit.
  rewrite H. reflexivity.
Qed.

(** X11. A bucket with rows is asked for its four columns: without the date,
    the credit account, the credit or the product name the summary
    builder raises. *)
Theorem summary_needs_its_columns df :
  (0 < len df)%nat ->
  has_col df col_transaction_date && has_col df col_credit_account
  && has_col df col_credit && has_col df col_product_name = false ->
  exists e, create_excel_summary df = Raise e.
Proof.
  intros L C. apply Nat.ltb_lt in L. unfold create_excel_summary.
  destruct (command_date df) as [cd | e] eqn:Ecd; [ | simpl; eauto ].
  assert (Hd : has_col df col_transaction_date = true).
  { unfold command_date, get_col in Ecd. rewrite L in Ecd.
    destruct (has_col df col_transaction_date); [ reflexivity | discriminate ]. }
  rewrite Hd in C. simpl in C. simpl.
  unfold revenue_summary. rewrite L. unfold revenue_data, get_col.
  destruct (has_col df col_credit_account); simpl; [ | eauto ].
  destruct (has_col df col_credit); simpl; [ | eauto ].
  simpl in C.
  destruct (mapM (fun c => py_gt c (Num 0)) (map (cell_of col_credit) (rows df)))
    as [positive | e]; simpl; [ | eauto ].
  change (has_col (loc df ?m)) with (has_col df).
  destruct (has_col df col_credit_account); simpl; [ | eauto ].
  rewrite C. simpl. eauto.
Qed.

End LatestDate.

Lemma command_date_is_latest_date_witness :
  (0 < len excluded_example)%nat
  /\ get_col excluded_example col_transaction_date
     = Ok (map (fun d => Str (strftime_ymd d))
               [mkDate 2025 11 27; mkDate 2025 11 5])
  /\ command_date excluded_example = Ok (Str "27/11/2025")
  /\ exists d,
       In d [mkDate 2025 11 27; mkDate 2025 11 5]
       /\ (forall d', In d' [mkDate 2025 11 27; mkDate 2025 11 5] ->
             date_ltb d d' = false)
       /\ command_date excluded_example
          = Ok (Str (strftime_dmy d)).
Proof.
  split; [ vm_compute; lia | ].
  split; [ vm_compute; reflexivity | ].
  split; [ vm_compute; reflexivity | ].
  apply command_date_is_latest_date;
    [ vm_compute; lia | vm_compute; reflexivity
    | repeat constructor ].
Defined.

Lemma summary_of_empty_bucket_witness :
  len (mkDF [] []) = 0%nat
  /\ create_excel_summary (P := plain) (mkDF [] [])
     = Ok (mkDF summary_columns
             [(0%nat, header_row); (1%nat, total_row (P := plain) (Str "") 0)])
  /\ cell_of col_sum_credit (1%nat, total_row (P := plain) (Str "") 0)
     = Str "0".
Proof.
  split; [ reflexivity | ].
  split; [ | vm_compute; reflexivity ].
  apply (summary_of_empty_bucket (P := plain)). reflexivity.
Defined.

Lemma summary_needs_its_columns_witness :
  (0 < len without_credit)%nat
  /\ has_col without_credit col_transaction_date
     && has_col without_credit col_credit_account
     && has_col without_credit col_credit
     && has_col without_credit col_product_name = false
  /\ exists e, create_excel_summary (P := plain) without_credit = Raise e.
Proof.
  split; [ vm_compute; lia | ].
  split; [ vm_compute; reflexivity | ].
  apply (summary_needs_its_columns (P := plain));
    [ vm_compute; lia | vm_compute; reflexivity ].
Defined.

Section LatestOrderDate.

Context {P : Pandas}.

Lemma number_and_date_latest df df' ds :
  formatted df ->
  number_and_date df = Ok df' ->
  (0 < len df')%nat ->
  get_col df' col_transaction_date
  = Ok (map (fun d => Str (strftime_ymd d)) ds) ->
  Forall (fun d => four_digit_year d = true) ds ->
  exists d,
    In d ds
    /\ (forall d', In d' ds -> date_ltb d d' = false)
    /\ Forall (fun r => cell_of col_order_date r = Str (strftime_ymd d))
              (rows df').
Proof.
  intros Hf H L G F.
  destruct (number_and_date_spec df Hf) as [Sp _].
  destruct (Sp df' H) as [Spec _].
  pose proof (get_col_Ok _ _ _ G) as [Hc _].
  destruct (Spec L Hc) as [_ [dates [v [Gd [Fv [_ Hmax]]]]]].
  assert (Ed : dates = map (fun d => Str (strftime_ymd d)) ds) by congruence.
  subst dates.
  destruct Hmax as [m [-> [Hin Hle]]].
  { apply forallb_forall. intros c Hi. apply in_map_iff in Hi.
    now destruct Hi as [d [<- _]]. }
  apply in_map_iff in Hin. destruct Hin as [d [[= <-] Hd]].
  exists d. split; [ exact Hd | ]. split; [ | exact Fv ].
  intros d' Hd'. rewrite Forall_forall in F.
  pose proof (strftime_ymd_order d d' (F d Hd) (F d' Hd')) as O.
  rewrite Hle in O; [ now destruct (date_ltb d d') | ].
  apply (in_map (fun d => Str (strftime_ymd d))). exact Hd'.
Qed.

(** X8. In every sheet the order date is the latest transaction date of that
    sheet: a bucket that has rows and whose dates the normaliser has all
    written as [YYYY-MM-DD] carries, in the order-date cell of every row,
    the latest of these dates. *)
Theorem order_date_is_latest_date b b' :
  prepare_columns b = Ok b' ->
  let latest (df : DataFrame) :=
    forall ds,
      (0 < len df)%nat ->
      get_col df col_transaction_date
      = Ok (map (fun d => Str (strftime_ymd d)) ds) ->
      Forall (fun d => four_digit_year d = true) ds ->
      exists d,
        In d ds
        /\ (forall d', In d' ds -> date_ltb d d' = false)
        /\ Forall (fun r => cell_of col_order_date r = Str (strftime_ymd d))
                  (rows df) in
  latest (without_advertisement b')
  /\ latest (advertisment b')
  /\ latest (rest b').
Proof.
  intros H latest. destruct (prepare_columns_Ok _ _ H) as [Hw [Ha Hr]].
  assert (Fw : formatted (without_advertisement (align_columns b)))
    by apply formatted_format_dates.
  assert (Fa : formatted (advertisment (align_columns b)))
    by (apply formatted_reindex, formatted_format_dates).
  assert (Fr : formatted (rest (align_columns b)))
    by (apply formatted_reindex, formatted_format_dates).
  unfold latest. split; [ | split ]; intros ds L G F.
  - exact (number_and_date_latest _ _ ds Fw Hw L G F).
  - exact (number_and_date_latest _ _ ds Fa Ha L G F).
  - exact (number_and_date_latest _ _ ds Fr Hr L G F).
Qed.

End LatestOrderDate.

Lemma order_date_is_latest_date_witness :
  prepare_columns (P := plain) scenario_buckets = Ok scenario_prepared
  /\ (0 < len (advertisment scenario_prepared))%nat
  /\ get_col (advertisment scenario_prepared) col_transaction_date
     = Ok (map (fun d => Str (strftime_ymd d))
               [mkDate 2025 11 3; mkDate 2025 11 3])
  /\ exists d,
       In d [mkDate 2025 11 3; mkDate 2025 11 3]
       /\ (forall d', In d' [mkDate 2025 11 3; mkDate 2025 11 3] ->
             date_ltb d d' = false)
       /\ Forall (fun r => cell_of col_order_date r = Str (strftime_ymd d))
                 (rows (advertisment scenario_prepared)).
Proof.
  assert (H : prepare_columns (P := plain) scenario_buckets
              = Ok scenario_prepared) by (vm_compute; reflexivity).
  split; [ exact H | ]. split; [ vm_compute; lia | ].
  split; [ vm_compute; reflexivity | ].
  destruct (order_date_is_latest_date (P := plain) _ _ H) as [_ [A _]].
  apply A; [ vm_compute; lia | vm_compute; reflexivity | repeat constructor ].
Defined.

(** ** The float that is 79991 *)

Lemma digits2_pos_bounds m :
  (2 ^ (Z.pos (digits2_pos m) - 1) <= Z.pos m < 2 ^ Z.pos (digits2_pos m))%Z.
Proof.
  induction m as [m IH | m IH |]; cbn [digits2_pos].
  - rewrite Pos2Z.inj_succ.
    replace (Z.succ (Z.pos (digits2_pos m)) - 1)%Z
      with (Z.succ (Z.pos (digits2_pos m) - 1))%Z by lia.
    rewrite !Z.pow_succ_r by lia. lia.
  - rewrite Pos2Z.inj_succ.
    replace (Z.succ (Z.pos (digits2_pos m)) - 1)%Z
      with (Z.succ (Z.pos (digits2_pos m) - 1))%Z by lia.
    rewrite !Z.pow_succ_r by lia. lia.
  - split; [ apply Z.leb_le | apply Z.ltb_lt ]; reflexivity.
Qed.

Lemma Some_inj {A : Type} (a b : A) : Some a = Some b -> a = b.
Proof. congruence. Qed.

(** The one binary64 value that denotes the integer 79991. *)
Lemma float_to_Z_79991 x :
  float_to_Z x = Some 79991%Z <-> (x =? 79991)%float = true.
Proof.
  rewrite FloatAxioms.eqb_spec. unfold float_to_Z.
  change (Prim2SF 79991) with (S754_finite false 5496939663589376 (-36)).
  pose proof (Prim2SF_valid x) as V.
  destruct (Prim2SF x) as [s | s | | s m e]; try (split; discriminate).
  - split; [ discriminate | ]. destruct s; discriminate.
  - split.
    + intros H.
      assert (E : m = 5496939663589376%positive /\ e = (-36)%Z /\ s = false).
      { simpl in V. unfold bounded, canonical_mantissa, fexp in V.
        apply andb_prop in V. destruct V as [V _]. apply Z.eqb_eq in V.
        change (SpecFloat.emin prec emax) with (-1074)%Z in V.
        change prec with 53%Z in V.
        pose proof (digits2_pos_bounds m) as [D1 D2].
        remember (Z.pos (digits2_pos m)) as d eqn:Hdd.
        assert (Hd : (0 < d)%Z) by lia.
        destruct (0 <=? e)%Z eqn:He.
        - apply Z.leb_le in He. exfalso.
          assert (E53 : d = 53%Z) by lia. rewrite E53 in D1.
          change (2 ^ (53 - 1))%Z with 4503599627370496%Z in D1.
          assert (1 <= 2 ^ e)%Z by (apply Z.pow_le_mono_r with (a := 2%Z) (b := 0%Z); lia).
          assert (Z.pos m <= Z.pos m * 2 ^ e)%Z by nia.
          destruct s; unfold signed in H; apply Some_inj in H; lia.
        - apply Z.leb_gt in He.
          destruct (Z.pos m mod 2 ^ (- e) =? 0)%Z eqn:Hm; [ | discriminate ].
          apply Z.eqb_eq in Hm.
          assert (P2 : (0 < 2 ^ (- e))%Z) by (apply Z.pow_pos_nonneg; lia).
          pose proof (Z.div_mod (Z.pos m) (2 ^ (- e)) ltac:(lia)) as Dm.
          destruct s; unfold signed in H; apply Some_inj in H.
          { assert (0 <= Z.pos m / 2 ^ (- e))%Z by (apply Z.div_pos; lia). lia. }
          rewrite H, Hm in Dm.
          assert (Em : Z.pos m = (79991 * 2 ^ (- e))%Z) by lia.
          assert (B1 : (2 ^ (16 + - e) <= Z.pos m)%Z).
          { rewrite Z.pow_add_r by lia. change (2 ^ 16)%Z with 65536%Z. nia. }
          assert (B2 : (Z.pos m < 2 ^ (17 + - e))%Z).
          { rewrite Z.pow_add_r by lia. change (2 ^ 17)%Z with 131072%Z. nia. }
          assert (L1 : (d - 1 < 17 + - e)%Z).
          { apply (Z.pow_lt_mono_r_iff 2); lia. }
          assert (L2 : (16 + - e < d)%Z).
          { apply (Z.pow_lt_mono_r_iff 2); lia. }
          assert (Ed : d = (17 + - e)%Z) by lia.
          assert (Ee : e = (-36)%Z) by lia.
          subst e. split; [ | split; reflexivity ].
          change (2 ^ (- -36))%Z with 68719476736%Z in Em. lia. }
      destruct E as (-> & -> & ->). reflexivity.
    + intros H. apply SFeqb_true in H. destruct H as [(s1 & s2 & H & _) | H];
        [ discriminate | ].
      injection H as -> -> ->. reflexivity.
Qed.

Lemma astype_Int64_79991 x :
  astype_Int64 x = Ok (Some 79991%Z) <-> (x =? 79991)%float = true.
Proof.
  rewrite <- float_to_Z_79991. unfold astype_Int64. split.
  - destruct (is_nan x); [ discriminate | ].
    destruct (float_to_Z x) as [z |]; [ | discriminate ].
    destruct ((- 2 ^ 63 <=? z) && (z <? 2 ^ 63))%Z; [ | discriminate ].
    congruence.
  - intros H.
    assert (N : is_nan x = false).
    { destruct (is_nan x) eqn:N; [ | reflexivity ].
      apply is_nan_Prim2SF in N. unfold float_to_Z in H. rewrite N in H.
      discriminate. }
    rewrite N, H. reflexivity.
Qed.

(** ** The segmenter against the words of the specification *)

Lemma string_of_Z_not_NA z : string_of_Z z <> "<NA>".
Proof.
  unfold string_of_Z. intros H.
  assert (Hn : Z.to_int z <> Decimal.Pos Decimal.Nil
               /\ Z.to_int z <> Decimal.Neg Decimal.Nil).
  { destruct z as [| p | p]; simpl; split; try discriminate;
      intros Hp; inversion Hp as [Hq];
      exact (DecimalPos.Unsigned.to_uint_nonnil p Hq). }
  pose proof (NilZero.isi (Z.to_int z) (proj1 Hn) (proj2 Hn)) as E.
  rewrite H in E. discriminate.
Qed.

Section SegmenterWords.

Context {P : Pandas}.

Lemma reads_as_Some c x :
  reads_as c = Some x -> to_numeric c = x /\ is_nan x = false.
Proof.
  unfold reads_as, to_numeric.
  destruct c as [| y | s | d]; try discriminate.
  - destruct (is_nan y) eqn:N; [ discriminate | ]. intros [= <-]. now split.
  - destruct (parse_numeric (Str s)) as [y |]; [ | discriminate ].
    destruct (is_nan y) eqn:N; [ discriminate | ]. intros [= <-]. now split.
  - destruct (parse_numeric (Ts d)) as [y |]; [ | discriminate ].
    destruct (is_nan y) eqn:N; [ discriminate | ]. intros [= <-]. now split.
Qed.

Lemma reads_as_None c : reads_as c = None <-> is_nan (to_numeric c) = true.
Proof.
  unfold reads_as, to_numeric.
  destruct c as [| y | s | d].
  - split; reflexivity.
  - destruct (is_nan y); split; congruence.
  - destruct (parse_numeric (Str s)) as [y |]; [ | split; reflexivity ].
    destruct (is_nan y); split; congruence.
  - destruct (parse_numeric (Ts d)) as [y |]; [ | split; reflexivity ].
    destruct (is_nan y); split; congruence.
Qed.

Lemma reads_as_to_numeric c :
  reads_as c = if is_nan (to_numeric c) then None else Some (to_numeric c).
Proof.
  destruct (reads_as c) as [x |] eqn:E.
  - apply reads_as_Some in E. destruct E as [<- N]. now rewrite N.
  - apply reads_as_None in E. now rewrite E.
Qed.

Lemma code_missing_to_numeric c : code_missing c = is_nan (to_numeric c).
Proof.
  unfold code_missing. rewrite reads_as_to_numeric.
  now destruct (is_nan (to_numeric c)).
Qed.

Lemma code_is_4118_to_numeric c :
  code_is_4118 c = (to_numeric c =? 4118)%float.
Proof.
  unfold code_is_4118. rewrite reads_as_to_numeric.
  destruct (is_nan (to_numeric c)) eqn:N; [ | reflexivity ].
  rewrite FloatAxioms.eqb_spec. apply is_nan_Prim2SF in N. now rewrite N.
Qed.

(** The key of a row, from the reference it inherits. *)
Lemma key_string_words v k :
  key_string v = Ok k ->
  (k = "79991"
   <-> exists c x, v = Some c /\ reads_as c = Some x
                   /\ (x =? 79991)%float = true)
  /\ (k = "<NA>" <-> forall c, v = Some c -> reads_as c = None)
  /\ (forall c x, v = Some c -> reads_as c = Some x ->
        exists z, float_to_Z x = Some z
                  /\ k = NilZero.string_of_int (Z.to_int z)).
Proof.
  unfold key_string. destruct v as [c |].
  - intros H. inv_bind H. injection H as <-. rename a into zo.
    rewrite astype_str_79991.
    pose proof (reads_as_to_numeric c) as R.
    split; [ | split ].
    + split.
      * intros ->. apply astype_Int64_79991 in E.
        exists c, (to_numeric c). split; [ reflexivity | ].
        split; [ | exact E ]. rewrite R.
        destruct (is_nan (to_numeric c)) eqn:N; [ | reflexivity ].
        rewrite FloatAxioms.eqb_spec in E. apply is_nan_Prim2SF in N.
        rewrite N in E. discriminate.
      * intros (c' & x & [= <-] & Hx & Hv). apply reads_as_Some in Hx.
        destruct Hx as [<- _]. apply astype_Int64_79991 in Hv. congruence.
    + split.
      * intros Hk c' [= <-]. apply reads_as_None.
        destruct zo as [z |]; [ now apply string_of_Z_not_NA in Hk | ].
        unfold astype_Int64 in E.
        destruct (is_nan (to_numeric c)); [ reflexivity | ].
        destruct (float_to_Z (to_numeric c)) as [z |]; [ | discriminate ].
        destruct ((- 2 ^ 63 <=? z) && (z <? 2 ^ 63))%Z; discriminate.
      * intros Hn. specialize (Hn c eq_refl). apply reads_as_None in Hn.
        rewrite (astype_Int64_nan _ Hn) in E. now injection E as <-.
    + intros c' x [= <-] Hx. apply reads_as_Some in Hx. destruct Hx as [<- N].
      unfold astype_Int64 in E. rewrite N in E.
      destruct (float_to_Z (to_numeric c)) as [z |]; [ | discriminate ].
      destruct ((- 2 ^ 63 <=? z) && (z <? 2 ^ 63))%Z; [ | discriminate ].
      injection E as <-. exists z. now split.
  - intros [= <-]. split; [ | split ].
    + split; [ discriminate | ]. intros (c & x & Hc & _). discriminate.
    + split; [ discriminate | reflexivity ].
    + discriminate.
Qed.

(** C4. The grouping key of the segmenter: in the reference column the
    empty string and the text "nan" count as missing; every row takes the
    nearest reference at or before it that is not missing; its key is
    "<NA>" when there is none or when it does not read as a number, and
    the decimal numeral of the integer it reads as otherwise, which is
    "79991" exactly when it reads as the number 79991; the rows whose key
    is "79991" are the candidates, which the two advertisement buckets
    share, and all the others are the bucket [rest]. *)
Theorem grouping_key_forward_fill df raw b :
  get_col df "InstallmentPaymentExtRef" = Ok raw ->
  split_data df = Ok b ->
  exists key,
    block_key df = Ok key
    /\ List.length key = len df
    /\ (forall i c0, nth_error raw i = Some c0 ->
        exists k,
          nth_error key i = Some k
          /\ (k = "79991" <-> is_candidate raw i)
          /\ (k = "<NA>"
              <-> forall c, nearest_preceding raw i = Some c ->
                            reads_as c = None)
          /\ (forall c x,
                nearest_preceding raw i = Some c -> reads_as c = Some x ->
                exists z, float_to_Z x = Some z
                          /\ k = NilZero.string_of_int (Z.to_int z)))
    /\ rest b = loc df (map (fun k => negb (String.eqb k "79991")) key)
    /\ Permutation
         (index (without_advertisement b) ++ index (advertisment b))
         (select (map (fun k => String.eqb k "79991") key) (index df)).
Proof.
  intros Hraw H.
  destruct (split_data_Ok _ _ H) as (key & only & code & Hk & Ho & Ha & Hw & Hr).
  exists key. split; [ exact Hk | ]. split; [ now apply block_key_length | ].
  split; [ | split; [ exact Hr | ] ].
  - intros i c0 Hi.
    destruct (block_key_nth df raw key i c0 Hraw Hk Hi) as (k & Hn & Hs).
    exists k. split; [ exact Hn | ]. now apply key_string_words.
  - destruct (only_79991_Ok _ _ _ _ Ho) as (_ & _ & Hi & Hl).
    rewrite Ha, Hw, !index_loc, <- Hi.
    eapply Permutation_trans; [ apply Permutation_app_comm | ].
    apply select_partition.
    now rewrite seg_has_4118_length, len_index.
Qed.

Lemma one_segment_same codes i j :
  one_segment codes i j <-> same_segment (map to_numeric codes) i j.
Proof.
  unfold one_segment, same_segment.
  split; intros H k Hk; specialize (H k Hk).
  - change nan with (to_numeric NA). rewrite map_nth.
    now rewrite <- code_missing_to_numeric.
  - change nan with (to_numeric NA) in H. rewrite map_nth in H.
    now rewrite code_missing_to_numeric.
Qed.

Lemma in_marked_segment_nth codes i :
  (i < List.length codes)%nat ->
  nth i (seg_has_4118 (map to_numeric codes)) false = true
  <-> in_marked_segment codes i.
Proof.
  intros Hi. rewrite seg_has_4118_nth by now rewrite length_map.
  unfold in_marked_segment. rewrite length_map.
  split; intros (j & Hj & Hs & Hv); exists j; (split; [ exact Hj | ]).
  - split; [ now apply one_segment_same | ].
    rewrite code_is_4118_to_numeric.
    change nan with (to_numeric NA) in Hv. now rewrite map_nth in Hv.
  - split; [ now apply one_segment_same | ].
    rewrite code_is_4118_to_numeric in Hv.
    change nan with (to_numeric NA). now rewrite map_nth.
Qed.

(** C2. Among the rows of the input, the candidates are those that
    inherit a reference reading as 79991. Taken in input order, with the
    product references they came with, a candidate is marked exactly when
    some row of its segment, itself or another, has the code 4118, the
    segments being cut in front of every candidate whose code is missing.
    The advertisement bucket holds the marked candidates and the bucket
    without advertisement the others, under their labels and, outside the
    product reference, with their cells. *)
Theorem segment_marking df raw b :
  get_col df "InstallmentPaymentExtRef" = Ok raw ->
  split_data df = Ok b ->
  exists candidate marked : list bool,
    List.length candidate = len df
    /\ (forall i, (i < len df)%nat ->
          nth i candidate false = true <-> is_candidate raw i)
    /\ let cand := select candidate (rows df) in
       let codes := map (cell_of "InstallmentProductExtRef") cand in
       List.length marked = List.length cand
       /\ (forall i, (i < List.length cand)%nat ->
             nth i marked false = true <-> in_marked_segment codes i)
       /\ index (advertisment b) = select marked (map fst cand)
       /\ index (without_advertisement b)
          = select (map negb marked) (map fst cand)
       /\ (forall c, c <> "InstallmentProductExtRef" ->
             map (cell_of c) (rows (advertisment b))
             = select marked (map (cell_of c) cand)
             /\ map (cell_of c) (rows (without_advertisement b))
                = select (map negb marked) (map (cell_of c) cand)).
Proof.
  intros Hraw H.
  destruct (split_data_Ok _ _ H) as (key & only & code & Hk & Ho & Ha & Hw & Hr).
  destruct (only_79991_Ok _ _ _ _ Ho) as (Hc & _ & _ & _).
  destruct (only_79991_rows _ _ _ _ Ho) as (_ & Hrows).
  pose proof (block_key_length _ _ Hk) as Hkl.
  set (mask := map (fun k => String.eqb k "79991") key) in *.
  set (cand := select mask (rows df)) in *.
  assert (Ec : code = map to_numeric
                          (map (cell_of "InstallmentProductExtRef") cand))
    by (now rewrite map_map).
  exists mask, (seg_has_4118 code).
  split; [ unfold mask; now rewrite length_map | ].
  split.
  { intros i Hi.
    pose proof (get_col_length _ _ _ Hraw) as Lr.
    destruct (nth_error raw i) as [c0 |] eqn:Hi0;
      [ | apply nth_error_None in Hi0; lia ].
    destruct (block_key_nth df raw key i c0 Hraw Hk Hi0) as (k & Hn & Hs).
    apply key_string_words in Hs. destruct Hs as [Hs _].
    unfold mask.
    rewrite (nth_error_nth _ _ _
               (map_nth_error (fun k => String.eqb k "79991") _ _ Hn)).
    rewrite String.eqb_eq. exact Hs. }
  cbv zeta.
  split; [ rewrite seg_has_4118_length, Hc; now rewrite length_map | ].
  split.
  { intros i Hi. rewrite Ec. apply in_marked_segment_nth.
    now rewrite length_map. }
  assert (Ei : map fst (rows only) = map fst cand).
  { rewrite Hrows, map_map. reflexivity. }
  assert (Eo : forall c, c <> "InstallmentProductExtRef" ->
                 map (cell_of c) (rows only) = map (cell_of c) cand).
  { intros c Hne. rewrite Hrows, map_map. apply map_ext.
    intros r. unfold cell_of. simpl. apply get_put_other. congruence. }
  rewrite Ha, Hw. unfold index, loc. cbn [rows].
  split; [ now rewrite (select_map fst _ (rows only)), Ei | ].
  split; [ now rewrite (select_map fst _ (rows only)), Ei | ].
  intros c Hne.
  now rewrite !(select_map (cell_of c) _ (rows only)), (Eo c Hne).
Qed.

End SegmenterWords.

Lemma grouping_key_forward_fill_witness :
  get_col scenario "InstallmentPaymentExtRef" = Ok scenario_raw
  /\ split_data (P := plain) scenario = Ok scenario_buckets
  /\ block_key (P := plain) scenario
     = Ok ["79991"; "79991"; "79991"; "10001"; "10001"]
  /\ index (rest scenario_buckets) = [3%nat; 4%nat]
  /\ exists key,
       block_key (P := plain) scenario = Ok key
       /\ List.length key = len scenario
       /\ (forall i c0, nth_error scenario_raw i = Some c0 ->
           exists k,
             nth_error key i = Some k
             /\ (k = "79991" <-> is_candidate (P := plain) scenario_raw i)
             /\ (k = "<NA>"
                 <-> forall c, nearest_preceding scenario_raw i = Some c ->
                               reads_as (P := plain) c = None)
             /\ (forall c x,
                   nearest_preceding scenario_raw i = Some c ->
                   reads_as (P := plain) c = Some x ->
                   exists z, float_to_Z x = Some z
                             /\ k = NilZero.string_of_int (Z.to_int z)))
       /\ rest scenario_buckets
          = loc scenario (map (fun k => negb (String.eqb k "79991")) key)
       /\ Permutation
            (index (without_advertisement scenario_buckets)
             ++ index (advertisment scenario_buckets))
            (select (map (fun k => String.eqb k "79991") key) (index scenario)).
Proof.
  split; [ reflexivity | ]. split; [ vm_compute; reflexivity | ].
  split; [ vm_compute; reflexivity | ]. split; [ vm_compute; reflexivity | ].
  apply (grouping_key_forward_fill (P := plain) scenario scenario_raw
           scenario_buckets); [ reflexivity | vm_compute; reflexivity ].
Defined.

Lemma segment_marking_witness :
  get_col scenario "InstallmentPaymentExtRef" = Ok scenario_raw
  /\ split_data (P := plain) scenario = Ok scenario_buckets
  /\ index (advertisment scenario_buckets) = [0%nat; 1%nat]
  /\ index (without_advertisement scenario_buckets) = [2%nat]
  /\ map (cell_of "InstallmentProducts") (rows (advertisment scenario_buckets))
     = [Str "Ticket"; Str "Ad"]
  /\ exists candidate marked : list bool,
       List.length candidate = len scenario
       /\ (forall i, (i < len scenario)%nat ->
             nth i candidate false = true
             <-> is_candidate (P := plain) scenario_raw i)
       /\ let cand := select candidate (rows scenario) in
          let codes := map (cell_of "InstallmentProductExtRef") cand in
          List.length marked = List.length cand
          /\ (forall i, (i < List.length cand)%nat ->
                nth i marked false = true
                <-> in_marked_segment (P := plain) codes i)
          /\ index (advertisment scenario_buckets)
             = select marked (map fst cand)
          /\ index (without_advertisement scenario_buckets)
             = select (map negb marked) (map fst cand)
          /\ (forall c, c <> "InstallmentProductExtRef" ->
                map (cell_of c) (rows (advertisment scenario_buckets))
                = select marked (map (cell_of c) cand)
                /\ map (cell_of c)
                       (rows (without_advertisement scenario_buckets))
                   = select (map negb marked) (map (cell_of c) cand)).
Proof.
  split; [ reflexivity | ]. split; [ vm_compute; reflexivity | ].
  split; [ vm_compute; reflexivity | ]. split; [ vm_compute; reflexivity | ].
  split; [ vm_compute; reflexivity | ].
  apply (segment_marking (P := plain) scenario scenario_raw
           scenario_buckets); [ reflexivity | vm_compute; reflexivity ].
Defined.

(** ** The validator against the words of the specification *)

Lemma float_eqb_sym x y : (x =? y)%float = (y =? x)%float.
Proof.
  rewrite !FloatAxioms.eqb_spec. unfold SFeqb.
  rewrite (SFcompare_antisym (Prim2SF x) (Prim2SF y)).
  destruct (SFcompare (Prim2SF x) (Prim2SF y)) as [[] |]; reflexivity.
Qed.

Lemma cell_eqb_sym a b : cell_eqb a b = cell_eqb b a.
Proof.
  destruct a as [| x | s | d], b as [| y | t | e]; simpl; try reflexivity.
  - apply float_eqb_sym.
  - apply String.eqb_sym.
  - now rewrite (Nat.eqb_sym (year d)), (Nat.eqb_sym (month d)),
      (Nat.eqb_sym (day d)).
Qed.

Section Distinct.

Context {A : Type} (leb eqb : A -> A -> bool).
Hypothesis eqb_sym : forall a b, eqb a b = eqb b a.

Let R (a b : A) : Prop := eqb a b = false.

Lemma distinct_snoc acc a :
  ForallOrdPairs R acc -> existsb (eqb a) acc = false ->
  ForallOrdPairs R (acc ++ [a]).
Proof.
  induction 1 as [| b acc Hb F IH]; simpl; intros E.
  - repeat constructor.
  - apply orb_false_iff in E as [E1 E2]. constructor; [ | now apply IH ].
    apply Forall_app. split; [ exact Hb | ].
    constructor; [ | constructor ]. unfold R. now rewrite eqb_sym.
Qed.

Lemma distinct_unique_from l acc :
  ForallOrdPairs R acc ->
  ForallOrdPairs R
    (fold_left (fun acc a => if existsb (eqb a) acc then acc else acc ++ [a])
               l acc).
Proof.
  revert acc. induction l as [| a l IH]; intros acc F; simpl; [ exact F | ].
  apply IH. destruct (existsb (eqb a) acc) eqn:E; [ exact F | ].
  now apply distinct_snoc.
Qed.

Lemma distinct_insert_sorted a l :
  Forall (R a) l -> ForallOrdPairs R l ->
  ForallOrdPairs R (insert_sorted leb a l).
Proof.
  intros Ha F. induction F as [| b l Hb F IH]; simpl.
  - repeat constructor.
  - inversion Ha as [| ? ? Hab Ha']; subst.
    destruct (leb a b).
    + constructor; [ now constructor | now constructor ].
    + constructor; [ | now apply IH ].
      apply Forall_forall. intros x Hx. apply insert_sorted_In in Hx.
      destruct Hx as [-> | Hx].
      * unfold R. now rewrite eqb_sym.
      * rewrite Forall_forall in Hb. now apply Hb.
Qed.

Lemma distinct_sort l :
  ForallOrdPairs R l -> ForallOrdPairs R (sort leb l).
Proof.
  induction 1 as [| a l Ha F IH]; simpl; [ constructor | ].
  apply distinct_insert_sorted; [ | exact IH ].
  apply Forall_forall. intros x Hx. apply sort_In in Hx.
  rewrite Forall_forall in Ha. now apply Ha.
Qed.

End Distinct.

Lemma group_keys_distinct ids : distinct_keys (group_keys ids).
Proof.
  unfold distinct_keys, group_keys, unique.
  apply distinct_sort; [ exact cell_eqb_sym | ].
  apply distinct_unique_from; [ exact cell_eqb_sym | constructor ].
Qed.

Lemma mapM_In {A B : Type} (f : A -> result B) (l : list A) (m : list B) a :
  mapM f l = Ok m -> In a l -> exists b, In b m /\ f a = Ok b.
Proof.
  intros H Hin. apply mapM_Forall2 in H.
  exact (Forall2_In_l _ _ _ _ H Hin).
Qed.

Lemma mapM_map_fst {A B C : Type} (g : A -> C) (f : A -> result B)
  (l : list A) (m : list (C * B)) :
  mapM (fun a => v <- f a ;; Ok (g a, v)) l = Ok m -> map fst m = map g l.
Proof.
  revert m. induction l as [| a l IH]; simpl; intros m H.
  - now injection H as <-.
  - inv_bind H. inv_bind E. injection E as <-. inv_bind H. injection H as <-.
    simpl. f_equal. now apply IH.
Qed.

Section ValidatorWords.

Context {P : Pandas}.

(** C3. In the validator, the rows of a bucket are grouped by transaction
    id: every id that is not missing has its group, the groups have
    different ids, each an id of the bucket, and debit and credit are
    summed over the group. A transaction is balanced exactly when the
    absolute value of summed debit minus summed credit is at most 0.01,
    in binary64 arithmetic, and unbalanced exactly when that value
    exceeds 0.01; it is never both, and it is one of the two unless the
    difference is not a number. With debit 100.00 and credit 99.995 it is
    balanced; with debit 100.00 and credit 99.98 it is unbalanced. The
    entry of the bucket in the validation counts the unbalanced
    transactions, and it is the entry that [get_balance_validation]
    returns under the name of the bucket when the bucket has rows. *)
Theorem balance_tolerance df tb :
  transaction_balance df = Ok tb ->
  exists ids debit credit v,
    get_col df col_transaction = Ok ids
    /\ (cells <- get_col df col_debit ;; mapM as_float cells) = Ok debit
    /\ (cells <- get_col df col_credit ;; mapM as_float cells) = Ok credit
    /\ (forall id, In id ids -> notna id = true ->
          exists t, In t tb /\ cell_eqb id (tb_transaction t) = true)
    /\ distinct_keys (map tb_transaction tb)
    /\ (forall t, In t tb ->
          let members := map (cell_eqb (tb_transaction t)) ids in
          In (tb_transaction t) ids
          /\ notna (tb_transaction t) = true
          /\ tb_debit t = group_sum (select members debit)
          /\ tb_credit t = group_sum (select members credit)
          /\ tb_difference t = (tb_debit t - tb_credit t)%float
          /\ (In t (balanced_transactions tb)
              <-> within_tolerance (tb_debit t) (tb_credit t) = true)
          /\ (In t (unbalanced_transactions tb)
              <-> beyond_tolerance (tb_debit t) (tb_credit t) = true)
          /\ ~ (In t (balanced_transactions tb)
                /\ In t (unbalanced_transactions tb))
          /\ (is_nan (tb_difference t) = false ->
              In t (balanced_transactions tb)
              \/ In t (unbalanced_transactions tb))
          /\ (tb_debit t = 100%float -> tb_credit t = 99.995%float ->
              In t (balanced_transactions tb)
              /\ ~ In t (unbalanced_transactions tb))
          /\ (tb_debit t = 100%float -> tb_credit t = 99.98%float ->
              ~ In t (balanced_transactions tb)
              /\ In t (unbalanced_transactions tb)))
    /\ validate_sheet df = Ok v
    /\ v_unbalanced_transactions v
       = Some (List.length
                 (filter (fun t => beyond_tolerance (tb_debit t) (tb_credit t))
                         tb))
    /\ v_total_debit v = series_sum (map tb_debit tb)
    /\ v_total_credit v = series_sum (map tb_credit tb)
    /\ v_difference v = (v_total_debit v - v_total_credit v)%float
    /\ v_balanced v = within_tolerance (v_total_debit v) (v_total_credit v)
    /\ (forall b res name,
          get_balance_validation b = Ok res ->
          In (name, df) (sheets b) -> (0 < len df)%nat ->
          In (rename_col hebrew_names name, v) res).
Proof.
  intros H0. pose proof H0 as H. unfold transaction_balance in H.
  inv_bind H. inv_bind H. inv_bind H. inv_bind H. inv_bind H.
  injection H as Etb.
  rename a into ids, a2 into debit, a3 into credit.
  pose proof (transaction_balance_keys df tb H0) as Hkeys.
  assert (Ei : ids = map (cell_of col_transaction) (rows df))
    by (now apply get_col_Ok in E).
  rewrite <- Ei in Hkeys.
  assert (C : has_col df col_transaction && has_col df col_debit
              && has_col df col_credit = true).
  { apply get_col_Ok in E, E0, E1.
    destruct E as [-> _], E0 as [-> _], E1 as [-> _]. reflexivity. }
  assert (V : validate_sheet df
              = Ok (mkValidation
                      (series_sum (map tb_debit tb))
                      (series_sum (map tb_credit tb))
                      (series_sum (map tb_debit tb)
                       - series_sum (map tb_credit tb))%float
                      (PrimFloat.abs
                         (series_sum (map tb_debit tb)
                          - series_sum (map tb_credit tb)) <=? 0.01)%float
                      (Some (List.length (unbalanced_transactions tb))))).
  { unfold validate_sheet. rewrite C, H0. reflexivity. }
  exists ids, debit, credit. eexists.
  split; [ exact E | ]. split; [ now rewrite E0 | ].
  split; [ now rewrite E1 | ].
  destruct (group_keys_spec ids) as [Hin Hcov].
  split.
  { intros id Hi Hn. destruct (Hcov id Hi Hn) as (k & Hk & He).
    rewrite <- Hkeys in Hk. apply in_map_iff in Hk.
    destruct Hk as (t & Et & Ht). exists t. rewrite Et. now split. }
  split; [ rewrite Hkeys; apply group_keys_distinct | ].
  split.
  { intros t Ht.
    assert (Hk : In (tb_transaction t) (group_keys ids))
      by (rewrite <- Hkeys; now apply in_map).
    destruct (Hin _ Hk) as [Hki Hkn].
    cbv zeta. split; [ exact Hki | ]. split; [ exact Hkn | ].
    pose proof Ht as Ht'. rewrite <- Etb in Ht'.
    apply in_map_iff in Ht' as (k & Ek & _).
    unfold balanced_transactions, unbalanced_transactions.
    rewrite !filter_In. unfold is_balanced, is_unbalanced.
    unfold within_tolerance, beyond_tolerance.
    rewrite <- Ek. cbn [tb_transaction tb_debit tb_credit tb_difference].
    rewrite Ek.
    set (d := group_sum (select (map (cell_eqb k) ids) debit)) in *.
    set (c := group_sum (select (map (cell_eqb k) ids) credit)) in *.
    split; [ reflexivity | ]. split; [ reflexivity | ].
    split; [ reflexivity | ].
    split; [ tauto | ]. split; [ tauto | ].
    split.
    { intros [[_ Hb] [_ Hu]]. apply float_ltb_leb in Hu. congruence. }
    split.
    { intros Hn.
      destruct (float_leb_or_ltb (PrimFloat.abs (d - c)) 0.01)
        as [Hb | Hu]; [ now rewrite is_nan_abs | reflexivity | | ]; tauto. }
    split.
    + intros Hd Hc.
      assert (B : (PrimFloat.abs (d - c) <=? 0.01)%float = true)
        by (rewrite Hd, Hc; reflexivity).
      assert (U : (0.01 <? PrimFloat.abs (d - c))%float = false)
        by (rewrite Hd, Hc; reflexivity).
      split; [ split; [ exact Ht | exact B ] | ].
      intros [_ Hf]. congruence.
    + intros Hd Hc.
      assert (B : (PrimFloat.abs (d - c) <=? 0.01)%float = false)
        by (rewrite Hd, Hc; reflexivity).
      assert (U : (0.01 <? PrimFloat.abs (d - c))%float = true)
        by (rewrite Hd, Hc; reflexivity).
      split; [ | split; [ exact Ht | exact U ] ].
      intros [_ Hf]. congruence. }
  split; [ exact V | ]. cbn [v_unbalanced_transactions v_total_debit
                              v_total_credit v_difference v_balanced].
  split.
  { unfold unbalanced_transactions. do 2 f_equal. apply filter_ext_in.
    intros t Ht. rewrite <- Etb in Ht.
    apply in_map_iff in Ht as (k & <- & _). reflexivity. }
  split; [ reflexivity | ]. split; [ reflexivity | ].
  split; [ reflexivity | ]. split; [ reflexivity | ].
  intros b res name Hres Hs Hl.
  unfold get_balance_validation in Hres. fold (sheets b) in Hres.
  assert (Hf : In (name, df)
                  (filter (fun s : string * DataFrame =>
                             (0 <? len (snd s))%nat) (sheets b))).
  { apply filter_In. split; [ exact Hs | ]. now apply Nat.ltb_lt. }
  destruct (mapM_In _ _ _ _ Hres Hf) as (e & He & Hv).
  cbn [fst snd] in Hv. rewrite V in Hv. cbn [bind] in Hv.
  injection Hv as <-. exact He.
Qed.

End ValidatorWords.

Lemma balance_tolerance_witness :
  transaction_balance (P := plain) two_transactions
  = Ok [mkTB (Num 1) 100 99.995 (100 - 99.995);
        mkTB (Num 2) 100 99.98 (100 - 99.98)]
  /\ within_tolerance 100 99.995 = true
  /\ beyond_tolerance 100 99.995 = false
  /\ within_tolerance 100 99.98 = false
  /\ beyond_tolerance 100 99.98 = true
  /\ get_balance_validation (P := plain) two_transactions_buckets
     = Ok [("נתונים נוספים",
            {| v_total_debit := 200;
               v_total_credit := (99.995 + 99.98)%float;
               v_difference := (200 - (99.995 + 99.98))%float;
               v_balanced := false;
               v_unbalanced_transactions := Some 1%nat |})]
  /\ exists ids debit credit v,
       get_col two_transactions col_transaction = Ok ids
       /\ (cells <- get_col two_transactions col_debit ;; mapM as_float cells)
          = Ok debit
       /\ (cells <- get_col two_transactions col_credit ;; mapM as_float cells)
          = Ok credit
       /\ validate_sheet (P := plain) two_transactions = Ok v
       /\ v_unbalanced_transactions v = Some 1%nat
       /\ In ("נתונים נוספים", v)
             [("נתונים נוספים",
               {| v_total_debit := 200;
                  v_total_credit := (99.995 + 99.98)%float;
                  v_difference := (200 - (99.995 + 99.98))%float;
                  v_balanced := false;
                  v_unbalanced_transactions := Some 1%nat |})].
Proof.
  assert (T : transaction_balance (P := plain) two_transactions
              = Ok [mkTB (Num 1) 100 99.995 (100 - 99.995);
                    mkTB (Num 2) 100 99.98 (100 - 99.98)])
    by (vm_compute; reflexivity).
  assert (G : get_balance_validation (P := plain) two_transactions_buckets
              = Ok [("נתונים נוספים",
                     {| v_total_debit := 200;
                        v_total_credit := (99.995 + 99.98)%float;
                        v_difference := (200 - (99.995 + 99.98))%float;
                        v_balanced := false;
                        v_unbalanced_transactions := Some 1%nat |})])
    by (vm_compute; reflexivity).
  split; [ exact T | ].
  do 4 (split; [ vm_compute; reflexivity | ]).
  split; [ exact G | ].
  destruct (balance_tolerance (P := plain) two_transactions _ T)
    as (ids & debit & credit & v & Hi & Hd & Hc & _ & _ & _ & Hv & Hu
        & _ & _ & _ & _ & Hg).
  exists ids, debit, credit, v.
  split; [ exact Hi | ]. split; [ exact Hd | ]. split; [ exact Hc | ].
  split; [ exact Hv | ]. split; [ exact Hu | ].
  exact (Hg two_transactions_buckets _ "rest" G
           (or_intror (or_intror (or_introl eq_refl))) (Nat.lt_0_succ 1)).
Defined.

(** ** The excluded accounts *)

Lemma is_excluded_words account : is_excluded account = excluded_account account.
Proof. destruct account; reflexivity. Qed.

Section ExcludedAccounts.

Context {P : Pandas}.

(** X21. No entry of [revenue_summary] has the number 70001 or the number
    70100 for account, and the rows between the header and the grand
    total are the rows of these entries and nothing else: for a row of
    the bucket whose credit account is one of these two numbers no entry,
    hence no summary row, belongs to its account. The grand total sums
    the credit of every row of the bucket, whatever its account. *)
Theorem excluded_numbers_only_in_total df s :
  create_excel_summary df = Ok s ->
  exists cd summary entries tc,
    revenue_summary df = Ok summary
    /\ Forall (fun e : cell * cell * float =>
                 excluded_account (fst (fst e)) = false) summary
    /\ (forall r, In r (rows df) ->
          excluded_account (cell_of col_credit_account r) = true ->
          forall e, In e summary ->
            cell_eqb (cell_of col_credit_account r) (fst (fst e)) = false)
    /\ Forall2 (fun e r => revenue_row cd e = Ok r)
               (filter (fun e : cell * cell * float => (0 <? snd e)%float)
                       summary)
               entries
    /\ map snd (rows s) = header_row :: entries ++ [total_row cd tc]
    /\ sums_all_credit df tc.
Proof.
  intros H.
  destruct (create_excel_summary_Ok df s H)
    as (cd & summary & entries & tc & _ & Hs & He & Ht & Hrows).
  pose proof (revenue_summary_not_excluded df summary Hs) as Hx.
  exists cd, summary, entries, tc.
  split; [ exact Hs | ]. split.
  { eapply Forall_impl; [ | exact Hx ]. intros e Hne.
    rewrite <- is_excluded_words. exact Hne. }
  split.
  { intros r _ Hr e Hin. rewrite <- is_excluded_words in Hr.
    destruct (cell_eqb (cell_of col_credit_account r) (fst (fst e))) eqn:E;
      [ | reflexivity ].
    apply is_excluded_compat in E. rewrite Forall_forall in Hx.
    specialize (Hx e Hin). congruence. }
  split; [ now apply mapM_Forall2 | ].
  split; [ exact Hrows | now apply total_credit_Ok ].
Qed.

End ExcludedAccounts.

Lemma excluded_numbers_witness :
  (s <- create_excel_summary (P := plain) both_excluded_example ;;
   Ok (shown s))
  = Ok [(Str "", Str "", Str "");
        (Str "40000", Str "Y", Str "30");
        (Str (String.append total_label "(זכות)"), Str "סכום כולל",
         Str "100")]
  /\ excluded_account (Num 70001) = true
  /\ excluded_account (Num 70100) = true
  /\ exists s summary,
       create_excel_summary (P := plain) both_excluded_example = Ok s
       /\ revenue_summary (P := plain) both_excluded_example = Ok summary
       /\ Forall (fun e : cell * cell * float =>
                    excluded_account (fst (fst e)) = false) summary.
Proof.
  split; [ vm_compute; reflexivity | ].
  split; [ vm_compute; reflexivity | ].
  split; [ vm_compute; reflexivity | ].
  destruct (create_excel_summary (P := plain) both_excluded_example)
    as [s | e] eqn:E; [ | vm_compute in E; discriminate ].
  destruct (excluded_numbers_only_in_total (P := plain) both_excluded_example
              s E)
    as (cd & summary & entries & tc & Hs & Hx & _).
  exists s, summary. auto.
Defined.

(** C6. The account of a row of [rest] is the product reference as the
    table has it: where the column was read as text, the account 70001 is
    the text "70001", which is not in the list of numbers the summary
    builder excludes. The row then gets a summary row of its own, under
    the label 70001, besides entering the grand total; with the column
    read as numbers the same row is excluded. *)
Theorem text_account_gets_summary_row :
  (b <- split_data (P := plain) text_accounts ;;
   b' <- prepare_columns (P := plain) b ;;
   s <- create_excel_summary (P := plain) (rest b') ;;
   Ok (map (cell_of col_credit_account) (rows (rest b')),
       map (cell_of col_product_name) (rows (rest b')),
       map (cell_of col_credit) (rows (rest b')),
       shown s))
  = Ok ([Str "70001"], [Str "X"], [Num 50],
        [(Str "", Str "", Str "");
         (Str "70001", Str "X", Str "50");
         (Str (String.append total_label "(זכות)"), Str "סכום כולל",
          Str "50")])
  /\ (b <- split_data (P := plain) number_accounts ;;
      b' <- prepare_columns (P := plain) b ;;
      s <- create_excel_summary (P := plain) (rest b') ;;
      Ok (map (cell_of col_credit_account) (rows (rest b')),
          map (cell_of col_product_name) (rows (rest b')),
          map (cell_of col_credit) (rows (rest b')),
          shown s))
     = Ok ([Num 70001], [Str "X"], [Num 50],
           [(Str "", Str "", Str "");
            (Str (String.append total_label "(זכות)"), Str "סכום כולל",
             Str "50")]).
Proof. split; vm_compute; reflexivity. Qed.

(** ** The validator over the three buckets *)

Section ValidatorBuckets.

Context {P : Pandas}.

Lemma validate_sheet_with_transaction df v :
  has_col df col_transaction = true ->
  validate_sheet df = Ok v ->
  validate_sheet (with_transaction df) = Ok v.
Proof.
  intros Ht. unfold validate_sheet.
  change (has_col (with_transaction df)) with (has_col df).
  rewrite Ht. simpl.
  destruct (has_col df col_debit && has_col df col_credit) eqn:C.
  - intros H. inv_bind H.
    now rewrite (transaction_balance_with_transaction _ _ E).
  - intros H. exfalso. unfold get_col in H.
    apply andb_false_iff in C. destruct C as [C | C].
    + rewrite C in H. discriminate.
    + destruct (has_col df col_debit); [ | discriminate ]. simpl in H.
      inv_bind H. rewrite C in H. discriminate.
Qed.

(** The validation of a bucket that has the transaction column and no
    row. *)
Lemma validate_sheet_no_rows df v :
  has_col df col_transaction = true ->
  len df = 0%nat ->
  validate_sheet df = Ok v ->
  v = no_transactions.
Proof.
  intros Ht Hl. unfold len in Hl. apply length_zero_iff_nil in Hl.
  unfold validate_sheet, transaction_balance, get_col. rewrite Ht, Hl.
  destruct (has_col df col_debit); simpl; [ | discriminate ].
  destruct (has_col df col_credit); simpl; [ | discriminate ].
  now intros [= <-].
Qed.

Lemma len_with_transaction_le df : (len (with_transaction df) <= len df)%nat.
Proof.
  unfold with_transaction, loc, len. cbn [rows]. apply select_length_le.
Qed.

Lemma validation_of_sheets (l : list (string * DataFrame)) res :
  (forall s, In s l -> (0 < len (snd s))%nat ->
             has_col (snd s) col_transaction = true) ->
  mapM (fun s : string * DataFrame =>
          v <- validate_sheet (snd s) ;;
          Ok (rename_col hebrew_names (fst s), v))
       (filter (fun s : string * DataFrame => (0 <? len (snd s))%nat) l)
  = Ok res ->
  mapM (fun s : string * DataFrame =>
          v <- validate_sheet (snd s) ;;
          Ok (rename_col hebrew_names (fst s), v))
       (filter (fun s : string * DataFrame => (0 <? len (snd s))%nat)
               (map (fun s => (fst s, with_transaction (snd s))) l))
  = Ok (select
          (map (fun s : string * DataFrame =>
                  (0 <? len (with_transaction (snd s)))%nat)
               (filter (fun s : string * DataFrame => (0 <? len (snd s))%nat)
                       l))
          res)
  /\ Forall2 (fun (s : string * DataFrame) (e : string * Validation) =>
                fst e = rename_col hebrew_names (fst s)
                /\ (len (with_transaction (snd s)) = 0%nat ->
                    snd e = no_transactions))
             (filter (fun s : string * DataFrame => (0 <? len (snd s))%nat) l)
             res.
Proof.
  revert res. induction l as [| s l IH]; intros res Hc; simpl.
  - intros [= <-]. split; [ reflexivity | constructor ].
  - assert (Hc' : forall s', In s' l -> (0 < len (snd s'))%nat ->
                             has_col (snd s') col_transaction = true)
      by (intros s' Hs'; apply Hc; now right).
    destruct (Nat.ltb_spec 0 (len (snd s))) as [Hl | Hl].
    + cbn [mapM]. intros H. inv_bind H. inv_bind E. injection E as <-.
      inv_bind H. injection H as <-. rename a0 into v, a into res.
      destruct (IH res Hc' E) as [IH1 IH2].
      assert (Ht : has_col (snd s) col_transaction = true)
        by (apply Hc; [ now left | exact Hl ]).
      pose proof (validate_sheet_with_transaction _ _ Ht E0) as Hv.
      cbn [map select fst snd].
      split.
      * destruct (Nat.ltb_spec 0 (len (with_transaction (snd s)))) as [Hw | Hw].
        -- cbn [mapM fst snd]. rewrite Hv. cbn [bind]. rewrite IH1.
           reflexivity.
        -- exact IH1.
      * constructor; [ | exact IH2 ]. cbn [fst snd].
        split; [ reflexivity | ]. intros Hw.
        exact (validate_sheet_no_rows (with_transaction (snd s)) v Ht Hw Hv).
    + intros H. cbn [fst snd].
      pose proof (len_with_transaction_le (snd s)) as Hle.
      destruct (Nat.ltb_spec 0 (len (with_transaction (snd s)))) as [Hw | Hw];
        [ lia | ].
      now apply IH.
Qed.

(** X12. The validator leaves out the rows that carry no transaction id:
    their debit and credit enter neither the totals nor the count. When
    the buckets that have rows have the transaction column, the
    validation of the buckets without these rows is the validation of the
    buckets as they are, entry by entry, less the entries of the buckets
    none of whose rows has a transaction id; such an entry, which only
    the buckets as they are have, shows empty sums and no unbalanced
    transaction. *)
Theorem validation_ignores_rows_without_transaction b res :
  (forall s, In s (sheets b) -> (0 < len (snd s))%nat ->
             has_col (snd s) col_transaction = true) ->
  get_balance_validation b = Ok res ->
  let validated :=
    filter (fun s : string * DataFrame => (0 <? len (snd s))%nat) (sheets b) in
  get_balance_validation (with_transaction_buckets b)
  = Ok (select (map (fun s : string * DataFrame =>
                       (0 <? len (with_transaction (snd s)))%nat) validated)
               res)
  /\ Forall2 (fun (s : string * DataFrame) (e : string * Validation) =>
                fst e = rename_col hebrew_names (fst s)
                /\ (len (with_transaction (snd s)) = 0%nat ->
                    snd e = no_transactions))
             validated res.
Proof.
  intros Hc H. cbv zeta. unfold get_balance_validation in *.
  fold (sheets b) in H.
  change [("without_ad", without_advertisement (with_transaction_buckets b));
          ("advertisement", advertisment (with_transaction_buckets b));
          ("rest", rest (with_transaction_buckets b))]
    with (map (fun s : string * DataFrame => (fst s, with_transaction (snd s)))
              (sheets b)).
  now apply validation_of_sheets.
Qed.

End ValidatorBuckets.

Lemma validation_ignores_rows_witness :
  get_balance_validation (P := plain) stray_buckets
  = Ok [("ללא פרסומים",
         {| v_total_debit := 100; v_total_credit := 100; v_difference := 0;
            v_balanced := true; v_unbalanced_transactions := Some 0%nat |});
        ("פרסומים",
         {| v_total_debit := 0; v_total_credit := 0; v_difference := 0;
            v_balanced := true; v_unbalanced_transactions := Some 0%nat |})]
  /\ get_balance_validation (P := plain) (with_transaction_buckets stray_buckets)
     = Ok [("ללא פרסומים",
            {| v_total_debit := 100; v_total_credit := 100; v_difference := 0;
               v_balanced := true; v_unbalanced_transactions := Some 0%nat |})]
  /\ exists res,
       get_balance_validation (P := plain) stray_buckets = Ok res
       /\ get_balance_validation (P := plain)
            (with_transaction_buckets stray_buckets)
          = Ok (select [true; false] res).
Proof.
  assert (G : get_balance_validation (P := plain) stray_buckets
              = Ok [("ללא פרסומים",
                     {| v_total_debit := 100; v_total_credit := 100;
                        v_difference := 0; v_balanced := true;
                        v_unbalanced_transactions := Some 0%nat |});
                    ("פרסומים",
                     {| v_total_debit := 0; v_total_credit := 0;
                        v_difference := 0; v_balanced := true;
                        v_unbalanced_transactions := Some 0%nat |})])
    by (vm_compute; reflexivity).
  split; [ exact G | ]. split; [ vm_compute; reflexivity | ].
  eexists. split; [ exact G | ].
  refine (proj1 (validation_ignores_rows_without_transaction (P := plain)
                   stray_buckets _ _ G)).
  intros s [<- | [<- | [<- | []]]] _; reflexivity.
Defined.
